(** * ppt_translator: the translation and export pipeline of [multi_improved.py]

    A shallow embedding of the processing module: the text helpers, the
    font-fit estimator [calculate_font_size], the translation adapter
    [translate_text], the document walker [translate_pptx], the format
    helpers and the multi-language orchestrator [translate_pptx_multi].

    Modelling conventions.
    - Python [float] font sizes and widths are exact rationals ([Q]).  The
      estimator only compares, subtracts, scales and takes maxima; a float
      division by zero raises [ZeroDivisionError], as in Python.
    - Python [str] is [string] restricted to ASCII text: [lower], [strip]
      and [lstrip(".")] act on the ASCII letters and the ASCII white space
      that [str.isspace] accepts.
    - Exceptions are values of [exn]; fallible code returns [result].
    - A [set] is a [gset]; a [dict] whose key order is observable (the
      [translations] dictionary) is an insertion-ordered association list;
      the per-language [outputs] dictionary is a [gmap].
    - External collaborators (glyph metrics, translation providers, the
      document library, the office-suite binary, the OS) are the fields of
      an environment record [Env]. *)

From Stdlib Require Import Ascii QArith Qabs Lqa.
From stdpp Require Import base decidable option list strings gmap sets.

Local Open Scope string_scope.
Local Open Scope list_scope.

(** ** Exceptions and results *)

Inductive exn : Type :=
| FileNotFoundError (msg : string)
| FileExistsError (msg : string)
| ValueError (msg : string)
| RuntimeError (msg : string)
| ZeroDivisionError
| OSError (msg : string)
| NotADirectoryError (msg : string).

(** [str(exc)] as used by the f-strings that build error entries. *)
Definition str_exn (e : exn) : string :=
  match e with
  | FileNotFoundError m | FileExistsError m | ValueError m
  | RuntimeError m | OSError m | NotADirectoryError m => m
  | ZeroDivisionError => "float division by zero"
  end.

Inductive result (A : Type) : Type :=
| Ok (a : A)
| Raise (e : exn).
Arguments Ok {A} a.
Arguments Raise {A} e.

Definition is_ok {A} (r : result A) : bool :=
  match r with Ok _ => true | Raise _ => false end.

(** ** Python string helpers *)

Module PyStr.

(** [str.isspace] on ASCII: TAB..CR (9-13), FS..US (28-31) and SPACE. *)
Definition is_space (c : ascii) : bool :=
  let n := nat_of_ascii c in
  ((9 <=? n)%nat && (n <=? 13)%nat) || ((28 <=? n)%nat && (n <=? 32)%nat).

Definition lower_char (c : ascii) : ascii :=
  let n := nat_of_ascii c in
  if ((65 <=? n)%nat && (n <=? 90)%nat)%bool then ascii_of_nat (n + 32) else c.

Fixpoint lower (s : string) : string :=
  match s with
  | EmptyString => EmptyString
  | String c s' => String (lower_char c) (lower s')
  end.

Fixpoint lstrip_ws (s : string) : string :=
  match s with
  | EmptyString => EmptyString
  | String c s' => if is_space c then lstrip_ws s' else s
  end.

Fixpoint rstrip_ws (s : string) : string :=
  match s with
  | EmptyString => EmptyString
  | String c s' =>
      match rstrip_ws s' with
      | EmptyString => if is_space c then EmptyString else String c EmptyString
      | r => String c r
      end
  end.

(** [s.strip()] *)
Definition strip (s : string) : string := lstrip_ws (rstrip_ws s).

(** [s.lstrip(".")] *)
Fixpoint lstrip_dots (s : string) : string :=
  match s with
  | EmptyString => EmptyString
  | String c s' => if Ascii.eqb c "."%char then lstrip_dots s' else s
  end.

(** Truthiness of a string: [bool(s)]. *)
Definition truthy (s : string) : bool :=
  match s with EmptyString => false | _ => true end.

(** [not s.strip()] *)
Definition is_blank (s : string) : bool := negb (truthy (strip s)).

(** [sep.join(l)] with the empty separator. *)
Definition join (l : list string) : string := fold_right String.append "" l.

End PyStr.

(** ** Numbers *)

(** Python's [max(a, b)]: the first argument unless the second is larger. *)
Definition py_max (a b : Q) : Q := if Qlt_le_dec a b then b else a.

(** [a <= b], [a >= b], [a == b] as tests. *)
Definition Qleb (a b : Q) : bool := if Qlt_le_dec b a then false else true.
Definition Qgeb (a b : Q) : bool := Qleb b a.
Definition Qeqb (a b : Q) : bool := Qeq_bool a b.

(** Float true division: raises on a zero divisor. *)
Definition py_div (a b : Q) : result Q :=
  if Qeqb b 0 then Raise ZeroDivisionError else Ok (a / b)%Q.

(** The parsed body of the public translation endpoint: [None] stands for a
    falsy [result] or a falsy [result[0]]; otherwise the list of the
    segments' [item[0]] ([None] for a falsy one). *)
Definition google_body : Type := option (list (option string)).

(** ** Font-fit estimator *)

Section FontFit.

(** [reportlab.pdfbase.pdfmetrics.stringWidth text font_name font_size];
    [None] when the call raises. *)
Variable stringWidth : string -> string -> Q -> option Q.

Definition get_text_width (text : string) (font_size : Q) (font_name : string) : Q :=
  match stringWidth text font_name font_size with
  | Some w => w
  | None => (inject_Z (Z.of_nat (String.length text)) * font_size * (6 # 10))%Q
  end.

(** The tiered maximum reduction ("conservative minimum"). *)
Definition conservative_min (current_size : Q) : Q :=
  if Qgeb current_size 20 then (current_size - 2)%Q
  else if Qgeb current_size 14 then (current_size - (15 # 10))%Q
  else (current_size - 1)%Q.

(** The tiered absolute floor. *)
Definition absolute_min (current_size min_size : Q) : Q :=
  if Qgeb current_size 24 then 20%Q
  else if Qgeb current_size 16 then 13%Q
  else py_max min_size 10.

Definition calculate_font_size
    (text : string) (max_width current_size min_size : Q) : result Q :=
  if PyStr.is_blank text then Ok current_size
  else
    let current_width := get_text_width text current_size "Helvetica" in
    if Qleb current_width (max_width * (11 # 10))%Q then Ok current_size
    else
      let final_min :=
        py_max (conservative_min current_size) (absolute_min current_size min_size) in
      match py_div max_width current_width with
      | Raise e => Raise e
      | Ok scale_factor =>
          let new_size := (current_size * scale_factor)%Q in
          Ok (py_max new_size final_min)
      end.

End FontFit.

(** ** The environment: everything the module reaches outside itself *)

(** The document object model of the presentation library, as far as the
    walker reads and writes it.  Lengths are integers in EMU, as the
    library's [Length] type is; [None] is an absent attribute. *)
Record Run : Type := mkRun {
  run_text : string;
  run_size : option Z          (* [run.font.size] *)
}.

Definition Paragraph : Type := list Run.

Record TextFrame : Type := mkTextFrame {
  paragraphs : list Paragraph;
  word_wrap : bool;
  auto_size_fit : bool          (* [auto_size == MSO_AUTO_SIZE.TEXT_TO_FIT_SHAPE] *)
}.

Record Shape : Type := mkShape {
  shape_text_frame : option TextFrame;
  shape_width : option Z;
  shape_table : option (list (list TextFrame))   (* rows of cells' text frames *)
}.

Definition Slide : Type := list Shape.
Definition Presentation : Type := list Slide.

Record Env : Type := mkEnv {
  (** [reportlab]'s [stringWidth]; [None] when it raises. *)
  env_stringWidth : string -> string -> Q -> option Q;
  (** The google endpoint for (text, target, source): [None] when anything
      inside the [try] raises (request, status check, JSON parse, indexing). *)
  env_google : string -> string -> string -> option google_body;
  (** The DeepL endpoint for (text, TARGET, key): the first translation's
      text, [None] when anything in the call raises. *)
  env_deepl : string -> string -> string -> option string;
  (** The chat completion for (text, target, key): the message content,
      [None] when anything in the call raises. *)
  env_openai : string -> string -> string -> option string;
  env_DEEPL_API_KEY : option string;
  env_OPENAI_API_KEY : option string;
  (** The exception, if any, that the document library raises when a run's
      text is assigned this string. *)
  env_set_text_error : string -> option exn;
  (** The exception, if any, raised by [prs.save(path)]. *)
  env_save_error : string -> option exn;
  env_LIBREOFFICE_PATH : string;
  (** [bool(shutil.which(name))] *)
  env_which : string -> bool;
  (** An operating-system refusal of [mkdir] on a path that is free. *)
  env_mkdir_error : string -> option exn;
  (** Exit code of the converter for (convert_arg, source). *)
  env_soffice_exit : string -> string -> Z;
  (** The newest file the converter left for (source, extension), if any. *)
  env_soffice_output : string -> string -> option string;
  (** The exception, if any, raised while writing the archive of a root. *)
  env_zip_error : string -> option exn
}.

(** ** Text translation adapter *)

Module PyStrUpper.
Definition upper_char (c : ascii) : ascii :=
  let n := nat_of_ascii c in
  if ((97 <=? n)%nat && (n <=? 122)%nat)%bool then ascii_of_nat (n - 32) else c.

Fixpoint upper (s : string) : string :=
  match s with
  | EmptyString => EmptyString
  | String c s' => String (upper_char c) (upper s')
  end.
End PyStrUpper.

(** Truthiness of an optional string ([None] and [""] are falsy). *)
Definition opt_truthy (k : option string) : bool :=
  match k with Some s => PyStr.truthy s | None => false end.

Section Adapter.

Variable env : Env.

Definition translate_with_google (text target_lang source_lang : string) : string :=
  if PyStr.is_blank text then text
  else
    match env_google env text target_lang source_lang with
    | None => text                                   (* except: return text *)
    | Some None => text
    | Some (Some []) => text                         (* falsy result[0] *)
    | Some (Some items) =>
        PyStr.join (omap (fun it =>
                            match it with
                            | Some s => if PyStr.truthy s then Some s else None
                            | None => None
                            end) items)
    end.

Definition translate_with_deepl (text target_lang : string) (api_key : option string) : string :=
  if PyStr.is_blank text || negb (opt_truthy api_key) then text
  else
    match env_deepl env text (PyStrUpper.upper target_lang) (default "" api_key) with
    | Some t => t
    | None => text
    end.

Definition translate_with_openai (text target_lang : string) (api_key : option string) : string :=
  if PyStr.is_blank text || negb (opt_truthy api_key) then text
  else
    match env_openai env text target_lang (default "" api_key) with
    | Some content => PyStr.strip content
    | None => text
    end.

Definition translate_text (text target_lang service : string) (api_key : option string) : string :=
  let s := PyStr.lower service in
  if String.eqb s "deepl" then translate_with_deepl text target_lang api_key
  else if String.eqb s "openai" then translate_with_openai text target_lang api_key
  else if String.eqb s "google" then translate_with_google text target_lang "auto"
  else translate_with_google text target_lang "auto".

(** The provider key picked from the environment when the caller gave none. *)
Definition resolve_api_key (service : string) (api_key : option string) : option string :=
  let s := PyStr.lower service in
  if String.eqb s "deepl" && negb (opt_truthy api_key) then env_DEEPL_API_KEY env
  else if String.eqb s "openai" && negb (opt_truthy api_key) then env_OPENAI_API_KEY env
  else api_key.

End Adapter.

(** ** Document walker *)

(** [Length.pt]: EMU to points. *)
Definition length_pt (emu : Z) : Q := (inject_Z emu / 12700)%Q.

(** [Length.inches] *)
Definition length_inches (emu : Z) : Q := (inject_Z emu / 914400)%Q.

(** [Pt(points)]: [int(points * 12700)], truncating toward zero. *)
Definition Pt (points : Q) : Z :=
  let x := (points * 12700)%Q in Z.quot (Qnum x) (Zpos (Qden x)).

(** Truthiness of a [Length] attribute: present and non-zero. *)
Definition length_truthy (l : option Z) : bool :=
  match l with Some z => negb (Z.eqb z 0) | None => false end.

Definition Qabs_gt (d bound : Q) : bool := negb (Qleb (Qabs d) bound).

(** The accumulators of the first pass over one text container. *)
Record Pass1 : Type := mkPass1 {
  original_size : Q;
  all_translated_text : string;
  total_translated : nat
}.

(** Threading a state through a list, left to right. *)
Fixpoint map_accum {S A B : Type} (f : S -> A -> S * B) (s : S) (l : list A) : S * list B :=
  match l with
  | [] => (s, [])
  | a :: l' =>
      let '(s1, b) := f s a in
      let '(s2, bs) := map_accum f s1 l' in
      (s2, b :: bs)
  end.

Section Walker.

Variable env : Env.
Variables (target_lang service : string) (api_key : option string).

(** The size captured by one run: taken only while the accumulator still
    holds the container's default value. *)
Definition capture_size (dflt : Q) (st_size : Q) (r : Run) : Q :=
  match run_size r with
  | Some emu =>
      if length_truthy (Some emu) && Qeqb st_size dflt then length_pt emu else st_size
  | None => st_size
  end.

(** The body of the innermost loop of the first pass. *)
Definition translate_run (dflt : Q) (st : Pass1) (r : Run) : Pass1 * Run :=
  if PyStr.truthy (run_text r) && negb (PyStr.is_blank (run_text r)) then
    let size1 := capture_size dflt (original_size st) r in
    let original_text := run_text r in
    let translated_text := translate_text env original_text target_lang service api_key in
    match env_set_text_error env translated_text with
    | Some _ =>
        (* the handler only prints a warning *)
        (mkPass1 size1 (all_translated_text st) (total_translated st), r)
    | None =>
        (mkPass1 size1
                 (all_translated_text st ++ translated_text ++ " ")
                 (S (total_translated st)),
         mkRun translated_text (run_size r))
    end
  else (st, r).

Definition first_pass (dflt : Q) (total : nat) (ps : list Paragraph) : Pass1 * list Paragraph :=
  map_accum (map_accum (translate_run dflt)) (mkPass1 dflt "" total) ps.

(** The second pass: one size for every non-blank run. *)
Definition resize_runs (optimal_size : Q) (ps : list Paragraph) : list Paragraph :=
  map (map (fun r =>
              if negb (PyStr.is_blank (run_text r))
              then mkRun (run_text r) (Some (Pt optimal_size)) else r)) ps.

Definition second_pass (max_width min_size : Q) (st : Pass1) (ps : list Paragraph)
  : result (list Paragraph) :=
  match calculate_font_size (env_stringWidth env)
          (PyStr.strip (all_translated_text st)) max_width (original_size st) min_size with
  | Raise e => Raise e
  | Ok optimal_size =>
      if Qabs_gt (optimal_size - original_size st) (5 # 10)
      then Ok (resize_runs optimal_size ps) else Ok ps
  end.

Definition walk_text_frame (width : option Z) (total : nat) (tf : TextFrame)
  : result (nat * TextFrame) :=
  let '(st, ps) := first_pass 12 total (paragraphs tf) in
  let resized :=
    if negb (PyStr.is_blank (all_translated_text st)) && length_truthy width then
      let shape_width := (length_inches (default 0%Z width) * 72)%Q in
      let available_width := (shape_width - 20)%Q in
      second_pass available_width 11 st ps
    else Ok ps in
  match resized with
  | Raise e => Raise e
  | Ok ps' => Ok (total_translated st, mkTextFrame ps' true true)
  end.

Definition walk_cell (total : nat) (tf : TextFrame) : result (nat * TextFrame) :=
  let '(st, ps) := first_pass 10 total (paragraphs tf) in
  let resized :=
    if negb (PyStr.is_blank (all_translated_text st))
    then second_pass 100 10 st ps else Ok ps in
  match resized with
  | Raise e => Raise e
  | Ok ps' => Ok (total_translated st, mkTextFrame ps' (word_wrap tf) (auto_size_fit tf))
  end.

(** A fallible step threaded through a list; the first exception stops it. *)
Fixpoint walk_list {A : Type} (f : nat -> A -> result (nat * A)) (total : nat) (l : list A)
  : result (nat * list A) :=
  match l with
  | [] => Ok (total, [])
  | a :: l' =>
      match f total a with
      | Raise e => Raise e
      | Ok (t1, a') =>
          match walk_list f t1 l' with
          | Raise e => Raise e
          | Ok (t2, l2) => Ok (t2, a' :: l2)
          end
      end
  end.

Definition walk_shape (total : nat) (sh : Shape) : result (nat * Shape) :=
  let after_frame :=
    match shape_text_frame sh with
    | Some tf =>
        match walk_text_frame (shape_width sh) total tf with
        | Raise e => Raise e
        | Ok (t, tf') => Ok (t, Some tf')
        end
    | None => Ok (total, None)
    end in
  match after_frame with
  | Raise e => Raise e
  | Ok (t1, otf) =>
      match shape_table sh with
      | Some rows =>
          match walk_list (walk_list walk_cell) t1 rows with
          | Raise e => Raise e
          | Ok (t2, rows') => Ok (t2, mkShape otf (shape_width sh) (Some rows'))
          end
      | None => Ok (t1, mkShape otf (shape_width sh) None)
      end
  end.

Definition walk_presentation (prs : Presentation) : result (nat * Presentation) :=
  walk_list (walk_list walk_shape) 0%nat prs.

End Walker.

(** ** Process state: file system, module globals, console *)

Inductive File : Type :=
| PptxFile (prs : Presentation)
| OtherFile.

(** The lines the orchestrator prints, as events. *)
Inductive Event : Type :=
| EvStarting (n : nat)
| EvTranslatingTo (language : string)
| EvConvertingPdf
| EvPdfCreated (path : string)
| EvLanguageDone (language : string) (count : nat)
| EvLanguageFailed (language : string) (msg : string)
| EvCreatingZip
| EvZipCreated (path : string).

Record State : Type := mkState {
  dirs : gset string;
  files : gmap string File;
  _libreoffice_checked : bool;
  _libreoffice_available : bool;
  stdout : list Event
}.

(** The module as first imported: nothing checked yet. *)
Definition fresh_process (d : gset string) (f : gmap string File) : State :=
  mkState d f false false [].

Definition M (A : Type) : Type := State -> result A * State.

#[export] Instance M_ret : MRet M := fun A a σ => (Ok a, σ).
#[export] Instance M_bind : MBind M := fun A B k m σ =>
  match m σ with
  | (Ok a, σ1) => k a σ1
  | (Raise e, σ1) => (Raise e, σ1)
  end.

Definition raise {A : Type} (e : exn) : M A := fun σ => (Raise e, σ).

Definition lift {A : Type} (r : result A) : M A := fun σ => (r, σ).

(** [try: m  except Exception as exc: h exc] *)
Definition try_except {A : Type} (m : M A) (h : exn -> M A) : M A := fun σ =>
  match m σ with
  | (Ok a, σ1) => (Ok a, σ1)
  | (Raise e, σ1) => h e σ1
  end.

Definition print (ev : Event) : M unit := fun σ =>
  (Ok tt, mkState (dirs σ) (files σ) (_libreoffice_checked σ) (_libreoffice_available σ)
                  (stdout σ ++ [ev])).

Definition add_dirs (ds : gset string) : M unit := fun σ =>
  (Ok tt, mkState (ds ∪ dirs σ) (files σ) (_libreoffice_checked σ) (_libreoffice_available σ)
                  (stdout σ)).

Definition write_file (p : string) (f : File) : M unit := fun σ =>
  (Ok tt, mkState (dirs σ) (<[p := f]> (files σ)) (_libreoffice_checked σ)
                  (_libreoffice_available σ) (stdout σ)).

Definition path_exists (σ : State) (p : string) : bool :=
  bool_decide (p ∈ dirs σ) || bool_decide (is_Some (files σ !! p)).

(** ** Paths ([pathlib] on POSIX, for normalised path strings) *)

Module PyPath.

(** The text before and after the last occurrence of [sep]. *)
Fixpoint rsplit (sep : ascii) (s : string) : option (string * string) :=
  match s with
  | EmptyString => None
  | String c s' =>
      match rsplit sep s' with
      | Some (b, a) => Some (String c b, a)
      | None => if Ascii.eqb c sep then Some (EmptyString, s') else None
      end
  end.

Definition parent (p : string) : string :=
  match rsplit "/" p with
  | None => "."
  | Some (EmptyString, _) => "/"
  | Some (b, _) => b
  end.

Definition name (p : string) : string :=
  match rsplit "/" p with
  | None => p
  | Some (_, a) => a
  end.

(** The name without its last suffix; a leading or a trailing dot is no suffix. *)
Definition stem (p : string) : string :=
  match rsplit "." (name p) with
  | Some (String c b, String c' a) => String c b
  | _ => name p
  end.

(** [a / b] for a relative [b]. *)
Definition join (a b : string) : string :=
  if String.eqb a "." then b
  else if String.eqb a "/" then "/" ++ b
  else a ++ "/" ++ b.

(** Every proper ancestor directory named in [p]. *)
Fixpoint ancestors_from (pre s : string) : list string :=
  match s with
  | EmptyString => []
  | String c s' =>
      if Ascii.eqb c "/"
      then (if String.eqb pre "" then "/" else pre) :: ancestors_from (pre ++ "/") s'
      else ancestors_from (pre ++ String c EmptyString) s'
  end.

Definition ancestors (p : string) : list string := ancestors_from "" p.

End PyPath.

(** [Path.is_dir()] and [Path.is_file()]; the current directory and the
    root always exist. *)
Definition is_dir (σ : State) (p : string) : bool :=
  bool_decide (p ∈ dirs σ) || String.eqb p "." || String.eqb p "/".

Definition is_file (σ : State) (p : string) : bool :=
  bool_decide (is_Some (files σ !! p)).

(** [os.mkdir(p)]: the path is resolved first - an ancestor that is a
    regular file gives [NotADirectoryError], a missing one
    [FileNotFoundError] -, then an existing path gives [FileExistsError],
    then the system may refuse; otherwise the directory is created. *)
Definition os_mkdir (env : Env) (p : string) : M unit := fun σ =>
  match List.find (fun a => negb (is_dir σ a)) (PyPath.ancestors p) with
  | Some a =>
      if is_file σ a
      then (Raise (NotADirectoryError ("[Errno 20] Not a directory: '" +:+ p +:+ "'")), σ)
      else (Raise (FileNotFoundError
                     ("[Errno 2] No such file or directory: '" +:+ p +:+ "'")), σ)
  | None =>
      if is_dir σ p || is_file σ p
      then (Raise (FileExistsError ("[Errno 17] File exists: '" +:+ p +:+ "'")), σ)
      else
        match env_mkdir_error env p with
        | Some e => (Raise e, σ)
        | None => add_dirs {[p]} σ
        end
  end.

(** [Path.mkdir(parents=False, exist_ok=...)]: one [os.mkdir]; a missing
    parent is raised as it is, any other error is forgiven when [exist_ok]
    holds and the path is a directory (which is then known to the state). *)
Definition mkdir_plain (env : Env) (exist_ok : bool) (p : string) : M unit := fun σ =>
  match os_mkdir env p σ with
  | (Ok tt, σ1) => (Ok tt, σ1)
  | (Raise (FileNotFoundError m), _) => (Raise (FileNotFoundError m), σ)
  | (Raise e, _) =>
      if exist_ok && is_dir σ p
      then (if bool_decide (p ∈ dirs σ) then (Ok tt, σ) else add_dirs {[p]} σ)
      else (Raise e, σ)
  end.

(** [Path.mkdir(parents=True, exist_ok=...)] on [p], whose proper ancestors
    are [ups], nearest first: when [os.mkdir] misses a parent, the parent is
    made first (with [parents=True, exist_ok=True]) and [p] is tried again
    with [parents=False].  What was created before a failure stays. *)
Fixpoint mkdir_from (env : Env) (exist_ok : bool) (p : string) (ups : list string)
  : M unit := fun σ =>
  match os_mkdir env p σ, ups with
  | (Raise (FileNotFoundError _), _), up :: ups' =>
      match mkdir_from env true up ups' σ with
      | (Ok tt, σ1) => mkdir_plain env exist_ok p σ1
      | (Raise e, σ1) => (Raise e, σ1)
      end
  | _, _ => mkdir_plain env exist_ok p σ
  end.

(** [Path.mkdir(parents=..., exist_ok=...)] *)
Definition mkdir (env : Env) (parents exist_ok : bool) (p : string) : M unit :=
  mkdir_from env exist_ok p (if parents then rev (PyPath.ancestors p) else []).

(** ** The single-language job *)

Definition translate_pptx (env : Env)
    (input_file output_file target_lang service : string) (api_key : option string)
  : M nat := fun σ =>
  if negb (path_exists σ input_file) then (Ok 0%nat, σ)
  else
    match files σ !! input_file with
    | Some (PptxFile prs) =>
        let api_key := resolve_api_key env service api_key in
        match walk_presentation env target_lang service api_key prs with
        | Raise e => (Raise e, σ)
        | Ok (total, prs') =>
            match env_save_error env output_file with
            | Some _ => (Ok 0%nat, σ)
            | None => (Ok total, snd (write_file output_file (PptxFile prs') σ))
            end
        end
    | _ => (Ok 0%nat, σ)          (* the load raised *)
    end.

(** ** Converter availability and format helpers *)

Definition ALLOWED_FORMATS : gset string := {[ "pptx"; "pdf" ]}.

Definition set_libreoffice (checked available : bool) : M unit := fun σ =>
  (Ok tt, mkState (dirs σ) (files σ) checked available (stdout σ)).

Definition _ensure_libreoffice_available (env : Env) : M unit := fun σ =>
  if _libreoffice_checked σ then
    if negb (_libreoffice_available σ)
    then (Raise (FileNotFoundError "LibreOffice (soffice) not found."), σ)
    else (Ok tt, σ)
  else
    let resolved := env_which env (env_LIBREOFFICE_PATH env) in
    let σ1 := snd (set_libreoffice true resolved σ) in
    if negb resolved
    then (Raise (FileNotFoundError "LibreOffice (soffice) not found."), σ1)
    else (Ok tt, σ1).

(** [fmt.lower().strip().lstrip(".")] *)
Definition clean_format (fmt : string) : string :=
  PyStr.lstrip_dots (PyStr.strip (PyStr.lower fmt)).

(** The loop of [_normalize_formats], with its accumulator. *)
Fixpoint normalize_loop (normalized formats : list string) : list string :=
  match formats with
  | [] => normalized
  | fmt :: rest =>
      let normalized1 :=
        if PyStr.truthy fmt then
          let cleaned := clean_format fmt in
          if PyStr.truthy cleaned && negb (bool_decide (cleaned ∈ normalized))
          then normalized ++ [cleaned] else normalized
        else normalized in
      normalize_loop normalized1 rest
  end.

(** [sorted] on strings, by insertion. *)
Fixpoint insert_sorted (x : string) (l : list string) : list string :=
  match l with
  | [] => [x]
  | y :: l' => if String.leb x y then x :: l else y :: insert_sorted x l'
  end.

Definition sorted (l : list string) : list string := foldr insert_sorted [] l.

(** [repr] of a string, for code points up to 255: single quotes unless
    the string holds a single quote and no double quote; the quote in use
    and the backslash are escaped, TAB, LF and CR are written [\t], [\n]
    and [\r], and the other non-printable characters [\xhh]. *)
Module PyRepr.

Definition squote : ascii := "'"%char.
Definition dquote : ascii := "034"%char.
Definition backslash : ascii := "\"%char.

Fixpoint contains (c : ascii) (s : string) : bool :=
  match s with
  | EmptyString => false
  | String c' s' => Ascii.eqb c' c || contains c s'
  end.

Definition hex_digit (n : nat) : ascii :=
  if (n <? 10)%nat then ascii_of_nat (48 + n) else ascii_of_nat (87 + n).

Definition printable (n : nat) : bool :=
  negb ((n <? 32)%nat || ((127 <=? n)%nat && (n <=? 160)%nat) || (n =? 173)%nat).

Definition escape_char (quote c : ascii) : string :=
  let n := nat_of_ascii c in
  if Ascii.eqb c backslash || Ascii.eqb c quote then String backslash (String c EmptyString)
  else if (n =? 9)%nat then String backslash "t"
  else if (n =? 10)%nat then String backslash "n"
  else if (n =? 13)%nat then String backslash "r"
  else if printable n then String c EmptyString
  else String backslash
         (String "x" (String (hex_digit (n / 16)) (String (hex_digit (n mod 16)) EmptyString))).

Fixpoint escape (quote : ascii) (s : string) : string :=
  match s with
  | EmptyString => EmptyString
  | String c s' => escape_char quote c +:+ escape quote s'
  end.

Definition repr (s : string) : string :=
  let quote := if contains squote s && negb (contains dquote s) then dquote else squote in
  String quote (escape quote s +:+ String quote EmptyString).

End PyRepr.

(** [repr] of a list of strings, without the brackets. *)
Fixpoint repr_items (l : list string) : string :=
  match l with
  | [] => ""
  | [x] => PyRepr.repr x
  | x :: l' => PyRepr.repr x +:+ ", " +:+ repr_items l'
  end.

Definition repr_list (l : list string) : string := "[" +:+ repr_items l +:+ "]".

(** [sorted(set(normalized) - ALLOWED_FORMATS)] *)
Definition invalid_formats (normalized : list string) : list string :=
  sorted (elements ((list_to_set normalized : gset string) ∖ ALLOWED_FORMATS)).

Definition _normalize_formats (formats : option (list string)) : result (list string) :=
  match formats with
  | None | Some [] => Ok ["pptx"]
  | Some fs =>
      let normalized := normalize_loop [] fs in
      let normalized := match normalized with [] => ["pptx"] | _ => normalized end in
      match invalid_formats normalized with
      | [] => Ok normalized
      | invalid => Raise (ValueError ("Unsupported formats: " ++ repr_list invalid))
      end
  end.

Definition _ensure_output_root (env : Env) (output_root : option string) (input_path : string)
  : M string :=
  let root :=
    if opt_truthy output_root then default "" output_root
    else PyPath.join (PyPath.parent input_path) (PyPath.stem input_path ++ "_translations") in
  _ ← mkdir env true true root;
  mret root.

(** [LIBREOFFICE_CONVERT_OPTIONS.get(target_format)]: filters and extensions. *)
Definition LIBREOFFICE_CONVERT_OPTIONS (target_format : string)
  : option (list string * list string) :=
  if String.eqb target_format "pdf"
  then Some (["pdf:impress_pdf_Export"; "pdf"], [".pdf"]) else None.

(** The converter is run for each filter in turn until one exits with 0;
    the produced file is then looked up by extension. *)
Definition _libreoffice_convert (env : Env) (source_path target_format : string) : M string :=
  match LIBREOFFICE_CONVERT_OPTIONS target_format with
  | None => raise (ValueError ("Unsupported format: " ++ target_format))
  | Some (filters, extensions) =>
      _ ← _ensure_libreoffice_available env;
      if forallb (fun convert_arg =>
                    negb (Z.eqb (env_soffice_exit env convert_arg source_path) 0)) filters
      then raise (RuntimeError "LibreOffice conversion failed")
      else
        (* the candidates kept are those of the last extension tried *)
        match last extensions ≫= env_soffice_output env source_path with
        | Some produced => _ ← write_file produced OtherFile; mret produced
        | None => raise (RuntimeError ("No " ++ target_format ++ " file was produced"))
        end
  end.

Definition _bundle_outputs_to_zip (env : Env) (output_root : string) : M string :=
  let zip_path := (output_root ++ ".zip")%string in
  match env_zip_error env output_root with
  | Some e => raise e
  | None => _ ← write_file zip_path OtherFile; mret zip_path
  end.

(** ** The multi-language orchestrator *)

Record LangResult : Type := mkLangResult {
  count : nat;
  outputs : gmap string string
}.

Record Summary : Type := mkSummary {
  sum_input : string;
  sum_output_root : string;
  sum_zip_path : option string;
  sum_formats : list string;
  sum_translations : list (string * LangResult);
  sum_errors : list string
}.

(** [d[k] = v] on an insertion-ordered dictionary: an existing key keeps
    its place, a new key goes last. *)
Fixpoint dict_set {V : Type} (k : string) (v : V) (d : list (string * V)) : list (string * V) :=
  match d with
  | [] => [(k, v)]
  | (k', v') :: d' =>
      if String.eqb k' k then (k, v) :: d' else (k', v') :: dict_set k v d'
  end.

Fixpoint dict_get {V : Type} (k : string) (d : list (string * V)) : option V :=
  match d with
  | [] => None
  | (k', v') :: d' => if String.eqb k' k then Some v' else dict_get k d'
  end.

Definition dict_keys {V : Type} (d : list (string * V)) : list string := map fst d.

(** [[lang.strip() for lang in target_langs if lang and lang.strip()]] *)
Definition clean_languages (target_langs : list string) : list string :=
  omap (fun lang =>
          if PyStr.truthy lang && PyStr.truthy (PyStr.strip lang)
          then Some (PyStr.strip lang) else None) target_langs.

Definition pptx_path_of (root stem language : string) : string :=
  PyPath.join (PyPath.join root language) (stem +:+ "_" +:+ language +:+ ".pptx").

Section Orchestrator.

Variable env : Env.
Variables (input_path service : string) (api_key : option string).
Variable normalized_formats : list string.
Variable output_root_path : string.

(** The body of the [try] of one loop iteration.  It yields the entry for
    [translations] and the errors appended by the inner handler. *)
Definition process_language (language : string) : M (LangResult * list string) :=
  _ ← print (EvTranslatingTo language);
  let lang_dir := PyPath.join output_root_path language in
  _ ← mkdir env false true lang_dir;
  let pptx_path := pptx_path_of output_root_path (PyPath.stem input_path) language in
  translated ← translate_pptx env input_path pptx_path language service api_key;
  let outputs0 : gmap string string :=
    if bool_decide ("pptx" ∈ normalized_formats) then {[ "pptx" := pptx_path ]} else ∅ in
  σ ← (fun σ => (Ok σ, σ));
  '(outputs1, pdf_errors) ←
    (if bool_decide ("pdf" ∈ normalized_formats) && path_exists σ pptx_path then
       _ ← print EvConvertingPdf;
       try_except
         (pdf_path ← _libreoffice_convert env pptx_path "pdf";
          _ ← print (EvPdfCreated pdf_path);
          mret (<[ "pdf" := pdf_path ]> outputs0, []))
         (fun exc =>
            mret (outputs0, [language +:+ " PDF export failed: " +:+ str_exn exc]))
     else mret (outputs0, []));
  mret (mkLangResult translated outputs1, pdf_errors).

(** [for language in languages: try: ... except Exception as exc: ...] *)
Fixpoint language_loop (languages : list string)
    (translations : list (string * LangResult)) (errors : list string)
  : M (list (string * LangResult) * list string) :=
  match languages with
  | [] => mret (translations, errors)
  | language :: rest =>
      try_except
        ('(entry, pdf_errors) ← process_language language;
         _ ← print (EvLanguageDone language (count entry));
         mret (dict_set language entry translations, errors ++ pdf_errors))
        (fun exc =>
           _ ← print (EvLanguageFailed language (str_exn exc));
           mret (translations, errors ++ [language +:+ ": " +:+ str_exn exc]))
      ≫= (fun '(translations1, errors1) => language_loop rest translations1 errors1)
  end.

End Orchestrator.

(** The statements of [translate_pptx_multi] that come before the loop:
    the checks on the request, the converter check and the output root.
    They yield [languages], [normalized_formats] and [output_root_path]. *)
Definition prepare_job (env : Env)
    (input_path : string) (target_langs : list string)
    (formats : option (list string)) (output_root : option string)
  : M (list string * list string * string) :=
  σ0 ← (fun σ => (Ok σ, σ));
  if negb (path_exists σ0 input_path)
  then raise (FileNotFoundError ("Input file '" +:+ input_path +:+ "' not found."))
  else
    let languages := clean_languages target_langs in
    match languages with
    | [] => raise (ValueError "At least one valid target language must be provided.")
    | _ =>
        normalized_formats ← lift (_normalize_formats formats);
        _ ← (if bool_decide ("pdf" ∈ normalized_formats)
             then _ensure_libreoffice_available env else mret tt);
        output_root_path ← _ensure_output_root env output_root input_path;
        mret (languages, normalized_formats, output_root_path)
    end.

(** The statements that come after the loop: the optional archive. *)
Definition archive_outputs (env : Env) (zip_output : bool) (output_root_path : string)
    (translations : list (string * LangResult)) (errors : list string)
  : M (option string * list string) :=
  if zip_output && negb (bool_decide (translations = [])) then
    try_except
      (_ ← print EvCreatingZip;
       zip_path ← _bundle_outputs_to_zip env output_root_path;
       _ ← print (EvZipCreated zip_path);
       mret (Some zip_path, errors))
      (fun exc => mret (None, errors ++ ["ZIP packaging failed: " +:+ str_exn exc]))
  else mret (None, errors).

Definition translate_pptx_multi (env : Env)
    (input_file : string) (target_langs : list string) (service : string)
    (api_key : option string) (formats : option (list string))
    (output_root : option string) (zip_output : bool) : M Summary :=
  let input_path := input_file in
  '(languages, normalized_formats, output_root_path) ←
    prepare_job env input_path target_langs formats output_root;
  let api_key := resolve_api_key env service api_key in
  _ ← print (EvStarting (length languages));
  '(translations, errors) ←
    language_loop env input_path service api_key normalized_formats
                  output_root_path languages [] [];
  '(zip_path, errors) ←
    archive_outputs env zip_output output_root_path translations errors;
  mret (mkSummary input_path output_root_path zip_path normalized_formats
                  translations errors).

(** ** Specification-side vocabulary *)

(** The request handler's loop "deduplicate while preserving order"
    ([app.py]), started from the list already collected. *)
Fixpoint unique_loop (seen : list string) (l : list string) : list string :=
  match l with
  | [] => seen
  | x :: rest =>
      unique_loop (if bool_decide (x ∈ seen) then seen else seen ++ [x]) rest
  end.

Definition unique (l : list string) : list string := unique_loop [] l.

(** What the console shows of a run of the language loop. *)
Definition attempted_languages (evs : list Event) : list string :=
  omap (fun ev => match ev with EvTranslatingTo l => Some l | _ => None end) evs.

Definition done_languages (evs : list Event) : list string :=
  omap (fun ev => match ev with EvLanguageDone l _ => Some l | _ => None end) evs.

Definition failed_languages (evs : list Event) : list (string * string) :=
  omap (fun ev => match ev with EvLanguageFailed l m => Some (l, m) | _ => None end) evs.

(** The events printed between two states of one call. *)
Definition new_events (σ σ' : State) : list Event :=
  drop (length (stdout σ)) (stdout σ').

(** The cached availability agrees with what looking the binary up gives. *)
Definition cache_coherent (env : Env) (σ : State) : Prop :=
  _libreoffice_checked σ = true ->
  _libreoffice_available σ = env_which env (env_LIBREOFFICE_PATH env).

(** The provider call behind [translate_text] is attempted and raises. *)
Definition provider_call_failed (env : Env)
    (text target_lang service : string) (api_key : option string) : bool :=
  let s := PyStr.lower service in
  negb (PyStr.is_blank text) &&
  (if String.eqb s "deepl" then
     opt_truthy api_key &&
     negb (bool_decide (is_Some (env_deepl env text (PyStrUpper.upper target_lang)
                                           (default "" api_key))))
   else if String.eqb s "openai" then
     opt_truthy api_key &&
     negb (bool_decide (is_Some (env_openai env text target_lang (default "" api_key))))
   else negb (bool_decide (is_Some (env_google env text target_lang "auto")))).

(** A run takes part in the first pass. *)
Definition run_nonblank (r : Run) : bool :=
  PyStr.truthy (run_text r) && negb (PyStr.is_blank (run_text r)).

(** The baseline as the specification words it: the size of the first
    non-blank run that has an explicit size, else the default. *)
Definition first_font_size (dflt : Q) (runs : list Run) : Q :=
  match find (fun r => run_nonblank r && bool_decide (is_Some (run_size r))) runs with
  | Some r => length_pt (default 0%Z (run_size r))
  | None => dflt
  end.

(** The baseline as the walker computes it: the size of the first non-blank
    run whose size is set, non-zero and different from the default. *)
Definition first_non_default_size (dflt : Q) (runs : list Run) : Q :=
  match find (fun r => run_nonblank r && length_truthy (run_size r)
                       && negb (Qeqb (length_pt (default 0%Z (run_size r))) dflt)) runs with
  | Some r => length_pt (default 0%Z (run_size r))
  | None => dflt
  end.

(** The floor claim read for every input: whatever size comes back is at
    least the tiered floor. *)
Definition floor_holds_for_every_input : Prop :=
  forall (sw : string -> string -> Q -> option Q) (text : string) (mw cs ms r : Q),
    calculate_font_size sw text mw cs ms = Ok r -> (absolute_min cs ms <= r)%Q.

(** The enlargement claim read for every input. *)
Definition small_sizes_always_enlarged : Prop :=
  forall (sw : string -> string -> Q -> option Q) (text : string) (mw cs ms : Q),
    PyStr.is_blank text = false ->
    (mw * (11 # 10) < get_text_width sw text cs "Helvetica")%Q ->
    (cs < 10)%Q ->
    exists r : Q, calculate_font_size sw text mw cs ms = Ok r /\ (10 <= r)%Q /\ (cs < r)%Q.

(** The per-run failure claim read for every kind of failure: an exception
    in the walker's [try], or a provider call that raised inside the
    adapter. *)
Definition failed_runs_never_counted : Prop :=
  forall (env : Env) (target_lang service : string) (api_key : option string)
         (dflt : Q) (st : Pass1) (r : Run),
    run_nonblank r = true ->
    is_Some (env_set_text_error env
               (translate_text env (run_text r) target_lang service api_key))
      \/ provider_call_failed env (run_text r) target_lang service api_key = true ->
    run_text (snd (translate_run env target_lang service api_key dflt st r)) = run_text r /\
    total_translated (fst (translate_run env target_lang service api_key dflt st r))
      = total_translated st.

(** Format normalisation as the specification words it: every non-empty
    entry lowercased, trimmed and stripped of leading dots, the empty
    results dropped, duplicates removed keeping first occurrences, and
    ["pptx"] when nothing is left. *)
Definition cleaned_formats (formats : list string) : list string :=
  omap (fun fmt =>
          if PyStr.truthy fmt && PyStr.truthy (clean_format fmt)
          then Some (clean_format fmt) else None) formats.

Definition normalized_by_words (formats : list string) : list string :=
  match unique (cleaned_formats formats) with
  | [] => ["pptx"]
  | l => l
  end.

(** Some requested format normalises to ["pdf"]. *)
Definition pdf_requested (formats : option (list string)) : Prop :=
  exists (fs : list string) (fmt : string),
    formats = Some fs /\ fmt ∈ fs /\ clean_format fmt = "pdf".

(** An entry of [translations] reports the language's target path under
    ["pptx"]. *)
Definition reports_pptx_path (root stem : string) (kv : string * LangResult) : Prop :=
  outputs (snd kv) !! "pptx" = Some (pptx_path_of root stem (fst kv)).


(** The runs of a document in the order the walker visits them. *)
Definition frame_runs (tf : TextFrame) : list Run := concat (paragraphs tf).

Definition table_runs (rows : list (list TextFrame)) : list Run :=
  concat (map (fun row => concat (map frame_runs row)) rows).

Definition shape_runs (sh : Shape) : list Run :=
  from_option frame_runs [] (shape_text_frame sh)
    ++ from_option table_runs [] (shape_table sh).

Definition presentation_runs (prs : Presentation) : list Run :=
  concat (map (fun slide => concat (map shape_runs slide)) prs).

Definition count_runs (p : Run -> bool) (runs : list Run) : nat :=
  length (List.filter p runs).

(** A non-blank run whose translated text the document library accepts. *)
Definition run_accepted (env : Env) (target_lang service : string)
    (api_key : option string) (r : Run) : bool :=
  run_nonblank r &&
  negb (bool_decide (is_Some (env_set_text_error env
          (translate_text env (run_text r) target_lang service api_key)))).

(** ** The request handler ([app.py]) *)

(** What the handler answers before any work: the value it goes on with,
    or a 400 reply carrying an error message. *)
Inductive Reply (A : Type) : Type :=
| Accepted (a : A)
| BadRequest (error : string).
Arguments Accepted {A} a.
Arguments BadRequest {A} error.

(** [sep.join(l)] *)
Fixpoint join_with (sep : string) (l : list string) : string :=
  match l with
  | [] => ""
  | [x] => x
  | x :: rest => x +:+ sep +:+ join_with sep rest
  end.

(** ['.' in filename and filename.rsplit('.', 1)[1].lower() in {'pptx'}] *)
Definition allowed_file (filename : string) : bool :=
  match PyPath.rsplit "." filename with
  | Some (_, extension) => bool_decide (PyStr.lower extension = "pptx")
  | None => false
  end.

(** The language list of the form: the [target_langs] values, or the
    single [target_lang] when there is none; stripped, blanks dropped,
    deduplicated in order. *)
Definition handler_languages (target_langs : list string) (target_lang : option string)
  : Reply (list string) :=
  let target_langs :=
    match target_langs with
    | [] => if opt_truthy target_lang then [default "" target_lang] else []
    | _ => target_langs
    end in
  match clean_languages target_langs with
  | [] => BadRequest "No target languages provided"
  | cleaned => Accepted (unique cleaned)
  end.

(** The handler's own format loop (it has no emptiness test on the raw
    entry). *)
Fixpoint handler_format_loop (normalized_formats requested : list string) : list string :=
  match requested with
  | [] => normalized_formats
  | fmt :: rest =>
      let normalized := clean_format fmt in
      handler_format_loop
        (if PyStr.truthy normalized && negb (bool_decide (normalized ∈ normalized_formats))
         then normalized_formats ++ [normalized] else normalized_formats) rest
  end.

Definition handler_formats (requested_formats : list string) : Reply (list string) :=
  let requested_formats :=
    match requested_formats with [] => ["pptx"] | _ => requested_formats end in
  let normalized_formats := handler_format_loop [] requested_formats in
  let normalized_formats :=
    match normalized_formats with [] => ["pptx"] | _ => normalized_formats end in
  let invalid_formats :=
    List.filter (fun fmt => negb (bool_decide (fmt ∈ ALLOWED_FORMATS))) normalized_formats in
  match invalid_formats with
  | [] => Accepted normalized_formats
  | _ => BadRequest ("Invalid output format(s): " +:+ join_with ", " invalid_formats)
  end.

(** Nothing is removed between two states: every directory and every file
    path of the first is still there in the second. *)
Definition fs_grows (σ σ' : State) : Prop :=
  dirs σ ⊆ dirs σ' /\ dom (files σ) ⊆ dom (files σ').

Definition never_removes {A : Type} (m : M A) : Prop :=
  forall σ, fs_grows σ (snd (m σ)).

(** What an entry of [translations] promises about the state it is read
    in: the language's directory exists; only requested formats are
    listed; a listed PDF exists; a positive count comes with the saved
    presentation. *)
Definition entry_is_sound (normalized_formats : list string) (root stem : string)
    (σ : State) (kv : string * LangResult) : Prop :=
  PyPath.join root (fst kv) ∈ dirs σ /\
  (forall k p, outputs (snd kv) !! k = Some p ->
               k ∈ normalized_formats /\ (k = "pptx" \/ k = "pdf")) /\
  (forall p, outputs (snd kv) !! "pdf" = Some p -> is_Some (files σ !! p)) /\
  ((0 < count (snd kv))%nat ->
   is_Some (files σ !! pptx_path_of root stem (fst kv))).

(** The three kinds of entries of a summary's error list. *)
Definition error_entry (languages normalized_formats : list string) (zip_output : bool)
    (msg : string) : Prop :=
  (exists l exc, l ∈ languages /\ msg = l +:+ ": " +:+ str_exn exc) \/
  (exists l exc, l ∈ languages /\ "pdf" ∈ normalized_formats /\
                 msg = l +:+ " PDF export failed: " +:+ str_exn exc) \/
  (exists exc, zip_output = true /\ msg = "ZIP packaging failed: " +:+ str_exn exc).

(** A computation that neither consults nor changes the cached converter
    check. *)
Definition keeps_cache {A : Type} (m : M A) : Prop :=
  forall σ, _libreoffice_checked (snd (m σ)) = _libreoffice_checked σ /\
            _libreoffice_available (snd (m σ)) = _libreoffice_available σ.

(** Between two states only directories were added: the files, the
    converter cache and the console are the same. *)
Definition only_adds_dirs (σ σ' : State) : Prop :=
  stdout σ' = stdout σ /\ files σ' = files σ /\
  _libreoffice_checked σ' = _libreoffice_checked σ /\
  _libreoffice_available σ' = _libreoffice_available σ /\
  dirs σ ⊆ dirs σ'.

(** "pdf" requested and the binary missing are enough for the orchestrator
    to fail fast, whatever the process has cached. *)
Definition missing_converter_always_fails_fast : Prop :=
  forall (env : Env) (input_file : string) (target_langs : list string)
         (service : string) (api_key : option string) (formats : option (list string))
         (output_root : option string) (zip_output : bool) (σ : State),
    pdf_requested formats ->
    env_which env (env_LIBREOFFICE_PATH env) = false ->
    exists (e : exn) (σ' : State),
      translate_pptx_multi env input_file target_langs service api_key formats
                           output_root zip_output σ = (Raise e, σ') /\
      dirs σ' = dirs σ /\ files σ' = files σ /\ new_events σ σ' = [].

(** ** Environments used in the examples *)

Module Examples.

(** No glyph metrics (the fallback estimate is used), a google endpoint
    that prefixes the text with the language code, no keys, no converter. *)
Definition env_plain : Env := {|
  env_stringWidth := fun _ _ _ => None;
  env_google := fun text tl _ => Some (Some [Some (tl +:+ ":" +:+ text)]);
  env_deepl := fun _ _ _ => None;
  env_openai := fun _ _ _ => None;
  env_DEEPL_API_KEY := None;
  env_OPENAI_API_KEY := None;
  env_set_text_error := fun _ => None;
  env_save_error := fun _ => None;
  env_LIBREOFFICE_PATH := "soffice";
  env_which := fun _ => false;
  env_mkdir_error := fun _ => None;
  env_soffice_exit := fun _ _ => 1%Z;
  env_soffice_output := fun _ _ => None;
  env_zip_error := fun _ => None
|}.

(** The same with the translation endpoint unreachable. *)
Definition env_offline : Env := {|
  env_stringWidth := fun _ _ _ => None;
  env_google := fun _ _ _ => None;
  env_deepl := fun _ _ _ => None;
  env_openai := fun _ _ _ => None;
  env_DEEPL_API_KEY := None;
  env_OPENAI_API_KEY := None;
  env_set_text_error := fun _ => None;
  env_save_error := fun _ => None;
  env_LIBREOFFICE_PATH := "soffice";
  env_which := fun _ => false;
  env_mkdir_error := fun _ => None;
  env_soffice_exit := fun _ _ => 1%Z;
  env_soffice_output := fun _ _ => None;
  env_zip_error := fun _ => None
|}.

(** The same as [env_plain] with a document library that refuses every
    text assignment. *)
Definition env_readonly : Env := {|
  env_stringWidth := fun _ _ _ => None;
  env_google := fun text tl _ => Some (Some [Some (tl +:+ ":" +:+ text)]);
  env_deepl := fun _ _ _ => None;
  env_openai := fun _ _ _ => None;
  env_DEEPL_API_KEY := None;
  env_OPENAI_API_KEY := None;
  env_set_text_error := fun _ => Some (ValueError "All strings must be XML compatible");
  env_save_error := fun _ => None;
  env_LIBREOFFICE_PATH := "soffice";
  env_which := fun _ => false;
  env_mkdir_error := fun _ => None;
  env_soffice_exit := fun _ _ => 1%Z;
  env_soffice_output := fun _ _ => None;
  env_zip_error := fun _ => None
|}.

(** The same as [env_plain] on a system that refuses to create [out/a/b]. *)
Definition env_refusing : Env := {|
  env_stringWidth := fun _ _ _ => None;
  env_google := fun text tl _ => Some (Some [Some (tl +:+ ":" +:+ text)]);
  env_deepl := fun _ _ _ => None;
  env_openai := fun _ _ _ => None;
  env_DEEPL_API_KEY := None;
  env_OPENAI_API_KEY := None;
  env_set_text_error := fun _ => None;
  env_save_error := fun _ => None;
  env_LIBREOFFICE_PATH := "soffice";
  env_which := fun _ => false;
  env_mkdir_error := fun p =>
    if String.eqb p "out/a/b"
    then Some (OSError "[Errno 28] No space left on device: 'out/a/b'") else None;
  env_soffice_exit := fun _ _ => 1%Z;
  env_soffice_output := fun _ _ => None;
  env_zip_error := fun _ => None
|}.

(** One slide, one text box one inch wide, a 12pt run then an 18pt run. *)
Definition two_runs : list Paragraph :=
  [[mkRun "Hello" (Some 152400%Z); mkRun "World" (Some 228600%Z)]].

(** A table cell with a 10pt run then a 14pt run. *)
Definition two_cell_runs : list Paragraph :=
  [[mkRun "Total" (Some 127000%Z); mkRun "Sum" (Some 177800%Z)]].

Definition deck : Presentation :=
  [[mkShape (Some (mkTextFrame two_runs false false)) (Some 914400%Z) None]].

(** A working directory holding the uploaded deck. *)
Definition uploaded : State :=
  fresh_process {[ "work" ]} {[ "work/deck.pptx" := PptxFile deck ]}.

(** The same, with an output root in which a regular file is named [es]. *)
Definition uploaded_es_taken : State :=
  fresh_process {[ "work"; "out" ]}
                (<[ "out/es" := OtherFile ]> {[ "work/deck.pptx" := PptxFile deck ]}).

(** An upload that is not a presentation. *)
Definition uploaded_garbage : State :=
  fresh_process {[ "work" ]} {[ "work/deck.pptx" := OtherFile ]}.

(** The uploaded deck in a process that found the converter earlier and
    cached that answer; the binary has been removed since. *)
Definition uploaded_stale_cache : State :=
  mkState {[ "work" ]} {[ "work/deck.pptx" := PptxFile deck ]} true true [].

End Examples.

(** * Properties *)

(** ** Order facts about the numeric helpers *)

Lemma Qleb_true (a b : Q) : Qleb a b = true <-> (a <= b)%Q.
Proof.
  unfold Qleb. destruct (Qlt_le_dec b a) as [Hlt | Hle]; split; intros H;
    try discriminate; try reflexivity; try assumption.
  exfalso. apply (Qlt_not_le _ _ Hlt H).
Qed.

Lemma Qleb_false (a b : Q) : Qleb a b = false <-> (b < a)%Q.
Proof.
  unfold Qleb. destruct (Qlt_le_dec b a) as [Hlt | Hle]; split; intros H;
    try discriminate; try reflexivity; try assumption.
  exfalso. apply (Qlt_not_le _ _ H Hle).
Qed.

Lemma Qgeb_true (a b : Q) : Qgeb a b = true <-> (b <= a)%Q.
Proof. apply Qleb_true. Qed.

Lemma Qgeb_false (a b : Q) : Qgeb a b = false <-> (a < b)%Q.
Proof. apply Qleb_false. Qed.

Lemma Qeqb_true (a b : Q) : Qeqb a b = true <-> (a == b)%Q.
Proof. apply Qeq_bool_iff. Qed.

Lemma Qeqb_false (a b : Q) : Qeqb a b = false <-> ~ (a == b)%Q.
Proof.
  unfold Qeqb. split.
  - intros H Heq. apply Qeq_bool_iff in Heq. congruence.
  - intros H. destruct (Qeq_bool a b) eqn:E; [| reflexivity].
    apply Qeq_bool_iff in E. contradiction.
Qed.

Lemma py_max_l (a b : Q) : (a <= py_max a b)%Q.
Proof. unfold py_max. destruct (Qlt_le_dec a b); lra. Qed.

Lemma py_max_r (a b : Q) : (b <= py_max a b)%Q.
Proof. unfold py_max. destruct (Qlt_le_dec a b); lra. Qed.

Lemma py_div_ok (a b : Q) : ~ (b == 0)%Q -> py_div a b = Ok (a / b)%Q.
Proof. intros H. unfold py_div. apply Qeqb_false in H. rewrite H. reflexivity. Qed.

Lemma py_div_zero (a b : Q) : (b == 0)%Q -> py_div a b = Raise ZeroDivisionError.
Proof. intros H. unfold py_div. apply Qeqb_true in H. rewrite H. reflexivity. Qed.

(** ** Font-fit estimator *)

Section FontFitFacts.

Variable sw : string -> string -> Q -> option Q.

(** The tiered floor is one of 20, 13 or [max(min_size, 10)], by band. *)
Lemma absolute_min_bands (cs ms : Q) :
  ((24 <= cs)%Q /\ absolute_min cs ms = 20%Q) \/
  ((16 <= cs < 24)%Q /\ absolute_min cs ms = 13%Q) \/
  ((cs < 16)%Q /\ absolute_min cs ms = py_max ms 10).
Proof.
  unfold absolute_min.
  destruct (Qgeb cs 24) eqn:E24.
  - left. apply Qgeb_true in E24. auto.
  - apply Qgeb_false in E24. destruct (Qgeb cs 16) eqn:E16.
    + right; left. apply Qgeb_true in E16. auto.
    + right; right. apply Qgeb_false in E16. auto.
Qed.

Lemma absolute_min_ge_10 (cs ms : Q) : (10 <= absolute_min cs ms)%Q.
Proof.
  destruct (absolute_min_bands cs ms) as [[_ ->] | [[_ ->] | [_ ->]]]; try lra.
  apply py_max_r.
Qed.

(** In the two upper bands the current size is already above the floor. *)
Lemma absolute_min_le_current (cs ms : Q) :
  (16 <= cs)%Q -> (absolute_min cs ms <= cs)%Q.
Proof.
  intros H. destruct (absolute_min_bands cs ms) as [[? ->] | [[? ->] | [? ->]]]; lra.
Qed.

(** The early returns: blank text, or a width within the tolerance. *)
Lemma calculate_font_size_unchanged (text : string) (mw cs ms : Q) :
  PyStr.is_blank text = true \/
    (get_text_width sw text cs "Helvetica" <= mw * (11 # 10))%Q ->
  calculate_font_size sw text mw cs ms = Ok cs.
Proof.
  intros H. unfold calculate_font_size.
  destruct (PyStr.is_blank text); [reflexivity |].
  destruct H as [H | H]; [discriminate |].
  apply Qleb_true in H. rewrite H. reflexivity.
Qed.

(** The rescaling path, when the division is defined. *)
Lemma calculate_font_size_rescaled (text : string) (mw cs ms : Q) :
  let width := get_text_width sw text cs "Helvetica" in
  PyStr.is_blank text = false ->
  (mw * (11 # 10) < width)%Q ->
  ~ (width == 0)%Q ->
  calculate_font_size sw text mw cs ms =
    Ok (py_max (cs * (mw / width))
               (py_max (conservative_min cs) (absolute_min cs ms))).
Proof.
  intros width Hnb Hover Hnz. unfold calculate_font_size.
  rewrite Hnb. fold width.
  apply Qleb_false in Hover. rewrite Hover.
  rewrite (py_div_ok _ _ Hnz). reflexivity.
Qed.

(** The rescaling path with a zero width: the scale division raises. *)
Lemma calculate_font_size_zero_width (text : string) (mw cs ms : Q) :
  let width := get_text_width sw text cs "Helvetica" in
  PyStr.is_blank text = false ->
  (mw * (11 # 10) < width)%Q ->
  (width == 0)%Q ->
  calculate_font_size sw text mw cs ms = Raise ZeroDivisionError.
Proof.
  intros width Hnb Hover Hz. unfold calculate_font_size.
  rewrite Hnb. fold width.
  apply Qleb_false in Hover. rewrite Hover.
  rewrite (py_div_zero _ _ Hz). reflexivity.
Qed.

End FontFitFacts.

(** C3, as stated, fails: an 8pt text that fits its box keeps 8pt, below
    the floor [max(9, 10) = 10] of its band. *)
Lemma C3_floor_counterexample : ~ floor_holds_for_every_input.
Proof.
  intros H.
  specialize (H (fun _ _ _ => None) "Hi" 100%Q 8%Q 9%Q 8%Q eq_refl).
  vm_compute in H. apply H. reflexivity.
Qed.

(** C3 (amended): whenever the estimator rescales - non-blank text whose
    measured width exceeds 110% of [max_width] and is not zero - the
    returned size is never below the tiered floor of the current size's
    band; on the early returns it gives back [current_size] itself, which
    is at or above the floor in the two upper bands (floors 20.0 and 13.0)
    and whenever [current_size] is at least [max(min_size, 10.0)]. *)
Theorem C3_floor_when_rescaled
    (sw : string -> string -> Q -> option Q) (text : string) (mw cs ms : Q) :
  let width := get_text_width sw text cs "Helvetica" in
  (PyStr.is_blank text = false -> (mw * (11 # 10) < width)%Q -> ~ (width == 0)%Q) ->
  exists r : Q,
    calculate_font_size sw text mw cs ms = Ok r /\
    ((PyStr.is_blank text = false /\ (mw * (11 # 10) < width)%Q)
       \/ (absolute_min cs ms <= cs)%Q -> (absolute_min cs ms <= r)%Q) /\
    ((16 <= cs)%Q -> (absolute_min cs ms <= r)%Q) /\
    (PyStr.is_blank text = true \/ (width <= mw * (11 # 10))%Q -> r = cs).
Proof.
  intros width Hdiv.
  destruct (PyStr.is_blank text) eqn:Hb.
  - exists cs. rewrite calculate_font_size_unchanged by (left; exact Hb).
    split; [reflexivity |]. split; [| split].
    + intros [[Hc _] | Hc]; [discriminate | exact Hc].
    + apply absolute_min_le_current.
    + reflexivity.
  - destruct (Qlt_le_dec (mw * (11 # 10)) width) as [Hover | Hfit].
    + specialize (Hdiv eq_refl Hover).
      rewrite (calculate_font_size_rescaled sw text mw cs ms Hb Hover Hdiv).
      eexists. split; [reflexivity |].
      assert (Hfloor : (absolute_min cs ms <=
                py_max (cs * (mw / width))
                  (py_max (conservative_min cs) (absolute_min cs ms)))%Q).
      { eapply Qle_trans; [apply py_max_r | apply py_max_r]. }
      split; [| split].
      * intros _. exact Hfloor.
      * intros _. exact Hfloor.
      * intros [Hc | Hc]; [discriminate |].
        exfalso. apply (Qlt_not_le _ _ Hover Hc).
    + exists cs. rewrite calculate_font_size_unchanged by (right; exact Hfit).
      split; [reflexivity |]. split; [| split].
      * intros [[_ Hc] | Hc]; [| exact Hc].
        exfalso. apply (Qlt_not_le _ _ Hc Hfit).
      * apply absolute_min_le_current.
      * reflexivity.
Qed.

(** An 18pt line of eleven characters in a 40pt box: the floor 13.0 holds
    (the conservative step gives 16.5). *)
Lemma C3_floor_when_rescaled_witness :
  exists r : Q,
    calculate_font_size (fun _ _ _ => None) "Hello world" 40 18 11 = Ok r /\
    (13 <= r)%Q.
Proof.
  destruct (C3_floor_when_rescaled (fun _ _ _ => None) "Hello world" 40 18 11)
    as (r & Hr & Hfloor & _).
  - intros _ _. vm_compute. discriminate.
  - exists r. split; [exact Hr |].
    apply Hfloor. left. split; [reflexivity | vm_compute; reflexivity].
Defined.

(** C4: a non-blank text whose measured width is at most 110% of
    [max_width] gets exactly the input [current_size] back. *)
Theorem C4_fitting_text_keeps_size
    (sw : string -> string -> Q -> option Q) (text : string) (mw cs ms : Q) :
  PyStr.is_blank text = false ->
  (get_text_width sw text cs "Helvetica" <= mw * (11 # 10))%Q ->
  calculate_font_size sw text mw cs ms = Ok cs.
Proof.
  intros _ Hfit. apply calculate_font_size_unchanged. right. exact Hfit.
Qed.

(** A five-letter word at 12pt measures 36pt and fits a 40pt box. *)
Lemma C4_fitting_text_keeps_size_witness :
  calculate_font_size (fun _ _ _ => None) "Hello" 40 12 11 = Ok 12%Q.
Proof.
  apply C4_fitting_text_keeps_size.
  - reflexivity.
  - vm_compute. discriminate.
Defined.

(** C9, as stated, fails: at size 0 the measured width is 0, which exceeds
    110% of a negative [max_width], and the scale division raises. *)
Lemma C9_enlarge_counterexample : ~ small_sizes_always_enlarged.
Proof.
  intros H.
  destruct (H (fun _ _ _ => None) "a" (-5)%Q 0%Q 9%Q) as (r & Hr & _).
  - reflexivity.
  - vm_compute. reflexivity.
  - vm_compute. reflexivity.
  - vm_compute in Hr. discriminate.
Qed.

(** C9 (amended): for a non-blank text whose measured width exceeds 110%
    of [max_width] and is not zero, and a [current_size] below 10.0, the
    estimator returns a size of at least 10.0, strictly above
    [current_size]: it enlarges the font. *)
Theorem C9_small_sizes_enlarged
    (sw : string -> string -> Q -> option Q) (text : string) (mw cs ms : Q) :
  let width := get_text_width sw text cs "Helvetica" in
  PyStr.is_blank text = false ->
  (mw * (11 # 10) < width)%Q ->
  ~ (width == 0)%Q ->
  (cs < 10)%Q ->
  exists r : Q, calculate_font_size sw text mw cs ms = Ok r /\ (10 <= r)%Q /\ (cs < r)%Q.
Proof.
  intros width Hnb Hover Hnz Hsmall.
  rewrite (calculate_font_size_rescaled sw text mw cs ms Hnb Hover Hnz).
  eexists. split; [reflexivity |].
  assert (H10 : (10 <= py_max (cs * (mw / width))
                         (py_max (conservative_min cs) (absolute_min cs ms)))%Q).
  { eapply Qle_trans; [apply (absolute_min_ge_10 cs ms) |].
    eapply Qle_trans; [apply py_max_r | apply py_max_r]. }
  split; [exact H10 |]. eapply Qlt_le_trans; [exact Hsmall | exact H10].
Qed.

(** An 8pt line of eleven characters in a 20pt box comes back at 10pt. *)
Lemma C9_small_sizes_enlarged_witness :
  exists r : Q,
    calculate_font_size (fun _ _ _ => None) "Hello world" 20 8 9 = Ok r /\
    (10 <= r)%Q /\ (8 < r)%Q.
Proof.
  apply (C9_small_sizes_enlarged (fun _ _ _ => None) "Hello world" 20 8 9).
  - reflexivity.
  - vm_compute. reflexivity.
  - vm_compute. discriminate.
  - vm_compute. reflexivity.
Defined.

(** ** Translation adapter *)

Section AdapterFacts.

Variable env : Env.

Lemma translate_with_google_blank (text tl sl : string) :
  PyStr.is_blank text = true -> translate_with_google env text tl sl = text.
Proof. intros H. unfold translate_with_google. rewrite H. reflexivity. Qed.

(** A provider call that raises is swallowed: the text comes back as it was. *)
Lemma translate_text_call_failed (text tl service : string) (api_key : option string) :
  provider_call_failed env text tl service api_key = true ->
  translate_text env text tl service api_key = text.
Proof.
  unfold provider_call_failed, translate_text.
  intros H. apply andb_prop in H as [Hnb Hfail].
  apply negb_true_iff in Hnb.
  destruct (String.eqb (PyStr.lower service) "deepl").
  { apply andb_prop in Hfail as [Hkey Hnone].
    unfold translate_with_deepl. rewrite Hnb, Hkey. simpl.
    destruct (env_deepl env text (PyStrUpper.upper tl) (default "" api_key)) eqn:E;
      [| reflexivity].
    apply negb_true_iff, bool_decide_eq_false in Hnone.
    exfalso. apply Hnone. eauto. }
  destruct (String.eqb (PyStr.lower service) "openai").
  { apply andb_prop in Hfail as [Hkey Hnone].
    unfold translate_with_openai. rewrite Hnb, Hkey. simpl.
    destruct (env_openai env text tl (default "" api_key)) eqn:E; [| reflexivity].
    apply negb_true_iff, bool_decide_eq_false in Hnone.
    exfalso. apply Hnone. eauto. }
  assert (Hg : translate_with_google env text tl "auto" = text).
  { unfold translate_with_google. rewrite Hnb.
    destruct (env_google env text tl "auto") eqn:E; [| reflexivity].
    apply negb_true_iff, bool_decide_eq_false in Hfail.
    exfalso. apply Hfail. eauto. }
  destruct (String.eqb (PyStr.lower service) "google"); exact Hg.
Qed.

End AdapterFacts.

(** ** Document walker: the first pass *)

Section WalkerFacts.

Variable env : Env.
Variables (target_lang service : string) (api_key : option string).

Abbreviation translate_run' := (translate_run env target_lang service api_key).
Abbreviation first_pass' := (first_pass env target_lang service api_key).

Lemma translate_run_blank (dflt : Q) (st : Pass1) (r : Run) :
  run_nonblank r = false -> translate_run' dflt st r = (st, r).
Proof.
  unfold run_nonblank, translate_run. intros ->. reflexivity.
Qed.

(** The exception path of the per-run [try]. *)
Lemma translate_run_raised (dflt : Q) (st : Pass1) (r : Run) (e : exn) :
  run_nonblank r = true ->
  env_set_text_error env
    (translate_text env (run_text r) target_lang service api_key) = Some e ->
  translate_run' dflt st r =
    (mkPass1 (capture_size dflt (original_size st) r)
             (all_translated_text st) (total_translated st), r).
Proof.
  unfold run_nonblank, translate_run. intros -> ->. reflexivity.
Qed.

(** The normal path of the per-run [try]. *)
Lemma translate_run_done (dflt : Q) (st : Pass1) (r : Run) :
  run_nonblank r = true ->
  env_set_text_error env
    (translate_text env (run_text r) target_lang service api_key) = None ->
  translate_run' dflt st r =
    (mkPass1 (capture_size dflt (original_size st) r)
             (all_translated_text st
                +:+ translate_text env (run_text r) target_lang service api_key +:+ " ")
             (S (total_translated st)),
     mkRun (translate_text env (run_text r) target_lang service api_key) (run_size r)).
Proof.
  unfold run_nonblank, translate_run. intros -> ->. reflexivity.
Qed.

(** The size accumulator after one run, whatever becomes of its text. *)
Lemma translate_run_size (dflt : Q) (st : Pass1) (r : Run) :
  original_size (fst (translate_run' dflt st r)) =
    if run_nonblank r then capture_size dflt (original_size st) r else original_size st.
Proof.
  destruct (run_nonblank r) eqn:Hnb.
  - destruct (env_set_text_error env
                (translate_text env (run_text r) target_lang service api_key)) eqn:E.
    + rewrite (translate_run_raised dflt st r e Hnb E). reflexivity.
    + rewrite (translate_run_done dflt st r Hnb E). reflexivity.
  - rewrite (translate_run_blank dflt st r Hnb). reflexivity.
Qed.

Lemma map_accum_app {S A B : Type} (f : S -> A -> S * B) (s : S) (l1 l2 : list A) :
  fst (map_accum f s (l1 ++ l2)) = fst (map_accum f (fst (map_accum f s l1)) l2).
Proof.
  revert s. induction l1 as [| a l1 IH]; intros s; simpl; [reflexivity |].
  destruct (f s a) as [s1 b] eqn:Ef.
  specialize (IH s1).
  destruct (map_accum f s1 (l1 ++ l2)) as [s2 bs] eqn:E2.
  destruct (map_accum f s1 l1) as [s3 bs3] eqn:E3.
  simpl in *. exact IH.
Qed.

(** The accumulators do not see paragraph boundaries. *)
Lemma map_accum_concat {S A B : Type} (f : S -> A -> S * B) (s : S) (ls : list (list A)) :
  fst (map_accum (map_accum f) s ls) = fst (map_accum f s (concat ls)).
Proof.
  revert s. induction ls as [| l ls IH]; intros s; simpl; [reflexivity |].
  destruct (map_accum f s l) as [s1 bs] eqn:E1.
  specialize (IH s1).
  destruct (map_accum (map_accum f) s1 ls) as [s2 bss] eqn:E2.
  simpl in *. rewrite map_accum_app, E1. simpl. exact IH.
Qed.

Lemma first_non_default_size_cons (dflt : Q) (r : Run) (runs : list Run) :
  first_non_default_size dflt (r :: runs) =
    if run_nonblank r && length_truthy (run_size r)
       && negb (Qeqb (length_pt (default 0%Z (run_size r))) dflt)
    then length_pt (default 0%Z (run_size r))
    else first_non_default_size dflt runs.
Proof.
  unfold first_non_default_size. simpl.
  destruct (run_nonblank r && length_truthy (run_size r)
            && negb (Qeqb (length_pt (default 0%Z (run_size r))) dflt)); reflexivity.
Qed.

Lemma capture_size_at_default (dflt s : Q) (r : Run) :
  (s == dflt)%Q ->
  capture_size dflt s r =
    if length_truthy (run_size r) then length_pt (default 0%Z (run_size r)) else s.
Proof.
  intros Hd. apply Qeqb_true in Hd. unfold capture_size.
  destruct (run_size r) as [emu |]; [| reflexivity].
  rewrite Hd, andb_true_r. reflexivity.
Qed.

Lemma capture_size_off_default (dflt s : Q) (r : Run) :
  ~ (s == dflt)%Q -> capture_size dflt s r = s.
Proof.
  intros Hd. apply Qeqb_false in Hd. unfold capture_size.
  destruct (run_size r) as [emu |]; [| reflexivity].
  rewrite Hd, andb_false_r. reflexivity.
Qed.

(** Once the accumulator left the default value it is never overwritten;
    while it still equals the default, the next sized run overwrites it. *)
Lemma runs_baseline (dflt : Q) (runs : list Run) (st : Pass1) :
  let st' := fst (map_accum (translate_run' dflt) st runs) in
  ((original_size st == dflt)%Q ->
     (original_size st' == first_non_default_size dflt runs)%Q) /\
  (~ (original_size st == dflt)%Q -> original_size st' = original_size st).
Proof.
  revert st. induction runs as [| r runs IH]; intros st.
  - simpl. split; intros H; [exact H | reflexivity].
  - pose proof (translate_run_size dflt st r) as Hsz.
    cbn [map_accum].
    destruct (translate_run' dflt st r) as [s1 r1] eqn:E1.
    specialize (IH s1).
    destruct (map_accum (translate_run' dflt) s1 runs) as [s2 rs] eqn:E2.
    cbn [fst] in *. destruct IH as [IHeq IHne].
    split.
    + intros Hd. rewrite first_non_default_size_cons.
      rewrite (capture_size_at_default dflt _ r Hd) in Hsz.
      destruct (run_nonblank r); cbn [andb].
      * destruct (length_truthy (run_size r)); cbn [andb].
        -- destruct (Qeqb (length_pt (default 0%Z (run_size r))) dflt) eqn:Ed; cbn [negb].
           ++ apply IHeq. rewrite Hsz. apply Qeqb_true. exact Ed.
           ++ rewrite IHne; [rewrite Hsz; reflexivity |].
              rewrite Hsz. apply Qeqb_false. exact Ed.
        -- apply IHeq. rewrite Hsz. exact Hd.
      * apply IHeq. rewrite Hsz. exact Hd.
    + intros Hd.
      rewrite (capture_size_off_default dflt _ r Hd) in Hsz.
      assert (Hs1 : original_size s1 = original_size st).
      { rewrite Hsz. destruct (run_nonblank r); reflexivity. }
      rewrite IHne; [exact Hs1 |]. rewrite Hs1. exact Hd.
Qed.

(** What the first pass really leaves as the baseline of a container. *)
Lemma first_pass_baseline (dflt : Q) (total : nat) (ps : list Paragraph) :
  (original_size (fst (first_pass' dflt total ps))
     == first_non_default_size dflt (concat ps))%Q.
Proof.
  pose proof (map_accum_concat (translate_run' dflt) (mkPass1 dflt "" total) ps) as E.
  unfold first_pass, Paragraph in *. rewrite E.
  apply (runs_baseline dflt (concat ps) (mkPass1 dflt "" total)).
  simpl. reflexivity.
Qed.

End WalkerFacts.

(** C1 (the code departs from it): in a text box whose first sized run is
    exactly 12.0pt and whose second is 18pt the walker's baseline is 18pt,
    and in a table cell whose first sized run is exactly 10.0pt and whose
    second is 14pt it is 14pt, where the first run's size was to be kept;
    the accumulator still equal to the default is taken for "not yet set". *)
Theorem C1_baseline_overwritten_after_default_sized_run :
  (original_size
     (fst (first_pass Examples.env_plain "es" "google" None 12 0 Examples.two_runs)) == 18)%Q /\
  (first_font_size 12 (concat Examples.two_runs) == 12)%Q /\
  (original_size
     (fst (first_pass Examples.env_plain "es" "google" None 10 0 Examples.two_cell_runs)) == 14)%Q /\
  (first_font_size 10 (concat Examples.two_cell_runs) == 10)%Q.
Proof.
  repeat split; vm_compute; reflexivity.
Qed.

(** C2, as stated, fails: with the endpoint unreachable the adapter hands
    the original text back, the walker assigns it and counts the run. *)
Lemma C2_failed_run_counterexample : ~ failed_runs_never_counted.
Proof.
  intros H.
  destruct (H Examples.env_offline "es" "google" None 12%Q (mkPass1 12 "" 0)
              (mkRun "Hello" (Some 152400%Z))) as [_ Hcount].
  - reflexivity.
  - right. reflexivity.
  - vm_compute in Hcount. discriminate.
Qed.

(** C2 (amended): for a non-blank run, when the walker's per-run [try]
    raises, the run is left as it was and neither the translated-run count
    nor the text buffer changes; when the provider call fails inside the
    adapter, the adapter returns the original text, so the run keeps its
    text, but the walker does count that run as translated. *)
Theorem C2_failed_run_keeps_text
    (env : Env) (target_lang service : string) (api_key : option string)
    (dflt : Q) (st : Pass1) (r : Run) :
  run_nonblank r = true ->
  let text' := translate_text env (run_text r) target_lang service api_key in
  let st' := fst (translate_run env target_lang service api_key dflt st r) in
  let r' := snd (translate_run env target_lang service api_key dflt st r) in
  (is_Some (env_set_text_error env text') ->
     r' = r /\ total_translated st' = total_translated st
     /\ all_translated_text st' = all_translated_text st) /\
  (provider_call_failed env (run_text r) target_lang service api_key = true ->
     text' = run_text r /\ run_text r' = run_text r /\
     (env_set_text_error env text' = None ->
        total_translated st' = S (total_translated st))).
Proof.
  intros Hnb text' st' r'. split.
  - intros [e He]. subst st' r'.
    rewrite (translate_run_raised env target_lang service api_key dflt st r e Hnb He).
    simpl. auto.
  - intros Hfail.
    pose proof (translate_text_call_failed env _ _ _ _ Hfail) as Htext.
    fold text' in Htext. split; [exact Htext |].
    subst st' r'.
    destruct (env_set_text_error env text') as [e |] eqn:He.
    + rewrite (translate_run_raised env target_lang service api_key dflt st r e Hnb He).
      simpl. split; [reflexivity | discriminate].
    + rewrite (translate_run_done env target_lang service api_key dflt st r Hnb He).
      simpl. fold text'. split; [exact Htext | reflexivity].
Qed.

(** A run refused by the document library stays "Hello" and is not counted;
    a run whose provider call fails stays "Hello" and is counted. *)
Lemma C2_failed_run_keeps_text_witness :
  (snd (translate_run Examples.env_readonly "es" "google" None 12 (mkPass1 12 "" 0)
          (mkRun "Hello" None)) = mkRun "Hello" None /\
   total_translated
     (fst (translate_run Examples.env_readonly "es" "google" None 12 (mkPass1 12 "" 0)
             (mkRun "Hello" None))) = 0%nat) /\
  (run_text (snd (translate_run Examples.env_offline "es" "google" None 12 (mkPass1 12 "" 0)
                    (mkRun "Hello" None))) = "Hello" /\
   total_translated
     (fst (translate_run Examples.env_offline "es" "google" None 12 (mkPass1 12 "" 0)
             (mkRun "Hello" None))) = 1%nat).
Proof.
  split.
  - destruct (C2_failed_run_keeps_text Examples.env_readonly "es" "google" None 12
                (mkPass1 12 "" 0) (mkRun "Hello" None) eq_refl) as [Hraise _].
    destruct Hraise as (Hr & Hc & _); [eexists; reflexivity |].
    split; [exact Hr | exact Hc].
  - destruct (C2_failed_run_keeps_text Examples.env_offline "es" "google" None 12
                (mkPass1 12 "" 0) (mkRun "Hello" None) eq_refl) as [_ Hfail].
    destruct (Hfail eq_refl) as (_ & Hr & Hc).
    split; [exact Hr | exact (Hc eq_refl)].
Defined.

(** ** Order-preserving deduplication *)

Lemma unique_loop_elem (seen l : list string) (x : string) :
  x ∈ unique_loop seen l <-> x ∈ seen \/ x ∈ l.
Proof.
  revert seen. induction l as [| y l IH]; intros seen; simpl.
  - rewrite elem_of_nil. tauto.
  - rewrite IH, elem_of_cons. case_bool_decide as Hy.
    + split; [tauto |]. intros [H | [-> | H]]; auto.
    + rewrite elem_of_app, list_elem_of_singleton. tauto.
Qed.

Lemma unique_loop_NoDup (seen l : list string) :
  NoDup seen -> NoDup (unique_loop seen l).
Proof.
  revert seen. induction l as [| y l IH]; intros seen Hnd; simpl; [exact Hnd |].
  apply IH. case_bool_decide as Hy; [exact Hnd |].
  apply NoDup_app. split; [exact Hnd |]. split.
  - intros x Hx Hx'. apply list_elem_of_singleton in Hx'. subst. contradiction.
  - apply NoDup_singleton.
Qed.

Lemma unique_loop_app (seen l1 l2 : list string) :
  unique_loop seen (l1 ++ l2) = unique_loop (unique_loop seen l1) l2.
Proof.
  revert seen. induction l1 as [| y l1 IH]; intros seen; simpl; [reflexivity |].
  apply IH.
Qed.

(** ** Format normalisation *)

Lemma normalize_loop_unique (acc formats : list string) :
  normalize_loop acc formats = unique_loop acc (cleaned_formats formats).
Proof.
  revert acc. induction formats as [| fmt rest IH]; intros acc; simpl; [reflexivity |].
  rewrite IH. unfold cleaned_formats. simpl.
  destruct (PyStr.truthy fmt); simpl; [| reflexivity].
  destruct (PyStr.truthy (clean_format fmt)); simpl; [| reflexivity].
  case_bool_decide; reflexivity.
Qed.

Lemma insert_sorted_elem (x y : string) (l : list string) :
  y ∈ insert_sorted x l <-> y = x \/ y ∈ l.
Proof.
  induction l as [| z l IH]; simpl.
  - rewrite list_elem_of_singleton, elem_of_nil. tauto.
  - destruct (String.leb x z).
    + rewrite elem_of_cons. tauto.
    + rewrite !elem_of_cons, IH. tauto.
Qed.

Lemma sorted_elem (y : string) (l : list string) : y ∈ sorted l <-> y ∈ l.
Proof.
  unfold sorted. induction l as [| x l IH]; simpl; [tauto |].
  rewrite insert_sorted_elem, IH, elem_of_cons. tauto.
Qed.

Lemma invalid_formats_elem (normalized : list string) (f : string) :
  f ∈ invalid_formats normalized <-> f ∈ normalized /\ f ∉ ALLOWED_FORMATS.
Proof.
  unfold invalid_formats.
  rewrite sorted_elem, elem_of_elements, elem_of_difference, elem_of_list_to_set.
  tauto.
Qed.

Lemma normalized_by_words_NoDup (formats : list string) :
  NoDup (normalized_by_words formats).
Proof.
  unfold normalized_by_words.
  pose proof (unique_loop_NoDup [] (cleaned_formats formats) (NoDup_nil_2)) as H.
  fold (unique (cleaned_formats formats)) in H.
  destruct (unique (cleaned_formats formats)); [apply NoDup_singleton | exact H].
Qed.

(** The outcome of [_normalize_formats] on a non-empty request, in terms
    of the list described in words. *)
Lemma _normalize_formats_cases (fmt : string) (rest : list string) :
  _normalize_formats (Some (fmt :: rest)) =
    match invalid_formats (normalized_by_words (fmt :: rest)) with
    | [] => Ok (normalized_by_words (fmt :: rest))
    | invalid => Raise (ValueError ("Unsupported formats: " +:+ repr_list invalid))
    end.
Proof.
  unfold _normalize_formats, normalized_by_words, unique.
  rewrite normalize_loop_unique.
  destruct (unique_loop [] (cleaned_formats (fmt :: rest))); reflexivity.
Qed.

(** C6: format normalisation lowercases, trims, strips leading dots and
    deduplicates keeping first occurrences; an empty request (or one whose
    entries all clean to nothing) gives ["pptx"]; a result is returned only
    when every format is in {pptx, pdf}, and otherwise a [ValueError] names
    exactly the normalised formats outside that set, sorted and written as
    Python writes a list of strings - "Unsupported formats: ['docx',
    'xls']" for ["xls", ".PDF", "DOCX"], double quotes around a format
    holding a single quote, a backslash doubled; [".PDF", "pptx", "PPTX"]
    gives ["pdf", "pptx"]. *)
Theorem C6_normalize_formats :
  _normalize_formats (Some [".PDF"; "pptx"; "PPTX"]) = Ok ["pdf"; "pptx"] /\
  _normalize_formats None = Ok ["pptx"] /\
  _normalize_formats (Some []) = Ok ["pptx"] /\
  _normalize_formats (Some [""; " . "]) = Ok ["pptx"] /\
  _normalize_formats (Some ["xls"; ".PDF"; "DOCX"])
    = Raise (ValueError "Unsupported formats: ['docx', 'xls']") /\
  _normalize_formats (Some ["pptx"; " .Key "; "pdf"])
    = Raise (ValueError "Unsupported formats: ['key']") /\
  _normalize_formats (Some ["it's"])
    = Raise (ValueError ("Unsupported formats: ["
                         +:+ String PyRepr.dquote ("it's" +:+ String PyRepr.dquote "]"))) /\
  _normalize_formats (Some ["a\b"]) = Raise (ValueError "Unsupported formats: ['a\\b']") /\
  forall formats : list string,
    match _normalize_formats (Some formats) with
    | Ok nf =>
        nf = normalized_by_words formats /\ NoDup nf /\
        (forall f, f ∈ nf -> f ∈ ALLOWED_FORMATS)
    | Raise e =>
        exists invalid : list string,
          e = ValueError ("Unsupported formats: " +:+ repr_list invalid) /\
          invalid <> [] /\
          (forall f, f ∈ invalid <->
                     f ∈ normalized_by_words formats /\ f ∉ ALLOWED_FORMATS)
    end.
Proof.
  split; [vm_compute; reflexivity |].
  split; [reflexivity |].
  split; [reflexivity |].
  split; [vm_compute; reflexivity |].
  split; [vm_compute; reflexivity |].
  split; [vm_compute; reflexivity |].
  split; [vm_compute; reflexivity |].
  split; [vm_compute; reflexivity |].
  intros [| fmt rest].
  - simpl. split; [reflexivity |]. split; [apply NoDup_singleton |].
    intros f Hf. apply list_elem_of_singleton in Hf. subst.
    unfold ALLOWED_FORMATS. set_solver.
  - rewrite _normalize_formats_cases.
    pose proof (invalid_formats_elem (normalized_by_words (fmt :: rest))) as Hinv.
    destruct (invalid_formats (normalized_by_words (fmt :: rest))) as [| i inv] eqn:E.
    + split; [reflexivity |]. split; [apply normalized_by_words_NoDup |].
      intros f Hf. destruct (decide (f ∈ ALLOWED_FORMATS)) as [Hin | Hout]; [exact Hin |].
      exfalso. apply (not_elem_of_nil f). apply Hinv. auto.
    + exists (i :: inv). split; [reflexivity |]. split; [discriminate | exact Hinv].
Qed.

(** The listed request: its normal form has no duplicate and stays within
    the allowed set. *)
Lemma C6_normalize_formats_witness :
  NoDup ["pdf"; "pptx"] /\ (forall f, f ∈ ["pdf"; "pptx"] -> f ∈ ALLOWED_FORMATS).
Proof.
  destruct C6_normalize_formats as (E & _ & _ & _ & _ & _ & _ & _ & H).
  specialize (H [".PDF"; "pptx"; "PPTX"]).
  rewrite E in H. exact (proj2 H).
Defined.

(** ** Running monadic code *)

Lemma bind_run {A B : Type} (m : M A) (k : A -> M B) (σ : State) :
  (m ≫= k) σ = match m σ with
               | (Ok a, σ1) => k a σ1
               | (Raise e, σ1) => (Raise e, σ1)
               end.
Proof. reflexivity. Qed.

Lemma try_except_run {A : Type} (m : M A) (h : exn -> M A) (σ : State) :
  try_except m h σ = match m σ with
                     | (Ok a, σ1) => (Ok a, σ1)
                     | (Raise e, σ1) => h e σ1
                     end.
Proof. reflexivity. Qed.

(** ** What the helpers leave untouched *)

Lemma only_adds_dirs_refl (σ : State) : only_adds_dirs σ σ.
Proof. repeat split; reflexivity. Qed.

Lemma only_adds_dirs_trans (σ1 σ2 σ3 : State) :
  only_adds_dirs σ1 σ2 -> only_adds_dirs σ2 σ3 -> only_adds_dirs σ1 σ3.
Proof.
  intros (H1 & H2 & H3 & H4 & H5) (K1 & K2 & K3 & K4 & K5).
  repeat split; try congruence. etransitivity; eassumption.
Qed.

Lemma only_adds_dirs_add (p : string) (σ : State) :
  only_adds_dirs σ (snd (add_dirs {[p]} σ)).
Proof. repeat split; cbn; try reflexivity. set_solver. Qed.

(** [os.mkdir] either creates the directory or raises and changes nothing. *)
Lemma os_mkdir_cases (env : Env) (p : string) (σ : State) :
  (os_mkdir env p σ = add_dirs {[p]} σ /\
   List.find (fun a => negb (is_dir σ a)) (PyPath.ancestors p) = None /\
   is_dir σ p = false) \/
  (exists e, os_mkdir env p σ = (Raise e, σ)).
Proof.
  unfold os_mkdir.
  destruct (List.find (fun a => negb (is_dir σ a)) (PyPath.ancestors p)) as [a |].
  - right. destruct (is_file σ a); eauto.
  - destruct (is_dir σ p) eqn:Ed; cbn [orb]; [right; eauto |].
    destruct (is_file σ p); [right; eauto |].
    destruct (env_mkdir_error env p); [right; eauto |]. left. auto.
Qed.

Lemma mkdir_plain_frame (env : Env) (exist_ok : bool) (p : string) (σ : State) :
  only_adds_dirs σ (snd (mkdir_plain env exist_ok p σ)) /\
  (fst (mkdir_plain env exist_ok p σ) = Ok tt -> p ∈ dirs (snd (mkdir_plain env exist_ok p σ))) /\
  (forall e, fst (mkdir_plain env exist_ok p σ) = Raise e ->
             snd (mkdir_plain env exist_ok p σ) = σ).
Proof.
  unfold mkdir_plain.
  destruct (os_mkdir_cases env p σ) as [(-> & _ & _) | (e & ->)].
  - cbn [add_dirs fst snd]. split; [apply only_adds_dirs_add |].
    split; [intros _; cbn; set_solver | intros e H; discriminate H].
  - assert (Hgen : forall e0 : exn,
              let r := (if exist_ok && is_dir σ p
                        then (if bool_decide (p ∈ dirs σ) then (Ok tt, σ)
                              else add_dirs {[p]} σ)
                        else (Raise e0, σ)) in
              only_adds_dirs σ (snd r) /\ (fst r = Ok tt -> p ∈ dirs (snd r)) /\
              (forall e', fst r = Raise e' -> snd r = σ)).
    { intros e0. cbn zeta. destruct (exist_ok && is_dir σ p).
      - case_bool_decide as Hin; cbn [add_dirs fst snd].
        + split; [apply only_adds_dirs_refl |]. split; [auto | reflexivity].
        + split; [apply only_adds_dirs_add |].
          split; [intros _; cbn; set_solver | intros e' H; discriminate H].
      - cbn [fst snd]. split; [apply only_adds_dirs_refl |].
        split; [intros H; discriminate H | reflexivity]. }
    destruct e; try apply Hgen.
    cbn [fst snd]. split; [apply only_adds_dirs_refl |].
    split; [intros H; discriminate H | reflexivity].
Qed.

Lemma mkdir_from_frame (env : Env) (ups : list string) :
  forall (exist_ok : bool) (p : string) (σ : State),
    only_adds_dirs σ (snd (mkdir_from env exist_ok p ups σ)) /\
    (fst (mkdir_from env exist_ok p ups σ) = Ok tt ->
     p ∈ dirs (snd (mkdir_from env exist_ok p ups σ))).
Proof.
  induction ups as [| up ups' IH]; intros exist_ok p σ.
  - assert (E : mkdir_from env exist_ok p [] σ = mkdir_plain env exist_ok p σ).
    { cbn [mkdir_from]. destruct (os_mkdir env p σ) as [[[] | []] σ1]; reflexivity. }
    rewrite E. destruct (mkdir_plain_frame env exist_ok p σ) as (H1 & H2 & _). auto.
  - assert (E : mkdir_from env exist_ok p (up :: ups') σ = mkdir_plain env exist_ok p σ \/
                mkdir_from env exist_ok p (up :: ups') σ =
                  match mkdir_from env true up ups' σ with
                  | (Ok tt, σ1) => mkdir_plain env exist_ok p σ1
                  | (Raise e, σ1) => (Raise e, σ1)
                  end).
    { cbn [mkdir_from]. destruct (os_mkdir env p σ) as [[[] | []] σ1]; auto. }
    destruct E as [-> | ->].
    + destruct (mkdir_plain_frame env exist_ok p σ) as (H1 & H2 & _). auto.
    + destruct (IH true up σ) as [Hup _].
      destruct (mkdir_from env true up ups' σ) as [[[] | e] σ1]; cbn [fst snd] in *.
      * destruct (mkdir_plain_frame env exist_ok p σ1) as (H1 & H2 & _).
        split; [eapply only_adds_dirs_trans; eassumption | exact H2].
      * split; [exact Hup | intros H; discriminate H].
Qed.

Lemma mkdir_frame (env : Env) (parents exist_ok : bool) (p : string) (σ : State) :
  only_adds_dirs σ (snd (mkdir env parents exist_ok p σ)).
Proof. apply mkdir_from_frame. Qed.

Lemma mkdir_stdout (env : Env) (parents exist_ok : bool) (p : string) (σ : State) :
  stdout (snd (mkdir env parents exist_ok p σ)) = stdout σ.
Proof. apply mkdir_frame. Qed.

Lemma mkdir_ok_dir (env : Env) (parents exist_ok : bool) (p : string) (σ σ' : State) :
  mkdir env parents exist_ok p σ = (Ok tt, σ') -> p ∈ dirs σ'.
Proof.
  intros H. destruct (mkdir_from_frame env
                        (if parents then rev (PyPath.ancestors p) else []) exist_ok p σ)
    as [_ Hok].
  unfold mkdir in H. rewrite H in Hok. exact (Hok eq_refl).
Qed.

(** Asking again for a directory that was just made (or forgiven) is
    forgiven, and changes nothing. *)
Lemma find_ext_pred {A : Type} (f g : A -> bool) (l : list A) :
  (forall x, f x = g x) -> List.find f l = List.find g l.
Proof.
  intros H. induction l as [| x l IH]; cbn; [reflexivity |].
  rewrite H, IH. reflexivity.
Qed.

Lemma os_mkdir_raise_ext (env : Env) (p : string) (σ σ' : State) (e : exn) :
  (forall q, is_dir σ' q = is_dir σ q) -> files σ' = files σ ->
  os_mkdir env p σ = (Raise e, σ) -> os_mkdir env p σ' = (Raise e, σ').
Proof.
  intros Hd Hf. unfold os_mkdir, is_file.
  rewrite (find_ext_pred (fun a => negb (is_dir σ' a)) (fun a => negb (is_dir σ a)))
    by (intros a; rewrite Hd; reflexivity).
  rewrite Hd, Hf. unfold add_dirs.
  repeat case_match; intros Heq; inversion Heq; reflexivity.
Qed.

Lemma is_dir_add_known (p : string) (σ : State) :
  is_dir σ p = true -> forall q, is_dir (snd (add_dirs {[p]} σ)) q = is_dir σ q.
Proof.
  intros Hp q. destruct (decide (q = p)) as [-> | Hne].
  - rewrite Hp. unfold is_dir. cbn [add_dirs snd dirs].
    rewrite bool_decide_eq_true_2 by set_solver. reflexivity.
  - unfold is_dir. cbn [add_dirs snd dirs].
    rewrite (bool_decide_ext (q ∈ {[p]} ∪ dirs σ) (q ∈ dirs σ))
      by (rewrite elem_of_union, elem_of_singleton; tauto).
    reflexivity.
Qed.

Lemma is_dir_mono (σ σ' : State) (q : string) :
  dirs σ ⊆ dirs σ' -> is_dir σ q = true -> is_dir σ' q = true.
Proof.
  unfold is_dir. intros Hsub H.
  apply orb_true_iff in H. destruct H as [H | H]; [| rewrite H; apply orb_true_r].
  apply orb_true_iff in H. destruct H as [H | H]; [| rewrite H, orb_true_r; reflexivity].
  apply bool_decide_eq_true in H. rewrite bool_decide_eq_true_2 by set_solver. reflexivity.
Qed.

Lemma mkdir_from_forgiven (env : Env) (p : string) (ups : list string) (σ : State) (e : exn) :
  os_mkdir env p σ = (Raise e, σ) -> (forall m, e <> FileNotFoundError m) ->
  p ∈ dirs σ ->
  mkdir_from env true p ups σ = (Ok tt, σ).
Proof.
  intros Hos Hne Hin.
  assert (Hpl : mkdir_plain env true p σ = (Ok tt, σ)).
  { unfold mkdir_plain. rewrite Hos.
    assert (Hd : is_dir σ p = true).
    { unfold is_dir. rewrite bool_decide_eq_true_2 by exact Hin. reflexivity. }
    rewrite Hd, bool_decide_eq_true_2 by exact Hin. cbn [andb].
    destruct e; try reflexivity. exfalso. eapply Hne. reflexivity. }
  destruct ups as [| up ups']; cbn [mkdir_from]; rewrite Hos.
  - destruct e; exact Hpl.
  - destruct e; try exact Hpl. exfalso. eapply Hne. reflexivity.
Qed.

Lemma mkdir_plain_again (env : Env) (p : string) (ups : list string) (σ σ' : State) :
  mkdir_plain env true p σ = (Ok tt, σ') -> mkdir_from env true p ups σ' = (Ok tt, σ').
Proof.
  intros H.
  destruct (os_mkdir_cases env p σ) as [(Hos & Hfind & Hno) | (e & Hos)].
  - (* the directory was created *)
    unfold mkdir_plain in H. rewrite Hos in H. cbn [add_dirs] in H.
    inversion H as [Hσ']. clear H.
    set (σ1 := mkState ({[p]} ∪ dirs σ) (files σ) (_libreoffice_checked σ)
                       (_libreoffice_available σ) (stdout σ)).
    assert (Hin : p ∈ dirs σ1) by (cbn; set_solver).
    apply (mkdir_from_forgiven env p ups σ1
             (FileExistsError ("[Errno 17] File exists: '" +:+ p +:+ "'")));
      [| intros m Hm; discriminate Hm | exact Hin].
    unfold os_mkdir.
    assert (Hfind' : List.find (fun a => negb (is_dir σ1 a)) (PyPath.ancestors p) = None).
    { destruct (List.find (fun a => negb (is_dir σ1 a)) (PyPath.ancestors p)) as [a |] eqn:E;
        [| reflexivity].
      apply List.find_some in E. destruct E as [Ha Hna].
      pose proof (List.find_none _ _ Hfind a Ha) as Hda. cbn beta in Hda.
      apply negb_false_iff in Hda.
      rewrite (is_dir_mono σ σ1 a) in Hna; [discriminate Hna | apply union_subseteq_r | exact Hda]. }
    rewrite Hfind'.
    assert (Hd : is_dir σ1 p = true).
    { unfold is_dir. rewrite bool_decide_eq_true_2 by exact Hin. reflexivity. }
    rewrite Hd. reflexivity.
  - (* the directory was there *)
    unfold mkdir_plain in H. rewrite Hos in H.
    assert (Hne : forall m, e <> FileNotFoundError m).
    { intros m ->. discriminate H. }
    assert (H' : (if true && is_dir σ p
                  then (if bool_decide (p ∈ dirs σ) then (Ok tt, σ) else add_dirs {[p]} σ)
                  else (Raise e, σ)) = (Ok tt, σ')).
    { destruct e; try exact H. exfalso. eapply Hne. reflexivity. }
    clear H. cbn [andb] in H'.
    destruct (is_dir σ p) eqn:Hd; [| discriminate H'].
    case_bool_decide as Hin.
    + inversion H'; subst σ'. eapply mkdir_from_forgiven; eassumption.
    + assert (Hσ' : σ' = snd (add_dirs {[p]} σ)) by (rewrite H'; reflexivity).
      subst σ'. eapply mkdir_from_forgiven; [| exact Hne | cbn; set_solver].
      apply (os_mkdir_raise_ext env p σ); [apply is_dir_add_known; exact Hd | reflexivity | exact Hos].
Qed.

Lemma mkdir_from_again (env : Env) (p : string) (ups ups' : list string) (σ σ' : State) :
  mkdir_from env true p ups σ = (Ok tt, σ') -> mkdir_from env true p ups' σ' = (Ok tt, σ').
Proof.
  intros H.
  assert (E : mkdir_from env true p ups σ = mkdir_plain env true p σ \/
              exists up rest, ups = up :: rest /\
                mkdir_from env true p ups σ =
                  match mkdir_from env true up rest σ with
                  | (Ok tt, σ1) => mkdir_plain env true p σ1
                  | (Raise e, σ1) => (Raise e, σ1)
                  end).
  { destruct ups as [| up rest]; cbn [mkdir_from].
    - left. destruct (os_mkdir env p σ) as [[[] | []] σ1]; reflexivity.
    - destruct (os_mkdir env p σ) as [[[] | []] σ1]; eauto. }
  destruct E as [E | (up & rest & -> & E)]; rewrite E in H.
  - eapply mkdir_plain_again; exact H.
  - destruct (mkdir_from env true up rest σ) as [[[] | e] σ1]; [| discriminate H].
    eapply mkdir_plain_again; exact H.
Qed.

Lemma translate_pptx_stdout (env : Env) (i o l s : string) (k : option string) (σ : State) :
  stdout (snd (translate_pptx env i o l s k σ)) = stdout σ.
Proof. unfold translate_pptx. repeat case_match; reflexivity. Qed.

Lemma _ensure_libreoffice_available_frame (env : Env) (σ : State) :
  let σ' := snd (_ensure_libreoffice_available env σ) in
  stdout σ' = stdout σ /\ dirs σ' = dirs σ /\ files σ' = files σ.
Proof. unfold _ensure_libreoffice_available. repeat case_match; auto. Qed.

Lemma _libreoffice_convert_stdout (env : Env) (src fmt : string) (σ : State) :
  stdout (snd (_libreoffice_convert env src fmt σ)) = stdout σ.
Proof.
  unfold _libreoffice_convert.
  destruct (LIBREOFFICE_CONVERT_OPTIONS fmt) as [[filters exts] |]; [| reflexivity].
  rewrite bind_run.
  pose proof (_ensure_libreoffice_available_frame env σ) as [H _].
  destruct (_ensure_libreoffice_available env σ) as [[[] | e] σ1]; simpl in *; [| exact H].
  repeat case_match; simpl; exact H.
Qed.

Lemma _bundle_outputs_to_zip_stdout (env : Env) (root : string) (σ : State) :
  stdout (snd (_bundle_outputs_to_zip env root σ)) = stdout σ.
Proof. unfold _bundle_outputs_to_zip. case_match; reflexivity. Qed.

Lemma _ensure_output_root_stdout (env : Env) (o : option string) (i : string) (σ : State) :
  stdout (snd (_ensure_output_root env o i σ)) = stdout σ.
Proof.
  unfold _ensure_output_root. rewrite bind_run.
  pose proof (mkdir_stdout env true true
                (if opt_truthy o then default "" o
                 else PyPath.join (PyPath.parent i) (PyPath.stem i +:+ "_translations")) σ) as H.
  destruct (mkdir env true true _ σ) as [[[] | e] σ1]; exact H.
Qed.

(** ** The converter check *)

Lemma fresh_process_coherent (env : Env) (d : gset string) (f : gmap string File) :
  cache_coherent env (fresh_process d f).
Proof. intros H. discriminate H. Qed.

Lemma _ensure_libreoffice_available_coherent (env : Env) (σ : State) :
  cache_coherent env σ ->
  cache_coherent env (snd (_ensure_libreoffice_available env σ)).
Proof.
  unfold cache_coherent, _ensure_libreoffice_available.
  intros H. repeat case_match; simpl; auto.
Qed.

(** With the binary absent the check raises, whether it is the first
    look-up or a cached one. *)
Lemma _ensure_libreoffice_available_absent (env : Env) (σ : State) :
  cache_coherent env σ ->
  env_which env (env_LIBREOFFICE_PATH env) = false ->
  fst (_ensure_libreoffice_available env σ)
    = Raise (FileNotFoundError "LibreOffice (soffice) not found.").
Proof.
  unfold cache_coherent, _ensure_libreoffice_available. intros Hc Hw.
  destruct (_libreoffice_checked σ).
  - rewrite (Hc eq_refl), Hw. reflexivity.
  - rewrite Hw. reflexivity.
Qed.

(** A requested ["pdf"] survives normalisation. *)
Lemma pdf_requested_normalized (formats : option (list string)) (nf : list string) :
  pdf_requested formats -> _normalize_formats formats = Ok nf -> "pdf" ∈ nf.
Proof.
  intros (fs & fmt & -> & Hin & Hclean) Hnf.
  destruct fs as [| f0 rest]; [inversion Hin |].
  rewrite _normalize_formats_cases in Hnf.
  destruct (invalid_formats (normalized_by_words (f0 :: rest))); [| discriminate].
  inversion Hnf; subst nf; clear Hnf.
  assert (Hc : "pdf" ∈ cleaned_formats (f0 :: rest)).
  { unfold cleaned_formats. apply list_elem_of_omap. exists fmt. split; [exact Hin |].
    rewrite Hclean. destruct fmt; [discriminate Hclean | reflexivity]. }
  assert (Hu : "pdf" ∈ unique (cleaned_formats (f0 :: rest))).
  { unfold unique. apply unique_loop_elem. right. exact Hc. }
  unfold normalized_by_words.
  destruct (unique (cleaned_formats (f0 :: rest))); [inversion Hu | exact Hu].
Qed.

(** The statements before the loop stop at the converter check. *)
Lemma prepare_job_pdf_absent (env : Env) (input_path : string) (target_langs : list string)
    (formats : option (list string)) (output_root : option string) (σ : State) :
  pdf_requested formats ->
  env_which env (env_LIBREOFFICE_PATH env) = false ->
  cache_coherent env σ ->
  exists (e : exn) (σ' : State),
    prepare_job env input_path target_langs formats output_root σ = (Raise e, σ') /\
    dirs σ' = dirs σ /\ files σ' = files σ /\ stdout σ' = stdout σ /\
    (path_exists σ input_path = true ->
     clean_languages target_langs <> [] ->
     is_ok (_normalize_formats formats) = true ->
     e = FileNotFoundError "LibreOffice (soffice) not found.").
Proof.
  intros Hpdf Hwhich Hcoh. unfold prepare_job. rewrite bind_run. simpl.
  destruct (path_exists σ input_path); simpl.
  2: { eexists _, σ. repeat split; try reflexivity. intros H; discriminate H. }
  destruct (clean_languages target_langs) as [| l0 ls]; simpl.
  { eexists _, σ. repeat split; try reflexivity. intros _ H; contradiction. }
  rewrite bind_run. unfold lift.
  destruct (_normalize_formats formats) as [nf | e] eqn:Hnf.
  2: { eexists _, σ. repeat split; try reflexivity. intros _ _ H; discriminate H. }
  pose proof (pdf_requested_normalized formats nf Hpdf Hnf) as Hin.
  rewrite bind_run. rewrite bool_decide_eq_true_2 by exact Hin.
  pose proof (_ensure_libreoffice_available_absent env σ Hcoh Hwhich) as Hraise.
  pose proof (_ensure_libreoffice_available_frame env σ) as (Hout & Hdirs & Hfiles).
  destruct (_ensure_libreoffice_available env σ) as [r σ1]. simpl in *. subst r.
  eexists _, σ1. repeat split; auto.
Qed.

(** What a stale cache leads to: the process found the converter once, the
    binary is gone, ["pdf"] is requested.  The check answers from the cache,
    the orchestrator returns a summary, the output root and both language
    directories exist, both languages were attempted, and each failed
    export is an entry of [errors]. *)
Lemma stale_cache_run_proceeds :
  let r := translate_pptx_multi Examples.env_plain "work/deck.pptx" ["es"; "fr"] "google"
             None (Some [".PDF"; "pptx"]) (Some "out") true Examples.uploaded_stale_cache in
  fst (_ensure_libreoffice_available Examples.env_plain Examples.uploaded_stale_cache)
    = Ok tt /\
  dirs (snd r) = {[ "work"; "out"; "out/es"; "out/fr" ]} /\
  attempted_languages (new_events Examples.uploaded_stale_cache (snd r)) = ["es"; "fr"] /\
  exists summary : Summary,
    fst r = Ok summary /\
    dict_keys (sum_translations summary) = ["es"; "fr"] /\
    sum_errors summary = ["es PDF export failed: LibreOffice conversion failed";
                          "fr PDF export failed: LibreOffice conversion failed"].
Proof.
  cbv zeta. split; [reflexivity |]. split; [vm_compute; reflexivity |].
  split; [vm_compute; reflexivity |].
  destruct (translate_pptx_multi Examples.env_plain "work/deck.pptx" ["es"; "fr"] "google"
              None (Some [".PDF"; "pptx"]) (Some "out") true Examples.uploaded_stale_cache)
    as [[summary | e] σ'] eqn:E; vm_compute in E; [| discriminate E].
  exists summary. split; [reflexivity |].
  inversion E; subst. split; reflexivity.
Qed.

(** C7, as stated, fails: the availability of the converter is looked up
    once per process and cached.  In a process that found the converter
    earlier, with the binary gone since and ["pdf"] requested, the
    orchestrator does not raise: it creates the output root and the
    directories of "es" and "fr" and translates both. *)
Lemma C7_stale_cache_counterexample : ~ missing_converter_always_fails_fast.
Proof.
  intros H.
  destruct (H Examples.env_plain "work/deck.pptx" ["es"; "fr"] "google" None
              (Some [".PDF"; "pptx"]) (Some "out") true Examples.uploaded_stale_cache)
    as (e & σ' & Hrun & _).
  - exists [".PDF"; "pptx"], ".PDF". split; [reflexivity |].
    split; [apply list_elem_of_here | reflexivity].
  - reflexivity.
  - vm_compute in Hrun. discriminate Hrun.
Qed.

(** C7 (amended): when ["pdf"] is among the requested formats and the
    converter binary is not found, in a process whose cached check, if any,
    agrees with the look-up (it has not checked yet, or it recorded the
    binary as missing), the orchestrator raises before any translation
    work: no output root and no per-language directory is created, no file
    is written and no language is attempted; once the request itself is
    valid, the exception is the converter's [FileNotFoundError]. *)
Theorem C7_missing_converter_fails_fast
    (env : Env) (input_file : string) (target_langs : list string) (service : string)
    (api_key : option string) (formats : option (list string))
    (output_root : option string) (zip_output : bool) (σ : State) :
  pdf_requested formats ->
  env_which env (env_LIBREOFFICE_PATH env) = false ->
  cache_coherent env σ ->
  exists (e : exn) (σ' : State),
    translate_pptx_multi env input_file target_langs service api_key formats
                         output_root zip_output σ = (Raise e, σ') /\
    dirs σ' = dirs σ /\ files σ' = files σ /\
    attempted_languages (new_events σ σ') = [] /\ new_events σ σ' = [] /\
    (path_exists σ input_file = true ->
     clean_languages target_langs <> [] ->
     is_ok (_normalize_formats formats) = true ->
     e = FileNotFoundError "LibreOffice (soffice) not found.").
Proof.
  intros Hpdf Hwhich Hcoh.
  destruct (prepare_job_pdf_absent env input_file target_langs formats output_root σ
              Hpdf Hwhich Hcoh) as (e & σ' & Hrun & Hdirs & Hfiles & Hout & He).
  exists e, σ'. unfold translate_pptx_multi. rewrite bind_run, Hrun.
  assert (Hnew : new_events σ σ' = []).
  { unfold new_events. rewrite Hout. apply drop_all. }
  rewrite Hnew. repeat split; auto.
Qed.

(** The uploaded deck, ["pdf"] requested, no converter on the path. *)
Lemma C7_missing_converter_fails_fast_witness :
  exists σ' : State,
    translate_pptx_multi Examples.env_plain "work/deck.pptx" ["es"; "fr"] "google" None
                         (Some [".PDF"; "pptx"]) (Some "out") true Examples.uploaded
      = (Raise (FileNotFoundError "LibreOffice (soffice) not found."), σ') /\
    dirs σ' = dirs Examples.uploaded /\ files σ' = files Examples.uploaded /\
    new_events Examples.uploaded σ' = [].
Proof.
  destruct (C7_missing_converter_fails_fast Examples.env_plain "work/deck.pptx"
              ["es"; "fr"] "google" None (Some [".PDF"; "pptx"]) (Some "out") true
              Examples.uploaded)
    as (e & σ' & Hrun & Hdirs & Hfiles & _ & Hnew & He).
  - exists [".PDF"; "pptx"], ".PDF". split; [reflexivity |].
    split; [apply list_elem_of_here | reflexivity].
  - reflexivity.
  - apply fresh_process_coherent.
  - exists σ'. rewrite <- (He eq_refl ltac:(discriminate) eq_refl).
    repeat split; assumption.
Defined.

(** ** One iteration of the language loop *)

Lemma dict_keys_set {V : Type} (k : string) (v : V) (d : list (string * V)) :
  dict_keys (dict_set k v d) =
    if bool_decide (k ∈ dict_keys d) then dict_keys d else dict_keys d ++ [k].
Proof.
  induction d as [| [k' v'] d IH]; simpl; [reflexivity |].
  destruct (String.eqb k' k) eqn:E.
  - apply String.eqb_eq in E. subst k'.
    rewrite bool_decide_eq_true_2 by apply list_elem_of_here. reflexivity.
  - apply String.eqb_neq in E. simpl. rewrite IH.
    case_bool_decide as H1; case_bool_decide as H2; try reflexivity.
    + exfalso. apply H2. apply list_elem_of_further. exact H1.
    + exfalso. apply elem_of_cons in H2 as [-> | H2]; [congruence | contradiction].
Qed.

Lemma dict_set_Forall {V : Type} (P : string * V -> Prop) (k : string) (v : V)
    (d : list (string * V)) :
  P (k, v) -> Forall P d -> Forall P (dict_set k v d).
Proof.
  intros Hk. induction d as [| [k' v'] d IH]; simpl; intros Hd.
  - constructor; [exact Hk | constructor].
  - inversion Hd; subst. destruct (String.eqb k' k); constructor; auto.
Qed.

Section LoopFacts.

Variable env : Env.
Variables (input_path service : string) (api_key : option string).
Variable normalized_formats : list string.
Variable output_root_path : string.

Abbreviation process_language' :=
  (process_language env input_path service api_key normalized_formats output_root_path).
Abbreviation language_loop' :=
  (language_loop env input_path service api_key normalized_formats output_root_path).

(** One iteration prints its own "translating" line and, besides it,
    only lines of the PDF step; a completed iteration yields an entry
    that reports the target path whenever ["pptx"] was requested. *)
Lemma process_language_spec (language : string) (σ : State) :
  (exists evs : list Event,
     stdout (snd (process_language' language σ)) = stdout σ ++ EvTranslatingTo language :: evs /\
     attempted_languages evs = [] /\ done_languages evs = [] /\ failed_languages evs = []) /\
  (forall (entry : LangResult) (errs : list string),
     fst (process_language' language σ) = Ok (entry, errs) ->
     "pptx" ∈ normalized_formats ->
     reports_pptx_path output_root_path (PyPath.stem input_path) (language, entry)).
Proof.
  unfold process_language, reports_pptx_path. rewrite bind_run. cbn [print fst snd].
  set (σa := mkState _ _ _ _ (stdout σ ++ [EvTranslatingTo language])).
  assert (Ha : stdout σa = stdout σ ++ [EvTranslatingTo language]) by reflexivity.
  clearbody σa.
  rewrite bind_run.
  pose proof (mkdir_stdout env false true (PyPath.join output_root_path language) σa) as Hb.
  destruct (mkdir env false true (PyPath.join output_root_path language) σa)
    as [[[] | e] σb]; cbn [fst snd] in *.
  2: { split; [| intros ? ? H; discriminate H].
       exists []. rewrite Hb, Ha. auto. }
  rewrite bind_run.
  pose proof (translate_pptx_stdout env input_path
                (pptx_path_of output_root_path (PyPath.stem input_path) language)
                language service api_key σb) as Hc.
  destruct (translate_pptx env input_path _ language service api_key σb)
    as [[translated | e] σc]; cbn [fst snd] in *.
  2: { split; [| intros ? ? H; discriminate H].
       exists []. rewrite Hc, Hb, Ha. auto. }
  rewrite bind_run. cbn [fst snd].
  set (outputs0 := if bool_decide ("pptx" ∈ normalized_formats)
                   then _ else (∅ : gmap string string)).
  assert (H0 : "pptx" ∈ normalized_formats ->
               outputs0 !! "pptx" =
                 Some (pptx_path_of output_root_path (PyPath.stem input_path) language)).
  { intros Hin. subst outputs0. rewrite bool_decide_eq_true_2 by exact Hin.
    apply lookup_singleton_eq. }
  clearbody outputs0.
  rewrite bind_run.
  destruct (bool_decide ("pdf" ∈ normalized_formats) && path_exists σc _).
  2: { unfold mbind, M_bind, mret, M_ret; cbn [fst snd stdout]. split.
       - exists []. rewrite Hc, Hb, Ha. auto.
       - intros entry errs H Hin. inversion H; subst. cbn. auto. }
  rewrite bind_run. cbn [print fst snd].
  set (σd := mkState _ _ _ _ (stdout σc ++ [EvConvertingPdf])).
  assert (Hd : stdout σd = stdout σc ++ [EvConvertingPdf]) by reflexivity.
  clearbody σd.
  rewrite try_except_run, bind_run.
  pose proof (_libreoffice_convert_stdout env
                (pptx_path_of output_root_path (PyPath.stem input_path) language)
                "pdf" σd) as He.
  destruct (_libreoffice_convert env _ "pdf" σd) as [[pdf_path | e] σe];
    unfold mbind, M_bind, mret, M_ret, print; cbn [fst snd stdout] in *.
  - split.
    + exists [EvConvertingPdf; EvPdfCreated pdf_path].
      rewrite He, Hd, Hc, Hb, Ha. rewrite <- !app_assoc. auto.
    + intros entry errs H Hin. inversion H; subst. cbn.
      rewrite lookup_insert_ne by discriminate. auto.
  - split.
    + exists [EvConvertingPdf]. rewrite He, Hd, Hc, Hb, Ha. rewrite <- !app_assoc. auto.
    + intros entry errs H Hin. inversion H; subst. cbn. auto.
Qed.

(** Unfolding one iteration: the completed case. *)
Lemma language_loop_done (language : string) (rest : list string)
    (translations : list (string * LangResult)) (errors : list string) (σ σ1 : State)
    (entry : LangResult) (pdf_errors : list string) :
  process_language' language σ = (Ok (entry, pdf_errors), σ1) ->
  language_loop' (language :: rest) translations errors σ =
    language_loop' rest (dict_set language entry translations) (errors ++ pdf_errors)
      (snd (print (EvLanguageDone language (count entry)) σ1)).
Proof.
  intros H. cbn [language_loop].
  rewrite bind_run, try_except_run, bind_run, H. reflexivity.
Qed.

(** Unfolding one iteration: the handler. *)
Lemma language_loop_failed (language : string) (rest : list string)
    (translations : list (string * LangResult)) (errors : list string) (σ σ1 : State)
    (exc : exn) :
  process_language' language σ = (Raise exc, σ1) ->
  language_loop' (language :: rest) translations errors σ =
    language_loop' rest translations (errors ++ [language +:+ ": " +:+ str_exn exc])
      (snd (print (EvLanguageFailed language (str_exn exc)) σ1)).
Proof.
  intros H. cbn [language_loop].
  rewrite bind_run, try_except_run, bind_run, H. reflexivity.
Qed.

(** The loop never raises; it attempts every language in order, keeps
    one entry per completed language in order of first completion, and
    appends one error string per failed iteration. *)
Lemma language_loop_spec (languages : list string) :
  forall (translations : list (string * LangResult)) (errors : list string) (σ : State),
  exists (translations' : list (string * LangResult)) (more : list string)
         (σ' : State) (evs : list Event),
    language_loop' languages translations errors σ
      = (Ok (translations', errors ++ more), σ') /\
    stdout σ' = stdout σ ++ evs /\
    attempted_languages evs = languages /\
    dict_keys translations' = unique_loop (dict_keys translations) (done_languages evs) /\
    (forall l m, (l, m) ∈ failed_languages evs -> (l +:+ ": " +:+ m) ∈ more) /\
    (failed_languages evs = [] -> done_languages evs = languages) /\
    ("pptx" ∈ normalized_formats ->
     Forall (reports_pptx_path output_root_path (PyPath.stem input_path)) translations ->
     Forall (reports_pptx_path output_root_path (PyPath.stem input_path)) translations').
Proof.
  induction languages as [| language rest IH]; intros translations errors σ.
  - exists translations, [], σ, []. cbn [language_loop].
    rewrite !app_nil_r. repeat split; auto.
    intros l m H. inversion H.
  - destruct (process_language_spec language σ) as [(evs0 & Hout & Hatt & Hdone & Hfail) Hentry].
    destruct (process_language' language σ) as [[[entry pdf_errors] | exc] σ1] eqn:Hrun;
      cbn [fst snd] in *.
    + rewrite (language_loop_done language rest translations errors σ σ1 entry pdf_errors Hrun).
      destruct (IH (dict_set language entry translations) (errors ++ pdf_errors)
                   (snd (print (EvLanguageDone language (count entry)) σ1)))
        as (tr' & more & σ' & evs & Hloop & Hout' & Hatt' & Hkeys & Hfail' & Hall' & Hrep).
      exists tr', (pdf_errors ++ more), σ',
        (EvTranslatingTo language :: evs0 ++ [EvLanguageDone language (count entry)] ++ evs).
      rewrite app_assoc. split; [exact Hloop |].
      split.
      { rewrite Hout'. cbn [print snd stdout]. rewrite Hout.
        rewrite <- !app_assoc. reflexivity. }
      unfold attempted_languages, done_languages, failed_languages in *.
      cbn [omap list_omap]. rewrite !omap_app. cbn [omap list_omap].
      rewrite Hatt, Hdone, Hfail. cbn [app].
      split; [f_equal; exact Hatt' |].
      split.
      { rewrite Hkeys, dict_keys_set. reflexivity. }
      split.
      { intros l m H. apply elem_of_app. right. apply Hfail'. exact H. }
      split; [intros H; f_equal; apply Hall'; exact H |].
      intros Hin Hall. apply (Hrep Hin).
      apply dict_set_Forall; [| exact Hall].
      apply (Hentry entry pdf_errors eq_refl Hin).
    + rewrite (language_loop_failed language rest translations errors σ σ1 exc Hrun).
      destruct (IH translations (errors ++ [language +:+ ": " +:+ str_exn exc])
                   (snd (print (EvLanguageFailed language (str_exn exc)) σ1)))
        as (tr' & more & σ' & evs & Hloop & Hout' & Hatt' & Hkeys & Hfail' & Hall' & Hrep).
      exists tr', ([language +:+ ": " +:+ str_exn exc] ++ more), σ',
        (EvTranslatingTo language :: evs0
           ++ [EvLanguageFailed language (str_exn exc)] ++ evs).
      rewrite app_assoc. split; [exact Hloop |].
      split.
      { rewrite Hout'. cbn [print snd stdout]. rewrite Hout.
        rewrite <- !app_assoc. reflexivity. }
      unfold attempted_languages, done_languages, failed_languages in *.
      cbn [omap list_omap]. rewrite !omap_app. cbn [omap list_omap].
      rewrite Hatt, Hdone, Hfail. cbn [app].
      split; [f_equal; exact Hatt' |].
      split; [exact Hkeys |].
      split; [| split; [intros H; discriminate H | exact Hrep]].
      intros l m H. apply elem_of_cons in H as [H | H].
      * inversion H; subst. apply list_elem_of_here.
      * apply list_elem_of_further. apply Hfail'. exact H.
Qed.

(** The loop over a concatenation is the loop over the first part
    followed by the loop over the second. *)
Lemma language_loop_app (l1 l2 : list string) :
  forall (translations : list (string * LangResult)) (errors : list string) (σ : State),
    language_loop' (l1 ++ l2) translations errors σ =
      match language_loop' l1 translations errors σ with
      | (Ok (translations1, errors1), σ1) => language_loop' l2 translations1 errors1 σ1
      | (Raise e, σ1) => (Raise e, σ1)
      end.
Proof.
  induction l1 as [| language rest IH]; intros translations errors σ.
  - reflexivity.
  - cbn [app].
    destruct (process_language' language σ) as [[[entry pdf_errors] | exc] σ1] eqn:Hrun.
    + rewrite !(language_loop_done language _ translations errors σ σ1 entry pdf_errors Hrun).
      apply IH.
    + rewrite !(language_loop_failed language _ translations errors σ σ1 exc Hrun).
      apply IH.
Qed.

(** An exception raised while one language is processed ends up, keyed
    by that language, in the loop's error list; the loop goes on. *)
Lemma language_loop_catches (l1 : list string) (language : string) (l2 : list string)
    (translations : list (string * LangResult)) (errors : list string) (σ : State)
    (exc : exn) :
  fst (process_language' language (snd (language_loop' l1 translations errors σ)))
    = Raise exc ->
  exists (translations' : list (string * LangResult)) (errors' : list string) (σ' : State),
    language_loop' (l1 ++ language :: l2) translations errors σ
      = (Ok (translations', errors'), σ') /\
    (language +:+ ": " +:+ str_exn exc) ∈ errors'.
Proof.
  intros Hraise. rewrite language_loop_app.
  destruct (language_loop_spec l1 translations errors σ)
    as (tr1 & more1 & σ1 & evs1 & Hloop1 & _).
  rewrite Hloop1 in *. cbn [snd] in Hraise.
  destruct (process_language' language σ1) as [r σ2] eqn:Hrun.
  cbn [fst] in Hraise. subst r.
  rewrite (language_loop_failed language l2 tr1 (errors ++ more1) σ1 σ2 exc Hrun).
  destruct (language_loop_spec l2 tr1
              ((errors ++ more1) ++ [language +:+ ": " +:+ str_exn exc])
              (snd (print (EvLanguageFailed language (str_exn exc)) σ2)))
    as (tr2 & more2 & σ' & evs2 & Hloop2 & _).
  exists tr2, (((errors ++ more1) ++ [language +:+ ": " +:+ str_exn exc]) ++ more2), σ'.
  split; [exact Hloop2 |].
  apply elem_of_app. left. apply elem_of_app. right. apply list_elem_of_here.
Qed.

End LoopFacts.

(** ** The whole orchestrator *)

Lemma archive_outputs_spec (env : Env) (zip_output : bool) (root : string)
    (translations : list (string * LangResult)) (errors : list string) (σ : State) :
  exists (zip_path : option string) (more : list string) (σ' : State) (evs : list Event),
    archive_outputs env zip_output root translations errors σ
      = (Ok (zip_path, errors ++ more), σ') /\
    stdout σ' = stdout σ ++ evs /\
    attempted_languages evs = [] /\ done_languages evs = [] /\ failed_languages evs = [].
Proof.
  unfold archive_outputs.
  destruct (zip_output && negb (bool_decide (translations = []))).
  2: { exists None, [], σ, []. rewrite !app_nil_r. auto. }
  rewrite try_except_run, bind_run. cbn [print fst snd].
  set (σa := mkState _ _ _ _ (stdout σ ++ [EvCreatingZip])).
  assert (Ha : stdout σa = stdout σ ++ [EvCreatingZip]) by reflexivity.
  clearbody σa. rewrite bind_run.
  pose proof (_bundle_outputs_to_zip_stdout env root σa) as Hb.
  destruct (_bundle_outputs_to_zip env root σa) as [[zip_path | exc] σb];
    unfold mbind, M_bind, mret, M_ret, print; cbn [fst snd stdout] in *.
  - eexists (Some zip_path), [], _, [EvCreatingZip; EvZipCreated zip_path].
    rewrite app_nil_r. split; [reflexivity |]. cbn [stdout].
    rewrite Hb, Ha, <- !app_assoc. auto.
  - eexists None, ["ZIP packaging failed: " +:+ str_exn exc], σb, [EvCreatingZip].
    split; [reflexivity |]. rewrite Hb, Ha. auto.
Qed.

(** What a successful preparation tells. *)
Lemma prepare_job_ok (env : Env) (input_path : string) (target_langs : list string)
    (formats : option (list string)) (output_root : option string) (σ σ2 : State)
    (languages nf : list string) (root : string) :
  prepare_job env input_path target_langs formats output_root σ
    = (Ok (languages, nf, root), σ2) ->
  languages = clean_languages target_langs /\
  _normalize_formats formats = Ok nf /\
  stdout σ2 = stdout σ.
Proof.
  unfold prepare_job. rewrite bind_run. cbn [fst snd].
  destruct (path_exists σ input_path); cbn [negb]; [| intros H; discriminate H].
  destruct (clean_languages target_langs) as [| l0 ls]; [intros H; discriminate H |].
  rewrite bind_run. unfold lift.
  destruct (_normalize_formats formats) as [nf0 | e]; [| intros H; discriminate H].
  rewrite bind_run.
  assert (Hchk :
            stdout (snd ((if bool_decide ("pdf" ∈ nf0)
                          then _ensure_libreoffice_available env else mret tt) σ)) = stdout σ).
  { destruct (bool_decide ("pdf" ∈ nf0)); [| reflexivity].
    apply _ensure_libreoffice_available_frame. }
  destruct ((if bool_decide ("pdf" ∈ nf0)
             then _ensure_libreoffice_available env else mret tt) σ) as [[[] | e] σ1];
    [| intros H; discriminate H].
  cbn [snd] in Hchk. rewrite bind_run.
  pose proof (_ensure_output_root_stdout env output_root input_path σ1) as Hroot.
  destruct (_ensure_output_root env output_root input_path σ1) as [[root0 | e] σr];
    [| intros H; discriminate H].
  cbn [snd] in Hroot. intros H. inversion H; subst.
  repeat split. congruence.
Qed.

Section OrchestratorFacts.

Variable env : Env.
Variables (input_file : string) (target_langs : list string) (service : string).
Variables (api_key : option string) (formats : option (list string)).
Variables (output_root : option string) (zip_output : bool).

Abbreviation run_job :=
  (translate_pptx_multi env input_file target_langs service api_key formats
                        output_root zip_output).
Abbreviation api_key' := (resolve_api_key env service api_key).

(** Once the preparation has passed, a summary is returned. *)
Lemma translate_pptx_multi_run (σ σ2 : State) (languages nf : list string) (root : string) :
  prepare_job env input_file target_langs formats output_root σ
    = (Ok (languages, nf, root), σ2) ->
  exists (summary : Summary) (σ' : State) (evs : list Event),
    run_job σ = (Ok summary, σ') /\
    sum_input summary = input_file /\ sum_output_root summary = root /\
    sum_formats summary = nf /\
    new_events σ σ' = EvStarting (length languages) :: evs /\
    attempted_languages evs = languages /\
    dict_keys (sum_translations summary) = unique (done_languages evs) /\
    (forall l m, (l, m) ∈ failed_languages evs -> (l +:+ ": " +:+ m) ∈ sum_errors summary) /\
    (failed_languages evs = [] -> done_languages evs = languages) /\
    ("pptx" ∈ nf ->
     Forall (reports_pptx_path root (PyPath.stem input_file)) (sum_translations summary)) /\
    (forall l1 language l2 exc,
       languages = l1 ++ language :: l2 ->
       fst (process_language env input_file service api_key' nf root language
              (snd (language_loop env input_file service api_key' nf root l1 [] []
                      (snd (print (EvStarting (length languages)) σ2))))) = Raise exc ->
       (language +:+ ": " +:+ str_exn exc) ∈ sum_errors summary).
Proof.
  intros Hprep.
  destruct (prepare_job_ok _ _ _ _ _ _ _ _ _ _ Hprep) as (_ & _ & Hout2).
  unfold translate_pptx_multi. rewrite bind_run, Hprep. cbn iota beta.
  rewrite bind_run. cbn [print fst snd].
  set (σ3 := mkState _ _ _ _ (stdout σ2 ++ [EvStarting (length languages)])).
  assert (H3 : stdout σ3 = stdout σ ++ [EvStarting (length languages)]).
  { subst σ3. cbn [stdout]. rewrite Hout2. reflexivity. }
  clearbody σ3.
  rewrite bind_run.
  destruct (language_loop_spec env input_file service api_key' nf root languages [] [] σ3)
    as (tr & more & σ4 & evs & Hloop & Hout4 & Hatt & Hkeys & Hfail & Hall & Hrep).
  rewrite Hloop. cbn iota beta. rewrite bind_run.
  destruct (archive_outputs_spec env zip_output root tr ([] ++ more) σ4)
    as (zp & more' & σ5 & zevs & Harch & Hout5 & Hzatt & Hzdone & Hzfail).
  rewrite Harch. cbn iota beta.
  eexists _, σ5, (evs ++ zevs). split; [reflexivity |]. cbn [sum_input sum_output_root
    sum_formats sum_translations sum_errors].
  split; [reflexivity |]. split; [reflexivity |]. split; [reflexivity |].
  split.
  { unfold new_events. rewrite Hout5, Hout4, H3, <- !app_assoc.
    rewrite drop_app_length. reflexivity. }
  unfold attempted_languages, done_languages, failed_languages in *.
  rewrite !omap_app, Hzatt, Hzdone, Hzfail, !app_nil_r.
  split; [exact Hatt |]. split; [exact Hkeys |].
  split.
  { intros l m H. apply elem_of_app. left. apply Hfail. exact H. }
  split; [exact Hall |].
  split.
  { intros Hin. apply (Hrep Hin). constructor. }
  intros l1 language l2 exc Hsplit Hraise.
  destruct (language_loop_catches env input_file service api_key' nf root
              l1 language l2 [] [] σ3 exc Hraise) as (tr' & er' & σ' & Hloop' & Hin).
  rewrite <- Hsplit, Hloop in Hloop'. inversion Hloop'; subst.
  apply elem_of_app. left. exact Hin.
Qed.

(** A returned summary comes from a preparation that passed. *)
Lemma translate_pptx_multi_prepared (σ σ' : State) (summary : Summary) :
  run_job σ = (Ok summary, σ') ->
  exists (σ2 : State) (nf : list string) (root : string),
    prepare_job env input_file target_langs formats output_root σ
      = (Ok (clean_languages target_langs, nf, root), σ2).
Proof.
  unfold translate_pptx_multi. rewrite bind_run.
  destruct (prepare_job env input_file target_langs formats output_root σ)
    as [[[[languages nf] root] | e] σ2] eqn:Hprep; [| intros H; discriminate H].
  intros _. destruct (prepare_job_ok _ _ _ _ _ _ _ _ _ _ Hprep) as (-> & _).
  eauto.
Qed.

End OrchestratorFacts.




(** C8: once the request has passed the checks that precede the loop, the
    orchestrator returns a summary whatever happens to the languages; it
    attempts every language in order, and each exception raised while a
    language is processed is caught and recorded in the summary's error
    list as "<language>: <exception>". *)
Theorem C8_language_failures_are_collected
    (env : Env) (input_file : string) (target_langs : list string) (service : string)
    (api_key : option string) (formats : option (list string))
    (output_root : option string) (zip_output : bool)
    (σ σ2 : State) (languages nf : list string) (root : string) :
  prepare_job env input_file target_langs formats output_root σ
    = (Ok (languages, nf, root), σ2) ->
  exists (summary : Summary) (σ' : State),
    translate_pptx_multi env input_file target_langs service api_key formats
                         output_root zip_output σ = (Ok summary, σ') /\
    attempted_languages (new_events σ σ') = languages /\
    (forall l m, (l, m) ∈ failed_languages (new_events σ σ') ->
                 (l +:+ ": " +:+ m) ∈ sum_errors summary) /\
    (forall l1 language l2 exc,
       languages = l1 ++ language :: l2 ->
       fst (process_language env input_file service (resolve_api_key env service api_key)
              nf root language
              (snd (language_loop env input_file service
                      (resolve_api_key env service api_key) nf root l1 [] []
                      (snd (print (EvStarting (length languages)) σ2))))) = Raise exc ->
       (language +:+ ": " +:+ str_exn exc) ∈ sum_errors summary).
Proof.
  intros Hprep.
  destruct (translate_pptx_multi_run env input_file target_langs service api_key formats
              output_root zip_output _ _ _ _ _ Hprep)
    as (summary & σ' & evs & Hrun & _ & _ & _ & Hnew & Hatt & _ & Hfail & _ & _ & Hcatch).
  exists summary, σ'. rewrite Hnew. split; [exact Hrun |].
  split; [exact Hatt |]. split; [exact Hfail | exact Hcatch].
Qed.

(** "es" cannot get its directory, "fr" can: a summary comes back, both
    languages were attempted and the failure of "es" is in the error list. *)
Lemma C8_language_failures_are_collected_witness :
  exists (summary : Summary) (σ' : State),
    translate_pptx_multi Examples.env_plain "work/deck.pptx" ["es"; "fr"]
                         "google" None None (Some "out") true Examples.uploaded_es_taken
      = (Ok summary, σ') /\
    attempted_languages (new_events Examples.uploaded_es_taken σ') = ["es"; "fr"] /\
    "es: [Errno 17] File exists: 'out/es'" ∈ sum_errors summary.
Proof.
  destruct (C8_language_failures_are_collected Examples.env_plain "work/deck.pptx"
              ["es"; "fr"] "google" None None (Some "out") true
              Examples.uploaded_es_taken
              (snd (prepare_job Examples.env_plain "work/deck.pptx" ["es"; "fr"] None
                      (Some "out") Examples.uploaded_es_taken))
              ["es"; "fr"] ["pptx"] "out")
    as (summary & σ' & Hrun & Hatt & _ & Hcatch).
  - vm_compute. reflexivity.
  - exists summary, σ'. split; [exact Hrun |]. split; [exact Hatt |].
    apply (Hcatch [] "es" ["fr"] (FileExistsError "[Errno 17] File exists: 'out/es'")).
    + reflexivity.
    + vm_compute. reflexivity.
Defined.

(** C10: whenever ["pptx"] is among the normalised formats, every entry of
    the translations map - there is one for each language whose iteration
    completed - maps "pptx" to that language's target path, whatever count
    the translation step returned; in particular, for an upload that cannot
    be loaded the step returns 0, writes nothing, and the summary still
    reports the path of a file that does not exist. *)
Theorem C10_pptx_path_reported_unconditionally :
  (forall (env : Env) (input_file : string) (target_langs : list string) (service : string)
          (api_key : option string) (formats : option (list string))
          (output_root : option string) (zip_output : bool)
          (σ σ' : State) (summary : Summary),
      translate_pptx_multi env input_file target_langs service api_key formats
                           output_root zip_output σ = (Ok summary, σ') ->
      "pptx" ∈ sum_formats summary ->
      Forall (reports_pptx_path (sum_output_root summary) (PyPath.stem input_file))
             (sum_translations summary) /\
      (forall l, l ∈ done_languages (new_events σ σ') ->
                 l ∈ dict_keys (sum_translations summary))) /\
  (exists (summary : Summary) (σ' : State) (entry : LangResult),
      translate_pptx_multi Examples.env_plain "work/deck.pptx" ["es"] "google" None None
                           (Some "out") true Examples.uploaded_garbage = (Ok summary, σ') /\
      sum_translations summary = [("es", entry)] /\
      count entry = 0%nat /\
      outputs entry !! "pptx" = Some "out/es/deck_es.pptx" /\
      path_exists σ' "out/es/deck_es.pptx" = false).
Proof.
  split.
  - intros env input_file target_langs service api_key formats output_root zip_output
           σ σ' summary Hrun Hpptx.
    destruct (translate_pptx_multi_prepared _ _ _ _ _ _ _ _ _ _ _ Hrun)
      as (σ2 & nf & root & Hprep).
    destruct (translate_pptx_multi_run env input_file target_langs service api_key formats
              output_root zip_output _ _ _ _ _ Hprep)
      as (summary0 & σ0 & evs & Hrun0 & _ & Hroot & Hnf & Hnew & _ & Hkeys & _ & _ & Hrep & _).
    rewrite Hrun in Hrun0. inversion Hrun0; subst summary0 σ0; clear Hrun0.
    rewrite Hroot. rewrite Hnf in Hpptx. split; [exact (Hrep Hpptx) |].
    intros l Hl. rewrite Hnew in Hl.
    change (done_languages (EvStarting (length (clean_languages target_langs)) :: evs))
      with (done_languages evs) in Hl.
    rewrite Hkeys. apply unique_loop_elem. right. exact Hl.
  - destruct (translate_pptx_multi Examples.env_plain "work/deck.pptx" ["es"] "google" None
                None (Some "out") true Examples.uploaded_garbage)
      as [[summary | e] σ'] eqn:E.
    + vm_compute in E. inversion E; subst.
      eexists _, _, _. split; [reflexivity |]. split; [reflexivity |].
      split; [reflexivity |]. split; vm_compute; reflexivity.
    + vm_compute in E. discriminate E.
Qed.

(** The unreadable upload, through the general statement. *)
Lemma C10_pptx_path_reported_unconditionally_witness :
  exists (summary : Summary) (σ' : State),
    translate_pptx_multi Examples.env_plain "work/deck.pptx" ["es"] "google" None None
                         (Some "out") true Examples.uploaded_garbage = (Ok summary, σ') /\
    Forall (reports_pptx_path "out" "deck") (sum_translations summary).
Proof.
  destruct (translate_pptx_multi Examples.env_plain "work/deck.pptx" ["es"] "google" None
              None (Some "out") true Examples.uploaded_garbage)
    as [[summary | e] σ'] eqn:E.
  - destruct C10_pptx_path_reported_unconditionally as [Hall _].
    destruct (Hall _ _ _ _ _ _ _ _ _ _ _ E) as [Hrep _].
    + vm_compute in E. inversion E. cbn [sum_formats]. apply list_elem_of_here.
    + exists summary, σ'. split; [reflexivity |].
      vm_compute in E. inversion E; subst. exact Hrep.
  - vm_compute in E. discriminate E.
Defined.

(** * Further properties of the code *)

(** ** Font-fit estimator: bounds on the returned size *)

Lemma py_max_lub (a b c : Q) : (a <= c)%Q -> (b <= c)%Q -> (py_max a b <= c)%Q.
Proof. intros Ha Hb. unfold py_max. destruct (Qlt_le_dec a b); assumption. Qed.

Lemma conservative_min_tiers (cs : Q) :
  (cs - 2 <= conservative_min cs)%Q /\ (conservative_min cs <= cs - 1)%Q /\
  ((cs < 20)%Q -> (cs - (15 # 10) <= conservative_min cs)%Q) /\
  ((cs < 14)%Q -> conservative_min cs = (cs - 1)%Q).
Proof.
  unfold conservative_min.
  destruct (Qgeb cs 20) eqn:E20.
  - apply Qgeb_true in E20. repeat split; try lra.
  - apply Qgeb_false in E20. destruct (Qgeb cs 14) eqn:E14.
    + apply Qgeb_true in E14. repeat split; try lra.
    + repeat split; try lra.
Qed.

(** What [calculate_font_size] can return: the input size, or the larger
    of the scaled size and the final minimum. *)
Lemma calculate_font_size_inv (sw : string -> string -> Q -> option Q)
    (text : string) (mw cs ms r : Q) :
  calculate_font_size sw text mw cs ms = Ok r ->
  r = cs \/
  ((mw * (11 # 10) < get_text_width sw text cs "Helvetica")%Q /\
   ~ (get_text_width sw text cs "Helvetica" == 0)%Q /\
   r = py_max (cs * (mw / get_text_width sw text cs "Helvetica"))
              (py_max (conservative_min cs) (absolute_min cs ms))).
Proof.
  unfold calculate_font_size.
  destruct (PyStr.is_blank text); [intros H; inversion H; auto |].
  destruct (Qleb (get_text_width sw text cs "Helvetica") (mw * (11 # 10))) eqn:Efit;
    [intros H; inversion H; auto |].
  apply Qleb_false in Efit. unfold py_div.
  destruct (Qeqb (get_text_width sw text cs "Helvetica") 0) eqn:Ez;
    [intros H; discriminate H |].
  apply Qeqb_false in Ez. intros H. inversion H. right. auto.
Qed.

(** X1: whatever the text and the box, a returned size is never more than
    one tier step below the input size: 2.0pt from 20pt up, 1.5pt from
    14pt up, 1.0pt below. *)
Theorem X1_estimator_reduction_is_bounded
    (sw : string -> string -> Q -> option Q) (text : string) (mw cs ms r : Q) :
  calculate_font_size sw text mw cs ms = Ok r ->
  (conservative_min cs <= r)%Q /\ (cs - 2 <= r)%Q /\
  ((cs < 20)%Q -> (cs - (15 # 10) <= r)%Q) /\
  ((cs < 14)%Q -> (cs - 1 <= r)%Q).
Proof.
  intros H. destruct (conservative_min_tiers cs) as (H2 & H1 & H15 & H14).
  assert (Hc : (conservative_min cs <= r)%Q).
  { destruct (calculate_font_size_inv sw text mw cs ms r H) as [-> | (_ & _ & ->)].
    - lra.
    - eapply Qle_trans; [apply py_max_l | apply py_max_r]. }
  split; [exact Hc |]. split; [lra |]. split.
  - intros Hlt. specialize (H15 Hlt). lra.
  - intros Hlt. rewrite (H14 Hlt) in Hc. exact Hc.
Qed.

(** A 30pt line far too wide for its box comes back at 28pt. *)
Lemma X1_estimator_reduction_is_bounded_witness :
  calculate_font_size (fun _ _ _ => None) "Hello world" 40 30 11 = Ok 28%Q /\ (30 - 2 <= 28)%Q.
Proof.
  split; [vm_compute; reflexivity |].
  exact (proj1 (proj2 (X1_estimator_reduction_is_bounded (fun _ _ _ => None)
                         "Hello world" 40 30 11 28 eq_refl))).
Defined.

(** X2: for a non-negative box width and a non-negative input size, a
    returned size is never above the larger of the input size and the
    tiered floor; so an input size already at or above its floor is never
    enlarged. *)
Theorem X2_estimator_never_exceeds_current_or_floor
    (sw : string -> string -> Q -> option Q) (text : string) (mw cs ms r : Q) :
  (0 <= mw)%Q -> (0 <= cs)%Q ->
  calculate_font_size sw text mw cs ms = Ok r ->
  (r <= py_max cs (absolute_min cs ms))%Q /\
  ((absolute_min cs ms <= cs)%Q -> (r <= cs)%Q).
Proof.
  intros Hmw Hcs H.
  assert (Hr : (r <= py_max cs (absolute_min cs ms))%Q).
  { destruct (calculate_font_size_inv sw text mw cs ms r H) as [-> | (Hover & Hnz & ->)].
    - apply py_max_l.
    - set (w := get_text_width sw text cs "Helvetica") in *.
      assert (Hw : (0 < w)%Q) by lra.
      assert (Hs : (mw / w <= 1)%Q).
      { apply Qle_shift_div_r; [exact Hw | lra]. }
      assert (Hs0 : (0 <= mw / w)%Q).
      { apply Qle_shift_div_l; [exact Hw | lra]. }
      apply py_max_lub.
      + eapply Qle_trans; [| apply py_max_l]. nra.
      + apply py_max_lub; [| apply py_max_r].
        eapply Qle_trans; [| apply py_max_l].
        destruct (conservative_min_tiers cs) as (_ & H1 & _). lra. }
  split; [exact Hr |].
  intros Hfloor. eapply Qle_trans; [exact Hr |].
  apply py_max_lub; [lra | exact Hfloor].
Qed.

(** An 18pt line in a 40pt box: the result, 16.5pt, does not exceed 18pt. *)
Lemma X2_estimator_never_exceeds_current_or_floor_witness :
  exists r : Q,
    calculate_font_size (fun _ _ _ => None) "Hello world" 40 18 11 = Ok r /\ (r <= 18)%Q.
Proof.
  exists (165 # 10)%Q. split; [vm_compute; reflexivity |].
  apply (X2_estimator_never_exceeds_current_or_floor (fun _ _ _ => None)
           "Hello world" 40 18 11 (165 # 10)).
  - vm_compute. discriminate.
  - vm_compute. discriminate.
  - vm_compute. reflexivity.
  - vm_compute. discriminate.
Defined.

(** ** Translation adapter: inputs that never reach a provider *)

Lemma lower_char_idem (c : ascii) : PyStr.lower_char (PyStr.lower_char c) = PyStr.lower_char c.
Proof. destruct c as [[] [] [] [] [] [] [] []]; reflexivity. Qed.

Lemma lower_idem (s : string) : PyStr.lower (PyStr.lower s) = PyStr.lower s.
Proof.
  induction s as [| c s IH]; simpl; [reflexivity |].
  rewrite lower_char_idem, IH. reflexivity.
Qed.

(** X3: a blank text (empty or white space only) is returned unchanged by
    the adapter for every service name, key and provider behaviour: no
    provider is consulted. *)
Theorem X3_blank_text_is_returned_unchanged
    (env : Env) (text target_lang service : string) (api_key : option string) :
  PyStr.is_blank text = true ->
  translate_text env text target_lang service api_key = text.
Proof.
  intros Hb. unfold translate_text, translate_with_deepl, translate_with_openai,
    translate_with_google. rewrite Hb. simpl.
  repeat case_match; reflexivity.
Qed.

Lemma X3_blank_text_is_returned_unchanged_witness :
  translate_text Examples.env_plain "  " "es" "google" None = "  ".
Proof. apply X3_blank_text_is_returned_unchanged. reflexivity. Defined.

(** X4: with the DeepL or the OpenAI service selected (in any letter case)
    and no usable key ([None] or the empty string), the adapter returns the
    text unchanged whatever the provider would answer. *)
Theorem X4_missing_key_returns_text
    (env : Env) (text target_lang service : string) (api_key : option string) :
  PyStr.lower service = "deepl" \/ PyStr.lower service = "openai" ->
  opt_truthy api_key = false ->
  translate_text env text target_lang service api_key = text.
Proof.
  intros Hs Hk. unfold translate_text, translate_with_deepl, translate_with_openai.
  rewrite Hk. simpl. rewrite !orb_true_r.
  destruct Hs as [-> | ->]; reflexivity.
Qed.

Lemma X4_missing_key_returns_text_witness :
  translate_text Examples.env_plain "Hello" "es" "DeepL" (Some "") = "Hello".
Proof.
  apply X4_missing_key_returns_text; [left; reflexivity | reflexivity].
Defined.

(** X5: the service name is matched without regard to letter case, and
    every name other than "deepl" and "openai" selects the google variant
    with automatic source language. *)
Theorem X5_service_dispatch
    (env : Env) (text target_lang service : string) (api_key : option string) :
  translate_text env text target_lang service api_key
    = translate_text env text target_lang (PyStr.lower service) api_key /\
  (PyStr.lower service <> "deepl" -> PyStr.lower service <> "openai" ->
   translate_text env text target_lang service api_key
     = translate_with_google env text target_lang "auto").
Proof.
  split.
  - unfold translate_text. rewrite lower_idem. reflexivity.
  - intros Hd Ho. unfold translate_text.
    apply String.eqb_neq in Hd, Ho. rewrite Hd, Ho.
    destruct (String.eqb (PyStr.lower service) "google"); reflexivity.
Qed.

Lemma X5_service_dispatch_witness :
  translate_text Examples.env_plain "Hello" "es" "Bing" None = "es:Hello".
Proof.
  rewrite (proj2 (X5_service_dispatch Examples.env_plain "Hello" "es" "Bing" None)).
  - reflexivity.
  - discriminate.
  - discriminate.
Defined.

(** ** Document walker: what the passes keep and count *)

Lemma map_accum_Forall2 {S A B : Type} (R : A -> B -> Prop) (f : S -> A -> S * B) :
  (forall s a, R a (snd (f s a))) ->
  forall (l : list A) (s : S), Forall2 R l (snd (map_accum f s l)).
Proof.
  intros Hf. induction l as [| a l IH]; intros s; simpl; [constructor |].
  pose proof (Hf s a) as Ha. destruct (f s a) as [s1 b].
  specialize (IH s1). destruct (map_accum f s1 l) as [s2 bs].
  simpl in *. constructor; assumption.
Qed.

(** X6: the first pass keeps the shape of a container - the same
    paragraphs with the same number of runs -, never changes a font size,
    and leaves every blank run exactly as it was. *)
Theorem X6_first_pass_keeps_structure
    (env : Env) (target_lang service : string) (api_key : option string)
    (dflt : Q) (total : nat) (ps : list Paragraph) :
  Forall2 (Forall2 (fun r r' => run_size r' = run_size r /\
                                (run_nonblank r = false -> r' = r)))
          ps (snd (first_pass env target_lang service api_key dflt total ps)).
Proof.
  unfold first_pass.
  apply (map_accum_Forall2 (Forall2 (fun r r' => run_size r' = run_size r /\
                                                 (run_nonblank r = false -> r' = r)))).
  intros s p. apply map_accum_Forall2. clear.
  intros s r. unfold translate_run, run_nonblank.
  destruct (PyStr.truthy (run_text r) && negb (PyStr.is_blank (run_text r))).
  - destruct (env_set_text_error env _); simpl; split; auto; discriminate.
  - simpl. auto.
Qed.

Lemma count_runs_app (p : Run -> bool) (l1 l2 : list Run) :
  count_runs p (l1 ++ l2) = (count_runs p l1 + count_runs p l2)%nat.
Proof. unfold count_runs. rewrite List.filter_app, length_app. reflexivity. Qed.

Section CountFacts.

Variable env : Env.
Variables (target_lang service : string) (api_key : option string).

Abbreviation accepted := (run_accepted env target_lang service api_key).

Lemma translate_run_count (dflt : Q) (st : Pass1) (r : Run) :
  total_translated (fst (translate_run env target_lang service api_key dflt st r))
    = (total_translated st + count_runs accepted [r])%nat.
Proof.
  unfold translate_run, count_runs, run_accepted, run_nonblank. simpl.
  destruct (PyStr.truthy (run_text r) && negb (PyStr.is_blank (run_text r))); simpl.
  - destruct (env_set_text_error env _) eqn:E; simpl; lia.
  - lia.
Qed.

Lemma runs_count (dflt : Q) (runs : list Run) (st : Pass1) :
  total_translated (fst (map_accum (translate_run env target_lang service api_key dflt) st runs))
    = (total_translated st + count_runs accepted runs)%nat.
Proof.
  revert st. induction runs as [| r runs IH]; intros st.
  - simpl. unfold count_runs. simpl. lia.
  - pose proof (translate_run_count dflt st r) as Hr.
    cbn [map_accum].
    destruct (translate_run env target_lang service api_key dflt st r) as [s1 r1].
    specialize (IH s1).
    destruct (map_accum (translate_run env target_lang service api_key dflt) s1 runs)
      as [s2 rs].
    cbn [fst] in *. rewrite IH, Hr.
    change (r :: runs) with ([r] ++ runs). rewrite count_runs_app. lia.
Qed.

Lemma first_pass_count (dflt : Q) (total : nat) (ps : list Paragraph) :
  total_translated (fst (first_pass env target_lang service api_key dflt total ps))
    = (total + count_runs accepted (concat ps))%nat.
Proof.
  pose proof (map_accum_concat (translate_run env target_lang service api_key dflt)
                (mkPass1 dflt "" total) ps) as E.
  unfold first_pass, Paragraph in *. rewrite E.
  apply (runs_count dflt (concat ps) (mkPass1 dflt "" total)).
Qed.

Lemma walk_text_frame_count (width : option Z) (total t : nat) (tf tf' : TextFrame) :
  walk_text_frame env target_lang service api_key width total tf = Ok (t, tf') ->
  t = (total + count_runs accepted (frame_runs tf))%nat.
Proof.
  unfold walk_text_frame, frame_runs.
  pose proof (first_pass_count 12 total (paragraphs tf)) as Hc.
  destruct (first_pass env target_lang service api_key 12 total (paragraphs tf)) as [st ps].
  cbn [fst] in Hc.
  destruct (if negb (PyStr.is_blank (all_translated_text st)) && length_truthy width
            then _ else Ok ps); intros H; inversion H; subst. exact Hc.
Qed.

Lemma walk_cell_count (total t : nat) (tf tf' : TextFrame) :
  walk_cell env target_lang service api_key total tf = Ok (t, tf') ->
  t = (total + count_runs accepted (frame_runs tf))%nat.
Proof.
  unfold walk_cell, frame_runs.
  pose proof (first_pass_count 10 total (paragraphs tf)) as Hc.
  destruct (first_pass env target_lang service api_key 10 total (paragraphs tf)) as [st ps].
  cbn [fst] in Hc.
  destruct (if negb (PyStr.is_blank (all_translated_text st))
            then _ else Ok ps); intros H; inversion H; subst. exact Hc.
Qed.

(** Counting through a list walked with a running total. *)
Lemma walk_list_count {A : Type} (f : nat -> A -> result (nat * A)) (runs_of : A -> list Run) :
  (forall total a t a', f total a = Ok (t, a') ->
                        t = (total + count_runs accepted (runs_of a))%nat) ->
  forall (l : list A) (total t : nat) (l' : list A),
    walk_list f total l = Ok (t, l') ->
    t = (total + count_runs accepted (concat (map runs_of l)))%nat.
Proof.
  intros Hf. induction l as [| a l IH]; intros total t l'; simpl.
  - intros H. inversion H. unfold count_runs. simpl. lia.
  - destruct (f total a) as [[t1 a'] | e] eqn:Ea; [| intros H; discriminate H].
    destruct (walk_list f t1 l) as [[t2 l2] | e] eqn:El; [| intros H; discriminate H].
    intros H. inversion H; subst.
    rewrite count_runs_app, (IH _ _ _ El), (Hf _ _ _ _ Ea). lia.
Qed.

Lemma walk_shape_count (total t : nat) (sh sh' : Shape) :
  walk_shape env target_lang service api_key total sh = Ok (t, sh') ->
  t = (total + count_runs accepted (shape_runs sh))%nat.
Proof.
  unfold walk_shape, shape_runs. rewrite count_runs_app.
  assert (Hnil : count_runs accepted [] = 0%nat) by reflexivity.
  destruct (shape_text_frame sh) as [tf |]; simpl; rewrite ?Hnil.
  - destruct (walk_text_frame env target_lang service api_key (shape_width sh) total tf)
      as [[t1 tf'] | e] eqn:Ef; [| intros H; discriminate H].
    apply walk_text_frame_count in Ef.
    destruct (shape_table sh) as [rows |]; simpl; rewrite ?Hnil.
    + destruct (walk_list _ t1 rows) as [[t2 rows'] | e] eqn:Er; [| intros H; discriminate H].
      apply (walk_list_count _ (fun row => concat (map frame_runs row))) in Er.
      * intros H. inversion H; subst. unfold table_runs. symmetry. apply Nat.add_assoc.
      * intros total0 row t0 row'. apply (walk_list_count _ frame_runs).
        intros ? ? ? ?. apply walk_cell_count.
    + intros H. inversion H; subst. rewrite Nat.add_0_r. reflexivity.
  - destruct (shape_table sh) as [rows |]; simpl; rewrite ?Hnil.
    + destruct (walk_list _ total rows) as [[t2 rows'] | e] eqn:Er; [| intros H; discriminate H].
      apply (walk_list_count _ (fun row => concat (map frame_runs row))) in Er.
      * intros H. inversion H; subst. unfold table_runs. reflexivity.
      * intros total0 row t0 row'. apply (walk_list_count _ frame_runs).
        intros ? ? ? ?. apply walk_cell_count.
    + intros H. inversion H; subst. rewrite Nat.add_0_r. reflexivity.
Qed.

Lemma count_runs_le (runs : list Run) :
  (count_runs accepted runs <= count_runs run_nonblank runs)%nat.
Proof.
  unfold count_runs. induction runs as [| r runs IH]; simpl; [lia |].
  unfold run_accepted at 1. destruct (run_nonblank r); simpl; [| exact IH].
  destruct (negb _); simpl; lia.
Qed.

Lemma count_runs_all_accepted (runs : list Run) :
  (forall s, env_set_text_error env s = None) ->
  count_runs accepted runs = count_runs run_nonblank runs.
Proof.
  intros Hnone. unfold count_runs. f_equal.
  induction runs as [| r runs IH]; simpl; [reflexivity |].
  unfold run_accepted at 1. rewrite Hnone.
  rewrite bool_decide_eq_false_2 by (intros [? ?]; discriminate).
  rewrite andb_true_r. destruct (run_nonblank r); rewrite IH; reflexivity.
Qed.

End CountFacts.

(** X7: when the walk of a presentation returns, its count is the number
    of non-blank runs whose translated text the document library accepted,
    over all text boxes and table cells; it never exceeds the number of
    non-blank runs, and equals it when no assignment is refused. *)
Theorem X7_walk_counts_assigned_runs
    (env : Env) (target_lang service : string) (api_key : option string)
    (prs prs' : Presentation) (t : nat) :
  walk_presentation env target_lang service api_key prs = Ok (t, prs') ->
  t = count_runs (run_accepted env target_lang service api_key) (presentation_runs prs) /\
  (t <= count_runs run_nonblank (presentation_runs prs))%nat /\
  ((forall s, env_set_text_error env s = None) ->
   t = count_runs run_nonblank (presentation_runs prs)).
Proof.
  intros H. unfold walk_presentation in H.
  apply (walk_list_count env target_lang service api_key _
           (fun slide => concat (map shape_runs slide))) in H.
  - fold (presentation_runs prs) in H. simpl in H. subst t.
    split; [reflexivity |]. split; [apply count_runs_le |].
    apply count_runs_all_accepted.
  - intros total slide t0 slide'. apply (walk_list_count _ _ _ _ _ shape_runs).
    intros ? ? ? ?. apply walk_shape_count.
Qed.

(** The example deck has two non-blank runs; both are translated. *)
Lemma X7_walk_counts_assigned_runs_witness :
  exists prs' : Presentation,
    walk_presentation Examples.env_plain "es" "google" None Examples.deck = Ok (2%nat, prs').
Proof.
  destruct (walk_presentation Examples.env_plain "es" "google" None Examples.deck)
    as [[t prs'] | e] eqn:E.
  - exists prs'.
    destruct (X7_walk_counts_assigned_runs _ _ _ _ _ _ _ E) as (_ & _ & Hall).
    rewrite (Hall (fun _ => eq_refl)). reflexivity.
  - vm_compute in E. discriminate E.
Defined.

(** ** Document walker: the second pass *)

Lemma map_accum_map {S A B C : Type} (f : S -> A -> S * B) (g : B -> C) (h : A -> C) :
  (forall s a, g (snd (f s a)) = h a) ->
  forall (l : list A) (s : S), map g (snd (map_accum f s l)) = map h l.
Proof.
  intros Hf. induction l as [| a l IH]; intros s; simpl; [reflexivity |].
  pose proof (Hf s a) as Ha. destruct (f s a) as [s1 b].
  specialize (IH s1). destruct (map_accum f s1 l) as [s2 bs].
  simpl in *. rewrite Ha, IH. reflexivity.
Qed.

Lemma first_pass_sizes (env : Env) (target_lang service : string) (api_key : option string)
    (dflt : Q) (total : nat) (ps : list Paragraph) :
  map (map run_size) (snd (first_pass env target_lang service api_key dflt total ps))
    = map (map run_size) ps.
Proof.
  unfold first_pass. apply map_accum_map. intros s p. apply map_accum_map.
  intros s' r. unfold translate_run.
  destruct (PyStr.truthy (run_text r) && negb (PyStr.is_blank (run_text r)));
    [| reflexivity].
  destruct (env_set_text_error env _); reflexivity.
Qed.

Lemma resize_runs_texts (optimal : Q) (ps : list Paragraph) :
  map (map run_text) (resize_runs optimal ps) = map (map run_text) ps.
Proof.
  unfold resize_runs. rewrite map_map. apply map_ext. intros p.
  rewrite map_map. apply map_ext. intros r.
  destruct (negb (PyStr.is_blank (run_text r))); reflexivity.
Qed.

Lemma resize_runs_uniform (optimal : Q) (ps : list Paragraph) (r' : Run) :
  r' ∈ concat (resize_runs optimal ps) ->
  PyStr.is_blank (run_text r') = false ->
  run_size r' = Some (Pt optimal).
Proof.
  unfold resize_runs. intros Hin Hnb.
  apply list_elem_of_In, in_concat in Hin as (p' & Hp & Hr).
  apply in_map_iff in Hp as (p & <- & Hp).
  apply in_map_iff in Hr as (r & <- & Hr).
  destruct (negb (PyStr.is_blank (run_text r))) eqn:E; [reflexivity |].
  apply negb_false_iff in E. congruence.
Qed.

(** The second pass either leaves the runs alone or gives them one size,
    which is at least the tiered floor. *)
Lemma second_pass_inv (env : Env) (mw ms : Q) (st : Pass1) (ps ps' : list Paragraph) :
  second_pass env mw ms st ps = Ok ps' ->
  ps' = ps \/
  exists optimal : Q,
    (absolute_min (original_size st) ms <= optimal)%Q /\ ps' = resize_runs optimal ps.
Proof.
  unfold second_pass.
  destruct (calculate_font_size (env_stringWidth env)
              (PyStr.strip (all_translated_text st)) mw (original_size st) ms)
    as [optimal | e] eqn:Ecalc; [| intros H; discriminate H].
  destruct (Qabs_gt (optimal - original_size st) (5 # 10)) eqn:Egt;
    intros H; inversion H; subst; [| left; reflexivity].
  right. exists optimal. split; [| reflexivity].
  destruct (calculate_font_size_inv _ _ _ _ _ _ Ecalc) as [-> | (_ & _ & ->)].
  - exfalso. unfold Qabs_gt in Egt. apply negb_true_iff, Qleb_false in Egt.
    assert (Hle : (Qabs (original_size st - original_size st) <= 5 # 10)%Q).
    { apply Qabs_Qle_condition. split; lra. }
    lra.
  - eapply Qle_trans; [apply py_max_r | apply py_max_r].
Qed.

Lemma absolute_min_ge_min_size (cs ms : Q) :
  (ms <= 13)%Q -> (ms <= absolute_min cs ms)%Q.
Proof.
  intros H. destruct (absolute_min_bands cs ms) as [[_ ->] | [[_ ->] | [_ ->]]];
    try lra. apply py_max_l.
Qed.

(** X8: a text box that the walker has processed has word wrap and
    shrink-to-fit switched on; its second pass changes no text, and either
    leaves every font size as it was or gives every non-blank run one and
    the same size, of at least 11pt. *)
Theorem X8_text_frame_resized_uniformly
    (env : Env) (target_lang service : string) (api_key : option string)
    (width : option Z) (total t : nat) (tf tf' : TextFrame) :
  walk_text_frame env target_lang service api_key width total tf = Ok (t, tf') ->
  word_wrap tf' = true /\ auto_size_fit tf' = true /\
  map (map run_text) (paragraphs tf')
    = map (map run_text) (snd (first_pass env target_lang service api_key 12 total
                                 (paragraphs tf))) /\
  (map (map run_size) (paragraphs tf') = map (map run_size) (paragraphs tf) \/
   exists optimal : Q,
     (11 <= optimal)%Q /\
     forall r', r' ∈ frame_runs tf' -> PyStr.is_blank (run_text r') = false ->
                run_size r' = Some (Pt optimal)).
Proof.
  unfold walk_text_frame, frame_runs.
  pose proof (first_pass_sizes env target_lang service api_key 12 total (paragraphs tf)) as Hsz.
  destruct (first_pass env target_lang service api_key 12 total (paragraphs tf)) as [st ps].
  cbn [snd] in *.
  destruct (negb (PyStr.is_blank (all_translated_text st)) && length_truthy width).
  - destruct (second_pass env _ 11 st ps) as [ps' | e] eqn:E2; [| intros H; discriminate H].
    intros H. inversion H; subst. cbn [word_wrap auto_size_fit paragraphs].
    split; [reflexivity |]. split; [reflexivity |].
    destruct (second_pass_inv _ _ _ _ _ _ E2) as [-> | (optimal & Hfloor & ->)].
    + split; [reflexivity | left; exact Hsz].
    + split; [apply resize_runs_texts |]. right. exists optimal. split.
      * eapply Qle_trans; [| exact Hfloor]. apply absolute_min_ge_min_size. lra.
      * apply resize_runs_uniform.
  - intros H. inversion H; subst. cbn [word_wrap auto_size_fit paragraphs].
    repeat split. left. exact Hsz.
Qed.

(** The example text box: both runs end up at 16.5pt (209550 EMU). *)
Lemma X8_text_frame_resized_uniformly_witness :
  exists (t : nat) (tf' : TextFrame),
    walk_text_frame Examples.env_plain "es" "google" None (Some 914400%Z) 0
                    (mkTextFrame Examples.two_runs false false) = Ok (t, tf') /\
    word_wrap tf' = true /\ auto_size_fit tf' = true /\
    map run_size (frame_runs tf') = [Some 209550%Z; Some 209550%Z].
Proof.
  destruct (walk_text_frame Examples.env_plain "es" "google" None (Some 914400%Z) 0
              (mkTextFrame Examples.two_runs false false)) as [[t tf'] | e] eqn:E.
  - exists t, tf'. split; [reflexivity |].
    destruct (X8_text_frame_resized_uniformly _ _ _ _ _ _ _ _ _ E) as (Hw & Ha & _).
    split; [exact Hw |]. split; [exact Ha |].
    vm_compute in E. inversion E. reflexivity.
  - vm_compute in E. discriminate E.
Defined.

(** X9: a table cell that the walker has processed keeps its own wrap and
    auto-size settings; its second pass changes no text, and either leaves
    every font size as it was or gives every non-blank run one and the same
    size, of at least 10pt. *)
Theorem X9_table_cell_resized_uniformly
    (env : Env) (target_lang service : string) (api_key : option string)
    (total t : nat) (tf tf' : TextFrame) :
  walk_cell env target_lang service api_key total tf = Ok (t, tf') ->
  word_wrap tf' = word_wrap tf /\ auto_size_fit tf' = auto_size_fit tf /\
  map (map run_text) (paragraphs tf')
    = map (map run_text) (snd (first_pass env target_lang service api_key 10 total
                                 (paragraphs tf))) /\
  (map (map run_size) (paragraphs tf') = map (map run_size) (paragraphs tf) \/
   exists optimal : Q,
     (10 <= optimal)%Q /\
     forall r', r' ∈ frame_runs tf' -> PyStr.is_blank (run_text r') = false ->
                run_size r' = Some (Pt optimal)).
Proof.
  unfold walk_cell, frame_runs.
  pose proof (first_pass_sizes env target_lang service api_key 10 total (paragraphs tf)) as Hsz.
  destruct (first_pass env target_lang service api_key 10 total (paragraphs tf)) as [st ps].
  cbn [snd] in *.
  destruct (negb (PyStr.is_blank (all_translated_text st))).
  - destruct (second_pass env 100 10 st ps) as [ps' | e] eqn:E2; [| intros H; discriminate H].
    intros H. inversion H; subst. cbn [word_wrap auto_size_fit paragraphs].
    split; [reflexivity |]. split; [reflexivity |].
    destruct (second_pass_inv _ _ _ _ _ _ E2) as [-> | (optimal & Hfloor & ->)].
    + split; [reflexivity | left; exact Hsz].
    + split; [apply resize_runs_texts |]. right. exists optimal. split.
      * eapply Qle_trans; [| exact Hfloor]. apply absolute_min_ge_10.
      * apply resize_runs_uniform.
  - intros H. inversion H; subst. cbn [word_wrap auto_size_fit paragraphs].
    repeat split. left. exact Hsz.
Qed.

(** A cell with two short words that fit 100pt: sizes stay 10pt and 14pt. *)
Lemma X9_table_cell_resized_uniformly_witness :
  exists (t : nat) (tf' : TextFrame),
    walk_cell Examples.env_offline "es" "google" None 0
              (mkTextFrame [[mkRun "a" (Some 127000%Z); mkRun "b" (Some 177800%Z)]] false false)
      = Ok (t, tf') /\
    word_wrap tf' = false /\ auto_size_fit tf' = false.
Proof.
  destruct (walk_cell Examples.env_offline "es" "google" None 0
              (mkTextFrame [[mkRun "a" (Some 127000%Z); mkRun "b" (Some 177800%Z)]]
                           false false)) as [[t tf'] | e] eqn:E.
  - exists t, tf'. split; [reflexivity |].
    destruct (X9_table_cell_resized_uniformly _ _ _ _ _ _ _ _ E) as (Hw & Ha & _).
    split; [exact Hw | exact Ha].
  - vm_compute in E. discriminate E.
Defined.

(** X10: the baseline size the walker takes for a container is the size,
    in points, of the first non-blank run whose font size is set, non-zero
    and different from the container's default, and the default itself
    when there is no such run; it does not depend on how the translations
    went. *)
Theorem X10_baseline_is_first_non_default_size
    (env : Env) (target_lang service : string) (api_key : option string)
    (dflt : Q) (total : nat) (ps : list Paragraph) :
  (original_size (fst (first_pass env target_lang service api_key dflt total ps))
     == first_non_default_size dflt (concat ps))%Q.
Proof. apply first_pass_baseline. Qed.

(** ** The single-language job and the file system *)

(** X11: when the input path does not exist, or does not hold a
    presentation that loads, [translate_pptx] returns 0 and changes
    nothing; when saving fails it changes nothing either and cannot
    return a positive count. *)
Theorem X11_translate_pptx_failures_return_zero
    (env : Env) (input_file output_file target_lang service : string)
    (api_key : option string) (σ : State) :
  (path_exists σ input_file = false \/
   (forall prs, files σ !! input_file <> Some (PptxFile prs)) ->
   translate_pptx env input_file output_file target_lang service api_key σ = (Ok 0%nat, σ)) /\
  (is_Some (env_save_error env output_file) ->
   snd (translate_pptx env input_file output_file target_lang service api_key σ) = σ /\
   forall n, fst (translate_pptx env input_file output_file target_lang service api_key σ)
             = Ok n -> n = 0%nat).
Proof.
  unfold translate_pptx. split.
  - intros [Hmiss | Hload].
    + rewrite Hmiss. reflexivity.
    + destruct (negb (path_exists σ input_file)); [reflexivity |].
      destruct (files σ !! input_file) as [[prs |] |] eqn:E; try reflexivity.
      exfalso. exact (Hload prs eq_refl).
  - intros [e He]. rewrite He.
    repeat case_match; simpl; split; try reflexivity; intros ? Hn; inversion Hn; reflexivity.
Qed.

Lemma X11_translate_pptx_failures_return_zero_witness :
  translate_pptx Examples.env_plain "work/deck.pptx" "out/deck_es.pptx" "es" "google" None
                 Examples.uploaded_garbage = (Ok 0%nat, Examples.uploaded_garbage).
Proof.
  apply (proj1 (X11_translate_pptx_failures_return_zero Examples.env_plain "work/deck.pptx"
                  "out/deck_es.pptx" "es" "google" None Examples.uploaded_garbage)).
  right. intros prs H. vm_compute in H. discriminate H.
Defined.

(** X12: [translate_pptx] touches nothing but the output file: the
    directories, the converter cache, the console and every other file
    stay as they were; and when the output file changes, it holds the
    presentation produced by the walk of the input and the returned count
    is the walk's count. *)
Theorem X12_translate_pptx_writes_only_the_output
    (env : Env) (input_file output_file target_lang service : string)
    (api_key : option string) (σ : State) :
  let r := translate_pptx env input_file output_file target_lang service api_key σ in
  dirs (snd r) = dirs σ /\ stdout (snd r) = stdout σ /\
  _libreoffice_checked (snd r) = _libreoffice_checked σ /\
  _libreoffice_available (snd r) = _libreoffice_available σ /\
  (forall p, p <> output_file -> files (snd r) !! p = files σ !! p) /\
  (files (snd r) !! output_file <> files σ !! output_file ->
   exists (prs prs' : Presentation) (n : nat),
     files σ !! input_file = Some (PptxFile prs) /\
     walk_presentation env target_lang service (resolve_api_key env service api_key) prs
       = Ok (n, prs') /\
     files (snd r) !! output_file = Some (PptxFile prs') /\ fst r = Ok n).
Proof.
  unfold translate_pptx.
  destruct (negb (path_exists σ input_file)); [simpl; tauto |].
  destruct (files σ !! input_file) as [[prs |] |] eqn:Ein; try (simpl; tauto).
  destruct (walk_presentation env target_lang service (resolve_api_key env service api_key) prs)
    as [[n prs'] | e] eqn:Ew; [| simpl; tauto].
  destruct (env_save_error env output_file); [simpl; tauto |].
  cbn [fst snd write_file dirs stdout files _libreoffice_checked _libreoffice_available].
  repeat split.
  - intros p Hp. apply lookup_insert_ne. congruence.
  - intros _. exists prs, prs', n. rewrite lookup_insert_eq. auto.
Qed.

(** ** The converter check is made once *)

(** X13: after one availability check, every later check gives the same
    answer and changes nothing, whatever the binary look-up would say by
    then: the first look-up is cached for the life of the process. *)
Theorem X13_converter_check_is_cached (env env' : Env) (σ : State) :
  _ensure_libreoffice_available env' (snd (_ensure_libreoffice_available env σ))
    = (fst (_ensure_libreoffice_available env σ),
       snd (_ensure_libreoffice_available env σ)).
Proof.
  unfold _ensure_libreoffice_available.
  destruct (_libreoffice_checked σ) eqn:Ec.
  - destruct (_libreoffice_available σ) eqn:Ea; simpl; rewrite Ec, Ea; reflexivity.
  - destruct (env_which env (env_LIBREOFFICE_PATH env)); reflexivity.
Qed.

(** ** The output root *)

(** A root below a regular file, or on a regular file, is refused and
    nothing is created. *)
Lemma _ensure_output_root_refused :
  _ensure_output_root Examples.env_plain (Some "work/deck.pptx/out") "work/deck.pptx"
                      Examples.uploaded
    = (Raise (NotADirectoryError "[Errno 20] Not a directory: 'work/deck.pptx/out'"),
       Examples.uploaded) /\
  _ensure_output_root Examples.env_plain (Some "work/deck.pptx") "work/deck.pptx"
                      Examples.uploaded
    = (Raise (FileExistsError "[Errno 17] File exists: 'work/deck.pptx'"),
       Examples.uploaded).
Proof. split; vm_compute; reflexivity. Qed.

(** Missing ancestors are made one by one; when the last directory is
    refused, the ancestors made on the way stay. *)
Lemma _ensure_output_root_step_by_step :
  (let r := _ensure_output_root Examples.env_plain (Some "out/a/b") "work/deck.pptx"
              Examples.uploaded in
   fst r = Ok "out/a/b" /\ dirs (snd r) = {[ "work"; "out"; "out/a"; "out/a/b" ]}) /\
  (let r := _ensure_output_root Examples.env_refusing (Some "out/a/b") "work/deck.pptx"
              Examples.uploaded in
   fst r = Raise (OSError "[Errno 28] No space left on device: 'out/a/b'") /\
   dirs (snd r) = {[ "work"; "out"; "out/a" ]}) /\
  (let r := _ensure_output_root Examples.env_plain None "work/deck.pptx"
              Examples.uploaded in
   fst r = Ok "work/deck_translations" /\
   dirs (snd r) = {[ "work"; "work/deck_translations" ]}).
Proof. repeat split; vm_compute; reflexivity. Qed.

(** X14: when [_ensure_output_root] returns, the root it names - the
    caller's, or "<stem>_translations" beside the input when none was given
    - is a directory; no directory is lost and no file is touched; asking
    again returns the same root and changes nothing.  When it raises, no
    file is touched and no directory is lost: the missing ancestors made
    before the failure stay. *)
Theorem X14_output_root_is_created_once
    (env : Env) (output_root : option string) (input_path : string) (σ : State) :
  let r := _ensure_output_root env output_root input_path σ in
  let root := if opt_truthy output_root then default "" output_root
              else PyPath.join (PyPath.parent input_path)
                               (PyPath.stem input_path +:+ "_translations") in
  match fst r with
  | Ok root' =>
      root' = root /\ root ∈ dirs (snd r) /\ dirs σ ⊆ dirs (snd r) /\
      files (snd r) = files σ /\
      _ensure_output_root env output_root input_path (snd r) = (Ok root, snd r)
  | Raise _ => files (snd r) = files σ /\ dirs σ ⊆ dirs (snd r)
  end.
Proof.
  intros r root. subst r. unfold _ensure_output_root. fold root. rewrite bind_run.
  destruct (mkdir_frame env true true root σ) as (_ & Hfiles & _ & _ & Hsub).
  destruct (mkdir env true true root σ) as [[[] | e] σ1] eqn:Emk; cbn [fst snd] in *.
  - split; [reflexivity |]. split; [exact (mkdir_ok_dir _ _ _ _ _ _ Emk) |].
    split; [exact Hsub |]. split; [exact Hfiles |].
    rewrite bind_run. unfold mkdir in *. rewrite (mkdir_from_again _ _ _ _ _ _ Emk).
    reflexivity.
  - split; assumption.
Qed.

(** ** The format exporter *)

Lemma _libreoffice_convert_ok
    (env : Env) (source_path target_format produced : string) (σ σ' : State) :
  _libreoffice_convert env source_path target_format σ = (Ok produced, σ') ->
  target_format = "pdf" /\
  _libreoffice_checked σ' = true /\ _libreoffice_available σ' = true /\
  (env_soffice_exit env "pdf:impress_pdf_Export" source_path = 0%Z \/
   env_soffice_exit env "pdf" source_path = 0%Z) /\
  env_soffice_output env source_path ".pdf" = Some produced /\
  is_Some (files σ' !! produced) /\
  dirs σ' = dirs σ /\ stdout σ' = stdout σ.
Proof.
  unfold _libreoffice_convert, LIBREOFFICE_CONVERT_OPTIONS.
  destruct (String.eqb target_format "pdf") eqn:Efmt; [| intros H; discriminate H].
  apply String.eqb_eq in Efmt. subst target_format.
  rewrite bind_run.
  assert (Hens : forall σ1, _ensure_libreoffice_available env σ = (Ok tt, σ1) ->
            _libreoffice_checked σ1 = true /\ _libreoffice_available σ1 = true /\
            dirs σ1 = dirs σ /\ stdout σ1 = stdout σ /\ files σ1 = files σ).
  { intros σ1. unfold _ensure_libreoffice_available.
    repeat case_match; intros Heq; inversion Heq; subst; simpl; repeat split;
      try assumption; try reflexivity;
      match goal with H : negb ?b = false |- _ => apply negb_false_iff in H; exact H end. }
  destruct (_ensure_libreoffice_available env σ) as [[[] | e] σ1]; [| intros H; discriminate H].
  destruct (Hens σ1 eq_refl) as (Hc & Ha & Hd & Ho & Hf). clear Hens.
  cbn [forallb].
  destruct (Z.eqb (env_soffice_exit env "pdf:impress_pdf_Export" source_path) 0) eqn:E1;
    destruct (Z.eqb (env_soffice_exit env "pdf" source_path) 0) eqn:E2;
    cbn [negb andb]; try (intros H; discriminate H);
    (cbn [last mbind option_bind];
     destruct (env_soffice_output env source_path ".pdf") as [p |] eqn:Eout;
       [| intros H; discriminate H];
     unfold mbind, M_bind, mret, M_ret, write_file; cbn;
     intros H; inversion H; subst; cbn;
     repeat split; try assumption;
     try (apply Z.eqb_eq in E1; auto); try (apply Z.eqb_eq in E2; auto);
     try (rewrite lookup_insert_eq; eauto)).
Qed.

(** X15: a conversion that returns a path was asked for "pdf", found the
    converter available, had the converter exit with 0 for one of the two
    filters, and leaves the returned path present in the file system; it
    creates no directory and prints nothing. *)
Theorem X15_conversion_success
    (env : Env) (source_path target_format produced : string) (σ σ' : State) :
  _libreoffice_convert env source_path target_format σ = (Ok produced, σ') ->
  target_format = "pdf" /\
  _libreoffice_checked σ' = true /\ _libreoffice_available σ' = true /\
  (env_soffice_exit env "pdf:impress_pdf_Export" source_path = 0%Z \/
   env_soffice_exit env "pdf" source_path = 0%Z) /\
  env_soffice_output env source_path ".pdf" = Some produced /\
  is_Some (files σ' !! produced) /\
  dirs σ' = dirs σ /\ stdout σ' = stdout σ.
Proof. apply _libreoffice_convert_ok. Qed.

Lemma X15_conversion_success_witness :
  let env := mkEnv (fun _ _ _ => None) (fun _ _ _ => None) (fun _ _ _ => None)
                   (fun _ _ _ => None) None None (fun _ => None) (fun _ => None)
                   "soffice" (fun _ => true) (fun _ => None) (fun _ _ => 0%Z)
                   (fun _ _ => Some "out/es/deck_es.pdf") (fun _ => None) in
  exists σ' : State,
    _libreoffice_convert env "out/es/deck_es.pptx" "pdf" Examples.uploaded
      = (Ok "out/es/deck_es.pdf", σ') /\
    is_Some (files σ' !! "out/es/deck_es.pdf").
Proof.
  intros env.
  destruct (_libreoffice_convert env "out/es/deck_es.pptx" "pdf" Examples.uploaded)
    as [[p | e] σ'] eqn:E.
  - destruct (X15_conversion_success _ _ _ _ _ _ E) as (_ & _ & _ & _ & Hp & Hin & _).
    exists σ'. inversion Hp; subst. split; [reflexivity | exact Hin].
  - vm_compute in E. discriminate E.
Defined.

(** ** Stripping and cleaning are stable *)

Lemma lstrip_ws_idem (s : string) : PyStr.lstrip_ws (PyStr.lstrip_ws s) = PyStr.lstrip_ws s.
Proof.
  induction s as [| c s IH]; simpl; [reflexivity |].
  destruct (PyStr.is_space c) eqn:E; [exact IH |]. simpl. rewrite E. reflexivity.
Qed.

Lemma rstrip_ws_cons (c : ascii) (s : string) :
  PyStr.rstrip_ws (String c s) =
    match PyStr.rstrip_ws s with
    | EmptyString => if PyStr.is_space c then EmptyString else String c EmptyString
    | r => String c r
    end.
Proof. reflexivity. Qed.

Lemma rstrip_ws_idem (s : string) : PyStr.rstrip_ws (PyStr.rstrip_ws s) = PyStr.rstrip_ws s.
Proof.
  induction s as [| c s IH]; [reflexivity |].
  rewrite rstrip_ws_cons.
  destruct (PyStr.rstrip_ws s) as [| c' r] eqn:Er.
  - destruct (PyStr.is_space c) eqn:E; [reflexivity |].
    rewrite rstrip_ws_cons. cbn [PyStr.rstrip_ws]. rewrite E. reflexivity.
  - rewrite rstrip_ws_cons, IH. reflexivity.
Qed.

(** Stripping on the left keeps a string stripped on the right. *)
Lemma rstrip_ws_lstrip_ws (t : string) :
  PyStr.rstrip_ws t = t -> PyStr.rstrip_ws (PyStr.lstrip_ws t) = PyStr.lstrip_ws t.
Proof.
  induction t as [| c t IH]; intros H; [reflexivity |].
  cbn [PyStr.lstrip_ws]. destruct (PyStr.is_space c) eqn:E; [| exact H].
  apply IH. rewrite rstrip_ws_cons in H.
  destruct (PyStr.rstrip_ws t) as [| c' r].
  - rewrite E in H. discriminate H.
  - inversion H. congruence.
Qed.

Lemma strip_idem (s : string) : PyStr.strip (PyStr.strip s) = PyStr.strip s.
Proof.
  unfold PyStr.strip.
  rewrite (rstrip_ws_lstrip_ws _ (rstrip_ws_idem s)). apply lstrip_ws_idem.
Qed.

Lemma omap_fixed {A : Type} (f : A -> option A) (l : list A) :
  Forall (fun x => f x = Some x) l -> omap f l = l.
Proof.
  induction 1 as [| x l Hx _ IH]; simpl; [reflexivity |].
  rewrite Hx. simpl. f_equal. exact IH.
Qed.

Lemma clean_languages_elements (target_langs : list string) :
  Forall (fun s => PyStr.truthy s = true /\ PyStr.strip s = s) (clean_languages target_langs).
Proof.
  unfold clean_languages. induction target_langs as [| lang rest IH]; simpl; [constructor |].
  destruct (PyStr.truthy lang && PyStr.truthy (PyStr.strip lang)) eqn:E; [| exact IH].
  constructor; [| exact IH].
  apply andb_prop in E as [_ E]. split; [exact E | apply strip_idem].
Qed.

Lemma clean_languages_fixed (l : list string) :
  Forall (fun s => PyStr.truthy s = true /\ PyStr.strip s = s) l -> clean_languages l = l.
Proof.
  intros H. unfold clean_languages. apply omap_fixed.
  eapply Forall_impl; [exact H |]. intros s [Ht Hs]. cbn beta. rewrite Hs, Ht. reflexivity.
Qed.

Lemma unique_loop_NoDup_id (seen l : list string) :
  NoDup (seen ++ l) -> unique_loop seen l = seen ++ l.
Proof.
  revert seen. induction l as [| x l IH]; intros seen Hnd; simpl.
  - rewrite app_nil_r. reflexivity.
  - assert (Hx : x ∉ seen).
    { apply NoDup_app in Hnd as (_ & Hdis & _). intros Hin.
      apply (Hdis x Hin). apply list_elem_of_here. }
    rewrite bool_decide_eq_false_2 by exact Hx.
    rewrite IH; rewrite <- app_assoc; [reflexivity | exact Hnd].
Qed.

(** X16: the languages the orchestrator works on are non-empty and free of
    surrounding white space, and cleaning them again changes nothing - a
    caller may pass an already cleaned list. *)
Theorem X16_clean_languages_is_stable (target_langs : list string) :
  Forall (fun s => PyStr.truthy s = true /\ PyStr.strip s = s) (clean_languages target_langs) /\
  clean_languages (clean_languages target_langs) = clean_languages target_langs.
Proof.
  split; [apply clean_languages_elements |].
  apply clean_languages_fixed, clean_languages_elements.
Qed.

(** ** Format normalisation composes with itself and with the handler *)

Lemma List_filter_nil {A : Type} (p : A -> bool) (l : list A) :
  List.filter p l = [] <-> (forall x, x ∈ l -> p x = false).
Proof.
  induction l as [| a l IH]; simpl.
  - split; [intros _ x Hx; inversion Hx | reflexivity].
  - destruct (p a) eqn:E.
    + split; [intros H; discriminate H |].
      intros H. specialize (H a (list_elem_of_here _ _)). congruence.
    + rewrite IH. split.
      * intros H x Hx. apply elem_of_cons in Hx as [-> | Hx]; auto.
      * intros H x Hx. apply H. apply list_elem_of_further. exact Hx.
Qed.

Lemma invalid_formats_nil (normalized : list string) :
  invalid_formats normalized = [] <-> (forall f, f ∈ normalized -> f ∈ ALLOWED_FORMATS).
Proof.
  pose proof (invalid_formats_elem normalized) as Hel. split.
  - intros Hnil f Hf. destruct (decide (f ∈ ALLOWED_FORMATS)) as [Hin | Hout]; [exact Hin |].
    exfalso. apply (not_elem_of_nil f). rewrite <- Hnil. apply Hel. auto.
  - intros Hall. destruct (invalid_formats normalized) as [| i inv]; [reflexivity |].
    exfalso. destruct (proj1 (Hel i) (list_elem_of_here _ _)) as [Hin Hout].
    exact (Hout (Hall i Hin)).
Qed.

Lemma allowed_format_cases (f : string) :
  f ∈ ALLOWED_FORMATS -> f = "pptx" \/ f = "pdf".
Proof. unfold ALLOWED_FORMATS. set_solver. Qed.

(** An accepted list is non-empty, duplicate-free and within the allowed set. *)
Lemma _normalize_formats_ok (formats : option (list string)) (nf : list string) :
  _normalize_formats formats = Ok nf ->
  nf <> [] /\ NoDup nf /\ (forall f, f ∈ nf -> f ∈ ALLOWED_FORMATS).
Proof.
  assert (Hdef : ["pptx"] <> [] /\ NoDup ["pptx"] /\
                 (forall f, f ∈ ["pptx"] -> f ∈ ALLOWED_FORMATS)).
  { split; [discriminate |]. split; [apply NoDup_singleton |].
    intros f Hf. apply list_elem_of_singleton in Hf. subst.
    unfold ALLOWED_FORMATS. set_solver. }
  destruct formats as [[| fmt rest] |]; try (intros H; inversion H; subst; exact Hdef).
  rewrite _normalize_formats_cases.
  destruct (invalid_formats (normalized_by_words (fmt :: rest))) eqn:E;
    [| intros H; discriminate H].
  intros H. inversion H; subst. split; [| split].
  - unfold normalized_by_words. destruct (unique _); discriminate.
  - apply normalized_by_words_NoDup.
  - apply invalid_formats_nil. exact E.
Qed.

Lemma cleaned_formats_fixed (nf : list string) :
  (forall f, f ∈ nf -> f ∈ ALLOWED_FORMATS) -> cleaned_formats nf = nf.
Proof.
  intros Hall. unfold cleaned_formats. apply omap_fixed.
  apply Forall_forall. intros f Hf.
  destruct (allowed_format_cases f (Hall f Hf)) as [-> | ->]; reflexivity.
Qed.

(** Normalising an accepted list gives it back. *)
Lemma _normalize_formats_fixed (nf : list string) :
  nf <> [] -> NoDup nf -> (forall f, f ∈ nf -> f ∈ ALLOWED_FORMATS) ->
  _normalize_formats (Some nf) = Ok nf.
Proof.
  intros Hne Hnd Hall. destruct nf as [| f0 rest]; [contradiction |].
  rewrite _normalize_formats_cases.
  assert (Hw : normalized_by_words (f0 :: rest) = f0 :: rest).
  { unfold normalized_by_words, unique.
    rewrite (cleaned_formats_fixed _ Hall), (unique_loop_NoDup_id [] _ Hnd). reflexivity. }
  rewrite Hw, (proj2 (invalid_formats_nil _) Hall). reflexivity.
Qed.

(** X17: format normalisation is idempotent on what it accepts: a list it
    returned is returned unchanged when normalised again. *)
Theorem X17_normalize_formats_idempotent (formats : option (list string)) (nf : list string) :
  _normalize_formats formats = Ok nf -> _normalize_formats (Some nf) = Ok nf.
Proof.
  intros H. destruct (_normalize_formats_ok formats nf H) as (Hne & Hnd & Hall).
  apply _normalize_formats_fixed; assumption.
Qed.

Lemma X17_normalize_formats_idempotent_witness :
  _normalize_formats (Some ["pdf"; "pptx"]) = Ok ["pdf"; "pptx"].
Proof.
  apply (X17_normalize_formats_idempotent (Some [".PDF"; "pptx"; "PPTX"])).
  vm_compute. reflexivity.
Defined.

Lemma handler_format_loop_eq (acc requested : list string) :
  handler_format_loop acc requested = normalize_loop acc requested.
Proof.
  revert acc. induction requested as [| fmt rest IH]; intros acc; simpl; [reflexivity |].
  rewrite IH. destruct fmt as [| c s]; [reflexivity |]. reflexivity.
Qed.

(** X18: the request handler and the processing module agree on formats:
    the handler accepts a request exactly when [_normalize_formats] does,
    with the same list, and that list passes the module's own
    normalisation unchanged when the handler hands it over. *)
Theorem X18_handler_formats_agree (requested : list string) :
  (forall nf, handler_formats requested = Accepted nf <->
              _normalize_formats (Some requested) = Ok nf) /\
  (forall nf, handler_formats requested = Accepted nf ->
              _normalize_formats (Some nf) = Ok nf).
Proof.
  assert (Hagree : forall nf, handler_formats requested = Accepted nf <->
                              _normalize_formats (Some requested) = Ok nf).
  { intros nf. destruct requested as [| fmt rest].
    - vm_compute. split; intros H; inversion H; reflexivity.
    - rewrite _normalize_formats_cases. unfold handler_formats, normalized_by_words, unique.
      rewrite handler_format_loop_eq, normalize_loop_unique.
      set (n := match unique_loop [] (cleaned_formats (fmt :: rest)) with
                | [] => ["pptx"] | _ => _ end).
      assert (Hn : n = match unique_loop [] (cleaned_formats (fmt :: rest)) with
                       | [] => ["pptx"] | l => l end).
      { subst n. destruct (unique_loop [] (cleaned_formats (fmt :: rest))); reflexivity. }
      rewrite <- Hn. clearbody n.
      destruct (List.filter (fun f => negb (bool_decide (f ∈ ALLOWED_FORMATS))) n) eqn:Ef;
        destruct (invalid_formats n) eqn:Ei.
      + split; intros H; inversion H; reflexivity.
      + exfalso. pose proof (proj1 (List_filter_nil _ n) Ef) as Hall.
        assert (Hnil : invalid_formats n = []).
        { apply invalid_formats_nil. intros f Hf. specialize (Hall f Hf).
          apply negb_false_iff, bool_decide_eq_true in Hall. exact Hall. }
        congruence.
      + exfalso. pose proof (proj1 (invalid_formats_nil n) Ei) as Hall.
        assert (Hnil : List.filter (fun f => negb (bool_decide (f ∈ ALLOWED_FORMATS))) n = []).
        { apply List_filter_nil. intros f Hf. apply negb_false_iff, bool_decide_eq_true.
          exact (Hall f Hf). }
        congruence.
      + split; intros H; discriminate H. }
  split; [exact Hagree |].
  intros nf H. apply Hagree in H.
  destruct (_normalize_formats_ok _ _ H) as (Hne & Hnd & Hall).
  apply _normalize_formats_fixed; assumption.
Qed.

Lemma X18_handler_formats_agree_witness :
  handler_formats [".PDF"; "pptx"; "PPTX"] = Accepted ["pdf"; "pptx"] /\
  _normalize_formats (Some ["pdf"; "pptx"]) = Ok ["pdf"; "pptx"].
Proof.
  destruct (X18_handler_formats_agree [".PDF"; "pptx"; "PPTX"]) as [Hagree Hfix].
  assert (H : handler_formats [".PDF"; "pptx"; "PPTX"] = Accepted ["pdf"; "pptx"]).
  { apply Hagree. vm_compute. reflexivity. }
  split; [exact H | exact (Hfix _ H)].
Defined.

(** ** Nothing is ever removed *)

Lemma fs_grows_refl (σ : State) : fs_grows σ σ.
Proof. split; reflexivity. Qed.

Lemma fs_grows_trans (σ1 σ2 σ3 : State) : fs_grows σ1 σ2 -> fs_grows σ2 σ3 -> fs_grows σ1 σ3.
Proof. intros [H1 H2] [H3 H4]. split; etransitivity; eassumption. Qed.

Lemma never_removes_ret {A : Type} (a : A) : never_removes (mret a : M A).
Proof. intros σ. apply fs_grows_refl. Qed.

Lemma never_removes_raise {A : Type} (e : exn) : never_removes (raise e : M A).
Proof. intros σ. apply fs_grows_refl. Qed.

Lemma never_removes_bind {A B : Type} (m : M A) (k : A -> M B) :
  never_removes m -> (forall a, never_removes (k a)) -> never_removes (m ≫= k).
Proof.
  intros Hm Hk σ. rewrite bind_run. specialize (Hm σ).
  destruct (m σ) as [[a | e] σ1]; cbn [snd] in *; [| exact Hm].
  eapply fs_grows_trans; [exact Hm | apply Hk].
Qed.

Lemma never_removes_try {A : Type} (m : M A) (h : exn -> M A) :
  never_removes m -> (forall e, never_removes (h e)) -> never_removes (try_except m h).
Proof.
  intros Hm Hh σ. rewrite try_except_run. specialize (Hm σ).
  destruct (m σ) as [[a | e] σ1]; cbn [snd] in *; [exact Hm |].
  eapply fs_grows_trans; [exact Hm | apply Hh].
Qed.

Lemma never_removes_print (ev : Event) : never_removes (print ev).
Proof. intros σ. split; reflexivity. Qed.

Lemma never_removes_write_file (p : string) (f : File) : never_removes (write_file p f).
Proof.
  intros σ. split; cbn; [reflexivity |]. rewrite dom_insert. set_solver.
Qed.

Lemma never_removes_mkdir (env : Env) (parents exist_ok : bool) (p : string) :
  never_removes (mkdir env parents exist_ok p).
Proof.
  intros σ. destruct (mkdir_frame env parents exist_ok p σ) as (_ & Hf & _ & _ & Hd).
  split; [exact Hd | rewrite Hf; reflexivity].
Qed.

Lemma never_removes_ensure (env : Env) : never_removes (_ensure_libreoffice_available env).
Proof.
  intros σ. destruct (_ensure_libreoffice_available_frame env σ) as (_ & Hd & Hf).
  split; [rewrite Hd | rewrite Hf]; reflexivity.
Qed.

Lemma never_removes_translate_pptx (env : Env) (i o l s : string) (k : option string) :
  never_removes (translate_pptx env i o l s k).
Proof.
  intros σ. unfold translate_pptx. repeat case_match; try apply fs_grows_refl.
  apply never_removes_write_file.
Qed.

Lemma never_removes_convert (env : Env) (src fmt : string) :
  never_removes (_libreoffice_convert env src fmt).
Proof.
  unfold _libreoffice_convert.
  destruct (LIBREOFFICE_CONVERT_OPTIONS fmt) as [[filters exts] |];
    [| apply never_removes_raise].
  apply never_removes_bind; [apply never_removes_ensure |]. intros _.
  destruct (forallb _ filters); [apply never_removes_raise |].
  destruct (last exts ≫= env_soffice_output env src); [| apply never_removes_raise].
  apply never_removes_bind; [apply never_removes_write_file |]. intros _.
  apply never_removes_ret.
Qed.

Lemma never_removes_bundle (env : Env) (root : string) :
  never_removes (_bundle_outputs_to_zip env root).
Proof.
  unfold _bundle_outputs_to_zip.
  destruct (env_zip_error env root); [apply never_removes_raise |].
  apply never_removes_bind; [apply never_removes_write_file |]. intros _.
  apply never_removes_ret.
Qed.

Lemma never_removes_output_root (env : Env) (o : option string) (i : string) :
  never_removes (_ensure_output_root env o i).
Proof.
  unfold _ensure_output_root.
  apply never_removes_bind; [apply never_removes_mkdir |]. intros _.
  apply never_removes_ret.
Qed.

Lemma never_removes_get : never_removes (fun σ : State => (Ok σ, σ)).
Proof. intros σ. apply fs_grows_refl. Qed.

Lemma never_removes_process_language (env : Env) (input_path service : string)
    (api_key : option string) (nf : list string) (root language : string) :
  never_removes (process_language env input_path service api_key nf root language).
Proof.
  unfold process_language.
  apply never_removes_bind; [apply never_removes_print |]. intros _.
  apply never_removes_bind; [apply never_removes_mkdir |]. intros _.
  apply never_removes_bind; [apply never_removes_translate_pptx |]. intros translated.
  apply never_removes_bind; [apply never_removes_get |]. intros σ.
  apply never_removes_bind.
  - destruct (bool_decide ("pdf" ∈ nf) && path_exists σ _); [| apply never_removes_ret].
    apply never_removes_bind; [apply never_removes_print |]. intros _.
    apply never_removes_try.
    + apply never_removes_bind; [apply never_removes_convert |]. intros pdf_path.
      apply never_removes_bind; [apply never_removes_print |]. intros _.
      apply never_removes_ret.
    + intros exc. apply never_removes_ret.
  - intros [outputs1 pdf_errors]. apply never_removes_ret.
Qed.

Lemma never_removes_language_loop (env : Env) (input_path service : string)
    (api_key : option string) (nf : list string) (root : string) (languages : list string) :
  forall translations errors,
    never_removes (language_loop env input_path service api_key nf root languages
                                 translations errors).
Proof.
  induction languages as [| language rest IH]; intros translations errors.
  - apply never_removes_ret.
  - cbn [language_loop]. apply never_removes_bind.
    + apply never_removes_try.
      * apply never_removes_bind; [apply never_removes_process_language |].
        intros [entry pdf_errors].
        apply never_removes_bind; [apply never_removes_print |]. intros _.
        apply never_removes_ret.
      * intros exc. apply never_removes_bind; [apply never_removes_print |]. intros _.
        apply never_removes_ret.
    + intros [translations1 errors1]. apply IH.
Qed.

Lemma never_removes_prepare_job (env : Env) (input_path : string) (target_langs : list string)
    (formats : option (list string)) (output_root : option string) :
  never_removes (prepare_job env input_path target_langs formats output_root).
Proof.
  unfold prepare_job. apply never_removes_bind; [apply never_removes_get |]. intros σ0.
  destruct (negb (path_exists σ0 input_path)); [apply never_removes_raise |].
  destruct (clean_languages target_langs); [apply never_removes_raise |].
  apply never_removes_bind; [intros σ; apply fs_grows_refl |]. intros nf.
  apply never_removes_bind.
  - destruct (bool_decide ("pdf" ∈ nf)); [apply never_removes_ensure | apply never_removes_ret].
  - intros _. apply never_removes_bind; [apply never_removes_output_root |]. intros root.
    apply never_removes_ret.
Qed.

Lemma never_removes_archive_outputs (env : Env) (zip_output : bool) (root : string)
    (translations : list (string * LangResult)) (errors : list string) :
  never_removes (archive_outputs env zip_output root translations errors).
Proof.
  unfold archive_outputs.
  destruct (zip_output && negb (bool_decide (translations = []))); [| apply never_removes_ret].
  apply never_removes_try.
  - apply never_removes_bind; [apply never_removes_print |]. intros _.
    apply never_removes_bind; [apply never_removes_bundle |]. intros zip_path.
    apply never_removes_bind; [apply never_removes_print |]. intros _.
    apply never_removes_ret.
  - intros exc. apply never_removes_ret.
Qed.

(** X19: whatever it returns or raises, the orchestrator removes nothing:
    every directory and every file path present before the call is still
    present after it. *)
Theorem X19_orchestrator_never_removes
    (env : Env) (input_file : string) (target_langs : list string) (service : string)
    (api_key : option string) (formats : option (list string))
    (output_root : option string) (zip_output : bool) (σ : State) :
  let σ' := snd (translate_pptx_multi env input_file target_langs service api_key formats
                                      output_root zip_output σ) in
  dirs σ ⊆ dirs σ' /\ dom (files σ) ⊆ dom (files σ').
Proof.
  cbn zeta. revert σ.
  change (never_removes (translate_pptx_multi env input_file target_langs service api_key
                           formats output_root zip_output)).
  unfold translate_pptx_multi.
  apply never_removes_bind; [apply never_removes_prepare_job |].
  intros [[languages nf] root].
  apply never_removes_bind; [apply never_removes_print |]. intros _.
  apply never_removes_bind; [apply never_removes_language_loop |].
  intros [translations errors].
  apply never_removes_bind; [apply never_removes_archive_outputs |].
  intros [zip_path errors']. apply never_removes_ret.
Qed.

(** ** What a returned summary guarantees *)

Lemma translate_pptx_positive (env : Env) (i o l s : string) (k : option string)
    (σ σ' : State) (n : nat) :
  translate_pptx env i o l s k σ = (Ok n, σ') -> (0 < n)%nat -> is_Some (files σ' !! o).
Proof.
  unfold translate_pptx. repeat case_match; intros Heq; inversion Heq; subst;
    try (intros Hn; exfalso; lia).
  intros _. cbn. rewrite lookup_insert_eq. eauto.
Qed.

Lemma entry_is_sound_grows (nf : list string) (root stem : string) (σ σ' : State)
    (kv : string * LangResult) :
  fs_grows σ σ' -> entry_is_sound nf root stem σ kv -> entry_is_sound nf root stem σ' kv.
Proof.
  intros [Hd Hf] (H1 & H2 & H3 & H4).
  assert (Hfile : forall p, is_Some (files σ !! p) -> is_Some (files σ' !! p)).
  { intros p Hp. apply elem_of_dom. apply Hf. apply elem_of_dom. exact Hp. }
  split; [apply Hd; exact H1 |]. split; [exact H2 |]. split.
  - intros p Hp. apply Hfile, H3, Hp.
  - intros Hn. apply Hfile, H4, Hn.
Qed.

Section SummaryFacts.

Variable env : Env.
Variables (input_path service : string) (api_key : option string).
Variable nf : list string.
Variable root : string.

(** A completed iteration yields a sound entry; the inner handler leaves
    either no error or one "PDF export failed" error and then no PDF. *)
Lemma process_language_outcome (language : string) (σ σ1 : State)
    (entry : LangResult) (errs : list string) :
  process_language env input_path service api_key nf root language σ
    = (Ok (entry, errs), σ1) ->
  entry_is_sound nf root (PyPath.stem input_path) σ1 (language, entry) /\
  (errs = [] \/
   exists exc, errs = [language +:+ " PDF export failed: " +:+ str_exn exc] /\
               outputs entry !! "pdf" = None /\ "pdf" ∈ nf).
Proof.
  unfold process_language, entry_is_sound. rewrite bind_run. cbn [print fst snd].
  set (σa := mkState _ _ _ _ (stdout σ ++ [EvTranslatingTo language])).
  clearbody σa. rewrite bind_run.
  destruct (mkdir env false true (PyPath.join root language) σa)
    as [[[] | e] σb] eqn:Emk; [| intros H; discriminate H].
  apply mkdir_ok_dir in Emk.
  rewrite bind_run.
  set (pptx_path := pptx_path_of root (PyPath.stem input_path) language).
  pose proof (never_removes_translate_pptx env input_path pptx_path language service
                api_key σb) as Hgc.
  pose proof (translate_pptx_positive env input_path pptx_path language service api_key σb)
    as Hpos.
  destruct (translate_pptx env input_path pptx_path language service api_key σb)
    as [[translated | e] σc]; [| intros H; discriminate H].
  cbn [snd] in Hgc. specialize (Hpos σc translated eq_refl).
  rewrite bind_run. cbn [fst snd].
  set (outputs0 := if bool_decide ("pptx" ∈ nf)
                   then _ else (∅ : gmap string string)).
  assert (H0 : forall k p, outputs0 !! k = Some p -> k ∈ nf /\ k = "pptx").
  { intros k p. subst outputs0. case_bool_decide as Hin.
    - intros Hk. apply lookup_singleton_Some in Hk as [<- _]. auto.
    - rewrite lookup_empty. discriminate. }
  clearbody outputs0.
  assert (Hfile : forall σ' p, fs_grows σc σ' -> is_Some (files σc !! p) ->
                               is_Some (files σ' !! p)).
  { intros σ' p [_ Hf] Hp. apply elem_of_dom. apply Hf. apply elem_of_dom. exact Hp. }
  rewrite bind_run.
  destruct (bool_decide ("pdf" ∈ nf)) eqn:Epdf; cbn [andb].
  2: { unfold mbind, M_bind, mret, M_ret; cbn [fst snd].
       intros H. inversion H; subst. cbn [fst snd count outputs].
       split; [| left; reflexivity].
       split; [apply Hgc; exact Emk |]. split.
       - intros k p Hk. destruct (H0 k p Hk). auto.
       - split; [| exact Hpos].
         intros p Hk. destruct (H0 _ _ Hk) as [_ Habs]. discriminate Habs. }
  apply bool_decide_eq_true in Epdf.
  destruct (path_exists σc pptx_path).
  2: { unfold mbind, M_bind, mret, M_ret; cbn [fst snd].
       intros H. inversion H; subst. cbn [fst snd count outputs].
       split; [| left; reflexivity].
       split; [apply Hgc; exact Emk |]. split.
       - intros k p Hk. destruct (H0 k p Hk). auto.
       - split; [| exact Hpos].
         intros p Hk. destruct (H0 _ _ Hk) as [_ Habs]. discriminate Habs. }
  rewrite bind_run. cbn [print fst snd].
  set (σd := mkState (dirs σc) (files σc) _ _ (stdout σc ++ [EvConvertingPdf])).
  assert (Hgd : fs_grows σc σd) by (split; reflexivity).
  clearbody σd.
  rewrite try_except_run, bind_run.
  pose proof (never_removes_convert env pptx_path "pdf" σd) as Hge.
  pose proof (fun p s' => _libreoffice_convert_ok env pptx_path "pdf" p σd s') as Hok.
  destruct (_libreoffice_convert env pptx_path "pdf" σd) as [[pdf_path | exc] σe];
    cbn [snd] in Hge;
    unfold mbind, M_bind, mret, M_ret, print; cbn [fst snd].
  - destruct (Hok pdf_path σe eq_refl) as (_ & _ & _ & _ & _ & Hin & _).
    intros H. inversion H; subst. cbn [fst snd count outputs dirs files].
    split; [| left; reflexivity].
    split; [apply Hge, Hgd, Hgc; exact Emk |]. split; [| split].
    + intros k p Hk. apply lookup_insert_Some in Hk as [[<- _] | [_ Hk]]; [auto |].
      destruct (H0 k p Hk). auto.
    + intros p Hk. rewrite lookup_insert_eq in Hk. inversion Hk; subst. exact Hin.
    + intros Hn. apply (Hfile σe); [| exact (Hpos Hn)].
      eapply fs_grows_trans; eassumption.
  - intros H. inversion H; subst. cbn [fst snd count outputs].
    split.
    + split; [apply Hge, Hgd, Hgc; exact Emk |]. split; [| split].
      * intros k p Hk. destruct (H0 k p Hk). auto.
      * intros p Hk. destruct (H0 _ _ Hk) as [_ Habs]. discriminate Habs.
      * intros Hn. apply (Hfile σ1); [| exact (Hpos Hn)].
        eapply fs_grows_trans; eassumption.
    + right. exists exc. split; [reflexivity |]. split; [| exact Epdf].
      destruct (outputs0 !! "pdf") eqn:E; [| reflexivity].
      destruct (H0 _ _ E) as [_ Habs]. discriminate Habs.
Qed.

(** The entries collected by the loop stay sound to the end. *)
Lemma language_loop_sound (languages : list string) :
  forall (translations : list (string * LangResult)) (errors : list string) (σ σ' : State)
         (translations' : list (string * LangResult)) (errors' : list string),
    Forall (entry_is_sound nf root (PyPath.stem input_path) σ) translations ->
    language_loop env input_path service api_key nf root languages translations errors σ
      = (Ok (translations', errors'), σ') ->
    Forall (entry_is_sound nf root (PyPath.stem input_path) σ') translations'.
Proof.
  induction languages as [| language rest IH];
    intros translations errors σ σ' translations' errors' Hall.
  - cbn [language_loop]. intros H. inversion H; subst. exact Hall.
  - pose proof (never_removes_process_language env input_path service api_key nf root
                  language σ) as Hg.
    destruct (process_language env input_path service api_key nf root language σ)
      as [[[entry pdf_errors] | exc] σ1] eqn:Hrun; cbn [snd] in Hg.
    + rewrite (language_loop_done _ _ _ _ _ _ language rest translations errors σ σ1
                 entry pdf_errors Hrun).
      apply IH. cbn [print snd].
      destruct (process_language_outcome _ _ _ _ _ Hrun) as [Hentry _].
      apply dict_set_Forall.
      * eapply entry_is_sound_grows; [| exact Hentry]. split; reflexivity.
      * eapply Forall_impl; [exact Hall |]. intros kv Hkv.
        eapply entry_is_sound_grows; [| exact Hkv].
        eapply fs_grows_trans; [exact Hg | split; reflexivity].
    + rewrite (language_loop_failed _ _ _ _ _ _ language rest translations errors σ σ1
                 exc Hrun).
      apply IH. cbn [print snd].
      eapply Forall_impl; [exact Hall |]. intros kv Hkv.
      eapply entry_is_sound_grows; [| exact Hkv].
      eapply fs_grows_trans; [exact Hg | split; reflexivity].
Qed.

End SummaryFacts.

(** A returned summary, taken apart into the three phases that built it. *)
Lemma translate_pptx_multi_inv
    (env : Env) (input_file : string) (target_langs : list string) (service : string)
    (api_key : option string) (formats : option (list string))
    (output_root : option string) (zip_output : bool)
    (σ σ' : State) (summary : Summary) :
  translate_pptx_multi env input_file target_langs service api_key formats
                       output_root zip_output σ = (Ok summary, σ') ->
  exists (σ2 σ3 : State) (errors : list string),
    prepare_job env input_file target_langs formats output_root σ
      = (Ok (clean_languages target_langs, sum_formats summary, sum_output_root summary), σ2) /\
    language_loop env input_file service (resolve_api_key env service api_key)
                  (sum_formats summary) (sum_output_root summary)
                  (clean_languages target_langs) [] []
                  (snd (print (EvStarting (length (clean_languages target_langs))) σ2))
      = (Ok (sum_translations summary, errors), σ3) /\
    archive_outputs env zip_output (sum_output_root summary) (sum_translations summary)
                    errors σ3
      = (Ok (sum_zip_path summary, sum_errors summary), σ') /\
    sum_input summary = input_file.
Proof.
  unfold translate_pptx_multi. rewrite bind_run.
  destruct (prepare_job env input_file target_langs formats output_root σ)
    as [[[[languages nf] root] | e] σ2] eqn:Hprep; [| intros H; discriminate H].
  destruct (prepare_job_ok _ _ _ _ _ _ _ _ _ _ Hprep) as (-> & _).
  cbn iota beta. rewrite bind_run. cbn [print fst snd]. rewrite bind_run.
  destruct (language_loop env input_file service _ nf root (clean_languages target_langs)
              [] [] _) as [[[tr er] | e] σ3] eqn:Hloop; [| intros H; discriminate H].
  cbn iota beta. rewrite bind_run.
  destruct (archive_outputs env zip_output root tr er σ3) as [[[zp er'] | e] σ4] eqn:Harch;
    [| intros H; discriminate H].
  cbn iota beta. unfold mret, M_ret. intros H. inversion H; subst.
  cbn [sum_formats sum_output_root sum_translations sum_zip_path sum_errors sum_input].
  exists σ2, σ3, er. auto.
Qed.

(** X20: in a returned summary every entry is backed by the file system:
    the language's directory under the output root exists; the entry lists
    only formats that were requested, out of "pptx" and "pdf"; a listed PDF
    exists; and an entry with a positive count has its presentation saved
    at the language's target path. *)
Theorem X20_summary_entries_are_sound
    (env : Env) (input_file : string) (target_langs : list string) (service : string)
    (api_key : option string) (formats : option (list string))
    (output_root : option string) (zip_output : bool)
    (σ σ' : State) (summary : Summary) :
  translate_pptx_multi env input_file target_langs service api_key formats
                       output_root zip_output σ = (Ok summary, σ') ->
  Forall (entry_is_sound (sum_formats summary) (sum_output_root summary)
                         (PyPath.stem input_file) σ')
         (sum_translations summary).
Proof.
  intros Hrun.
  destruct (translate_pptx_multi_inv _ _ _ _ _ _ _ _ _ _ _ Hrun)
    as (σ2 & σ3 & er & _ & Hloop & Harch & _).
  apply (language_loop_sound _ _ _ _ _ _ _ _ _ _ _ _ _ (Forall_nil_2 _)) in Hloop.
  pose proof (never_removes_archive_outputs env zip_output (sum_output_root summary)
                (sum_translations summary) er σ3) as Hg.
  rewrite Harch in Hg. cbn [snd] in Hg.
  eapply Forall_impl; [exact Hloop |]. intros kv Hkv.
  eapply entry_is_sound_grows; eassumption.
Qed.

(** The example deck, one language: the entry of "es" has count 2 and its
    file is there. *)
Lemma X20_summary_entries_are_sound_witness :
  exists (summary : Summary) (σ' : State),
    translate_pptx_multi Examples.env_plain "work/deck.pptx" ["es"] "google" None None
                         (Some "out") true Examples.uploaded = (Ok summary, σ') /\
    "out/es" ∈ dirs σ' /\ is_Some (files σ' !! "out/es/deck_es.pptx").
Proof.
  destruct (translate_pptx_multi Examples.env_plain "work/deck.pptx" ["es"] "google" None
              None (Some "out") true Examples.uploaded) as [[summary | e] σ'] eqn:E.
  - pose proof (X20_summary_entries_are_sound _ _ _ _ _ _ _ _ _ _ _ E) as Hall.
    exists summary, σ'. split; [reflexivity |].
    assert (Hs : sum_translations summary
                 = [("es", mkLangResult 2 {[ "pptx" := "out/es/deck_es.pptx" ]})] /\
                 sum_output_root summary = "out").
    { vm_compute in E. inversion E. split; vm_compute; reflexivity. }
    destruct Hs as [Htr Hroot]. rewrite Htr, Hroot in Hall.
    apply Forall_cons in Hall as [(Hdir & _ & _ & Hfile) _].
    split; [exact Hdir |]. apply Hfile. cbn. lia.
  - vm_compute in E. discriminate E.
Defined.

(** ** Requests that are refused before any work *)

(** X21: a request whose input file is missing, whose languages are all
    blank, or whose formats are refused makes the orchestrator raise with
    the state exactly as it was - not even the converter check has run;
    the missing input is reported first, the missing languages second. *)
Theorem X21_invalid_request_leaves_no_trace
    (env : Env) (input_file : string) (target_langs : list string) (service : string)
    (api_key : option string) (formats : option (list string))
    (output_root : option string) (zip_output : bool) (σ : State) :
  path_exists σ input_file = false \/ clean_languages target_langs = [] \/
    is_ok (_normalize_formats formats) = false ->
  exists e : exn,
    translate_pptx_multi env input_file target_langs service api_key formats
                         output_root zip_output σ = (Raise e, σ) /\
    (path_exists σ input_file = false ->
     e = FileNotFoundError ("Input file '" +:+ input_file +:+ "' not found.")) /\
    (path_exists σ input_file = true -> clean_languages target_langs = [] ->
     e = ValueError "At least one valid target language must be provided.") /\
    (path_exists σ input_file = true -> clean_languages target_langs <> [] ->
     _normalize_formats formats = Raise e).
Proof.
  intros H. unfold translate_pptx_multi, prepare_job. rewrite !bind_run. cbn [fst snd].
  destruct (path_exists σ input_file) eqn:Ein; cbn [negb].
  2: { eexists. split; [reflexivity |]. repeat split; try discriminate. }
  destruct (clean_languages target_langs) as [| l0 ls] eqn:El.
  { eexists. split; [reflexivity |]. repeat split; try discriminate. intros _ Hc. contradiction. }
  destruct H as [H | [H | H]]; try discriminate.
  rewrite bind_run. unfold lift.
  destruct (_normalize_formats formats) as [nf | e]; [discriminate H |].
  exists e. split; [reflexivity |]. repeat split; discriminate.
Qed.

Lemma X21_invalid_request_leaves_no_trace_witness :
  translate_pptx_multi Examples.env_plain "work/deck.pptx" ["  "; ""] "google" None None
                       None true Examples.uploaded
    = (Raise (ValueError "At least one valid target language must be provided."),
       Examples.uploaded).
Proof.
  destruct (X21_invalid_request_leaves_no_trace Examples.env_plain "work/deck.pptx"
              ["  "; ""] "google" None None None true Examples.uploaded)
    as (e & Hrun & _ & He & _).
  - right. left. reflexivity.
  - rewrite Hrun, (He eq_refl eq_refl). reflexivity.
Defined.

(** ** The archive *)

(** X22: a summary names an archive only when archiving was asked for and
    at least one language completed, and the archive it names exists.
    When archiving was asked for, some language completed and no archive
    is named, the error list says that packaging failed. *)
Theorem X22_archive_path
    (env : Env) (input_file : string) (target_langs : list string) (service : string)
    (api_key : option string) (formats : option (list string))
    (output_root : option string) (zip_output : bool)
    (σ σ' : State) (summary : Summary) :
  translate_pptx_multi env input_file target_langs service api_key formats
                       output_root zip_output σ = (Ok summary, σ') ->
  match sum_zip_path summary with
  | Some z =>
      zip_output = true /\ sum_translations summary <> [] /\ is_Some (files σ' !! z)
  | None =>
      zip_output = false \/ sum_translations summary = [] \/
      exists exc, ("ZIP packaging failed: " +:+ str_exn exc) ∈ sum_errors summary
  end.
Proof.
  intros Hrun.
  destruct (translate_pptx_multi_inv _ _ _ _ _ _ _ _ _ _ _ Hrun)
    as (σ2 & σ3 & er & _ & _ & Harch & _).
  revert Harch. unfold archive_outputs.
  destruct zip_output; cbn [andb].
  2: { unfold mret, M_ret. intros H. inversion H. auto. }
  case_bool_decide as Hnil; cbn [negb].
  { unfold mret, M_ret. intros H. inversion H. auto. }
  rewrite try_except_run, bind_run. cbn [print fst snd]. rewrite bind_run.
  unfold _bundle_outputs_to_zip.
  destruct (env_zip_error env (sum_output_root summary)) as [exc |].
  - unfold raise, mret, M_ret. intros H. inversion H.
    right. right. exists exc. apply elem_of_app. right. apply list_elem_of_here.
  - unfold mbind, M_bind, mret, M_ret, write_file, print. cbn.
    intros H. inversion H. cbn.
    split; [reflexivity |]. split; [exact Hnil |].
    rewrite lookup_insert_eq. eauto.
Qed.

Lemma X22_archive_path_witness :
  exists (summary : Summary) (σ' : State),
    translate_pptx_multi Examples.env_plain "work/deck.pptx" ["es"] "google" None None
                         (Some "out") true Examples.uploaded = (Ok summary, σ') /\
    sum_zip_path summary = Some "out.zip" /\ is_Some (files σ' !! "out.zip").
Proof.
  destruct (translate_pptx_multi Examples.env_plain "work/deck.pptx" ["es"] "google" None
              None (Some "out") true Examples.uploaded) as [[summary | e] σ'] eqn:E.
  - pose proof (X22_archive_path _ _ _ _ _ _ _ _ _ _ _ E) as Hz.
    exists summary, σ'. split; [reflexivity |].
    assert (Hs : sum_zip_path summary = Some "out.zip").
    { vm_compute in E. inversion E. reflexivity. }
    rewrite Hs in Hz. destruct Hz as (_ & _ & Hfile). split; [exact Hs | exact Hfile].
  - vm_compute in E. discriminate E.
Defined.

(** ** The request handler's language list *)

Lemma unique_elements (P : string -> Prop) (l : list string) :
  Forall P l -> Forall P (unique l).
Proof.
  intros H. apply Forall_forall. intros x Hx.
  apply unique_loop_elem in Hx as [Hx | Hx]; [inversion Hx |].
  rewrite Forall_forall in H. exact (H x Hx).
Qed.

(** X23: the language list the request handler passes on is non-empty,
    free of duplicates and already clean; called with it, the orchestrator
    attempts exactly these languages, each once, and when none fails the
    summary's keys are this very list. *)
Theorem X23_handler_languages_processed_once
    (form_langs : list string) (form_lang : option string) (langs : list string) :
  handler_languages form_langs form_lang = Accepted langs ->
  langs <> [] /\ NoDup langs /\ clean_languages langs = langs /\
  forall (env : Env) (input_file service : string) (api_key : option string)
         (formats : option (list string)) (output_root : option string) (zip_output : bool)
         (σ σ' : State) (summary : Summary),
    translate_pptx_multi env input_file langs service api_key formats
                         output_root zip_output σ = (Ok summary, σ') ->
    attempted_languages (new_events σ σ') = langs /\
    (failed_languages (new_events σ σ') = [] ->
     dict_keys (sum_translations summary) = langs).
Proof.
  unfold handler_languages.
  set (raw := match form_langs with
              | [] => if opt_truthy form_lang then [default "" form_lang] else []
              | _ => form_langs end).
  pose proof (clean_languages_elements raw) as Hel.
  destruct (clean_languages raw) as [| c0 cs] eqn:Ec; [intros H; discriminate H |].
  intros H. inversion H; subst langs; clear H.
  assert (Hnd : NoDup (unique (c0 :: cs))).
  { apply unique_loop_NoDup. constructor. }
  assert (Hclean : clean_languages (unique (c0 :: cs)) = unique (c0 :: cs)).
  { apply clean_languages_fixed, unique_elements, Hel. }
  assert (Hne : unique (c0 :: cs) <> []).
  { intros Hnil. assert (Hin : c0 ∈ unique (c0 :: cs)).
    { apply unique_loop_elem. right. apply list_elem_of_here. }
    rewrite Hnil in Hin. inversion Hin. }
  split; [exact Hne |]. split; [exact Hnd |]. split; [exact Hclean |].
  intros env input_file service api_key formats output_root zip_output σ σ' summary Hrun.
  destruct (translate_pptx_multi_prepared _ _ _ _ _ _ _ _ _ _ _ Hrun)
    as (σ2 & nf & root & Hprep).
  destruct (translate_pptx_multi_run env input_file _ service api_key formats
              output_root zip_output _ _ _ _ _ Hprep)
    as (summary0 & σ0 & evs & Hrun0 & _ & _ & _ & Hnew & Hatt & Hkeys & _ & Hall & _).
  rewrite Hrun in Hrun0. inversion Hrun0; subst summary0 σ0; clear Hrun0.
  rewrite Hnew, Hclean in *.
  change (attempted_languages (EvStarting (length (unique (c0 :: cs))) :: evs))
    with (attempted_languages evs).
  change (failed_languages (EvStarting (length (unique (c0 :: cs))) :: evs))
    with (failed_languages evs).
  split; [exact Hatt |].
  intros Hnone. rewrite Hkeys, (Hall Hnone).
  apply (unique_loop_NoDup_id [] _ Hnd).
Qed.

Lemma X23_handler_languages_processed_once_witness :
  handler_languages [" es"; "es "; "fr"] None = Accepted ["es"; "fr"] /\
  clean_languages ["es"; "fr"] = ["es"; "fr"].
Proof.
  assert (H : handler_languages [" es"; "es "; "fr"] None = Accepted ["es"; "fr"])
    by (vm_compute; reflexivity).
  split; [exact H |].
  exact (proj1 (proj2 (proj2 (X23_handler_languages_processed_once _ _ _ H)))).
Defined.

(** ** Upload names *)

Lemma rsplit_sound (sep : ascii) (s b a : string) :
  PyPath.rsplit sep s = Some (b, a) -> s = b +:+ String sep a.
Proof.
  revert b. induction s as [| c s IH]; intros b; simpl; [discriminate |].
  destruct (PyPath.rsplit sep s) as [[b' a'] |].
  - intros H. inversion H; subst. rewrite (IH b' eq_refl) at 1. reflexivity.
  - destruct (Ascii.eqb c sep) eqn:E; [| discriminate].
    apply Ascii.eqb_eq in E. subst. intros H. inversion H; subst. reflexivity.
Qed.

Lemma rsplit_last (sep : ascii) (b a : string) :
  PyPath.rsplit sep a = None -> PyPath.rsplit sep (b +:+ String sep a) = Some (b, a).
Proof.
  intros Ha. induction b as [| c b IH]; simpl.
  - rewrite Ha, Ascii.eqb_refl. reflexivity.
  - rewrite IH. reflexivity.
Qed.

Lemma lower_char_dot (c : ascii) : PyStr.lower_char c = "."%char -> c = "."%char.
Proof. destruct c as [[] [] [] [] [] [] [] []]; cbv; intros H; (reflexivity || discriminate H). Qed.

Lemma rsplit_none_lower (s : string) :
  PyPath.rsplit "." (PyStr.lower s) = None -> PyPath.rsplit "." s = None.
Proof.
  induction s as [| c s IH]; simpl; [reflexivity |].
  destruct (PyPath.rsplit "." (PyStr.lower s)) as [[b a] |]; [discriminate |].
  rewrite (IH eq_refl).
  destruct (Ascii.eqb (PyStr.lower_char c) ".") eqn:E; [discriminate |].
  intros _. destruct (Ascii.eqb c ".") eqn:E'; [| reflexivity].
  apply Ascii.eqb_eq in E'. subst c. discriminate E.
Qed.

(** X24: an upload name is accepted exactly when it ends in a dot followed
    by "pptx" in any letter case; what comes before that last dot does not
    matter (it may be empty or contain dots). *)
Theorem X24_allowed_file_characterised (filename : string) :
  allowed_file filename = true <->
  exists base extension : string,
    filename = base +:+ "." +:+ extension /\ PyStr.lower extension = "pptx".
Proof.
  unfold allowed_file. split.
  - destruct (PyPath.rsplit "." filename) as [[b a] |] eqn:E; [| discriminate].
    intros H. apply bool_decide_eq_true in H.
    exists b, a. split; [exact (rsplit_sound _ _ _ _ E) | exact H].
  - intros (base & ext & -> & Hext).
    assert (Hnone : PyPath.rsplit "." ext = None).
    { apply rsplit_none_lower. rewrite Hext. reflexivity. }
    change (base +:+ "." +:+ ext) with (base +:+ String "." ext).
    rewrite (rsplit_last _ _ _ Hnone). apply bool_decide_eq_true. exact Hext.
Qed.

Lemma X24_allowed_file_characterised_witness :
  allowed_file "Quarterly.Report.PPTX" = true /\ allowed_file "deck.pptx.exe" = false.
Proof.
  split.
  - apply X24_allowed_file_characterised. exists "Quarterly.Report", "PPTX".
    split; reflexivity.
  - vm_compute. reflexivity.
Defined.

(** ** The error list *)

Lemma error_entry_more_languages (l0 : string) (languages nf : list string) (z : bool)
    (msg : string) :
  error_entry languages nf z msg -> error_entry (l0 :: languages) nf z msg.
Proof.
  intros [(l & exc & Hl & ->) | [(l & exc & Hl & Hp & ->) | (exc & Hz & ->)]].
  - left. exists l, exc. split; [apply list_elem_of_further; exact Hl | reflexivity].
  - right. left. exists l, exc. split; [apply list_elem_of_further; exact Hl | auto].
  - right. right. exists exc. auto.
Qed.

Lemma language_loop_errors (env : Env) (input_path service : string)
    (api_key : option string) (nf : list string) (root : string) (z : bool)
    (languages : list string) :
  forall (translations : list (string * LangResult)) (errors : list string) (σ σ' : State)
         (translations' : list (string * LangResult)) (errors' : list string),
    language_loop env input_path service api_key nf root languages translations errors σ
      = (Ok (translations', errors'), σ') ->
    exists more, errors' = errors ++ more /\ Forall (error_entry languages nf z) more.
Proof.
  induction languages as [| language rest IH];
    intros translations errors σ σ' translations' errors'.
  - cbn [language_loop]. intros H. inversion H; subst.
    exists []. rewrite app_nil_r. split; [reflexivity | constructor].
  - destruct (process_language env input_path service api_key nf root language σ)
      as [[[entry pdf_errors] | exc] σ1] eqn:Hrun.
    + rewrite (language_loop_done _ _ _ _ _ _ language rest translations errors σ σ1
                 entry pdf_errors Hrun).
      intros Hloop. destruct (IH _ _ _ _ _ _ Hloop) as (more & -> & Hmore).
      exists (pdf_errors ++ more). rewrite app_assoc. split; [reflexivity |].
      apply Forall_app. split.
      * destruct (process_language_outcome _ _ _ _ _ _ _ _ _ _ _ Hrun)
          as [_ [-> | (e & -> & _ & Hpdf)]]; constructor; [| constructor].
        right. left. exists language, e. split; [apply list_elem_of_here | auto].
      * eapply Forall_impl; [exact Hmore |]. intros msg. apply error_entry_more_languages.
    + rewrite (language_loop_failed _ _ _ _ _ _ language rest translations errors σ σ1
                 exc Hrun).
      intros Hloop. destruct (IH _ _ _ _ _ _ Hloop) as (more & -> & Hmore).
      exists ([language +:+ ": " +:+ str_exn exc] ++ more).
      rewrite app_assoc. split; [reflexivity |].
      apply Forall_app. split.
      * constructor; [| constructor]. left. exists language, exc.
        split; [apply list_elem_of_here | reflexivity].
      * eapply Forall_impl; [exact Hmore |]. intros msg. apply error_entry_more_languages.
Qed.

(** X25: every entry of a summary's error list is of one of three kinds:
    "<language>: <exception>" for a requested language whose iteration
    raised, "<language> PDF export failed: <exception>" for a requested
    language when "pdf" was among the formats, or "ZIP packaging failed:
    <exception>" when an archive was asked for. *)
Theorem X25_error_list_entries
    (env : Env) (input_file : string) (target_langs : list string) (service : string)
    (api_key : option string) (formats : option (list string))
    (output_root : option string) (zip_output : bool)
    (σ σ' : State) (summary : Summary) :
  translate_pptx_multi env input_file target_langs service api_key formats
                       output_root zip_output σ = (Ok summary, σ') ->
  Forall (error_entry (clean_languages target_langs) (sum_formats summary) zip_output)
         (sum_errors summary).
Proof.
  intros Hrun.
  destruct (translate_pptx_multi_inv _ _ _ _ _ _ _ _ _ _ _ Hrun)
    as (σ2 & σ3 & er & _ & Hloop & Harch & _).
  destruct (language_loop_errors _ _ _ _ _ _ zip_output _ _ _ _ _ _ _ Hloop)
    as (more & -> & Hmore). cbn [app] in Harch.
  revert Harch. unfold archive_outputs.
  destruct zip_output; cbn [andb].
  2: { unfold mret, M_ret. intros H. inversion H. try (match goal with Heq : _ = sum_errors summary |- _ => rewrite <- Heq end). exact Hmore. }
  case_bool_decide as Hnil; cbn [negb].
  { unfold mret, M_ret. intros H. inversion H. try (match goal with Heq : _ = sum_errors summary |- _ => rewrite <- Heq end). exact Hmore. }
  rewrite try_except_run, bind_run. cbn [print fst snd]. rewrite bind_run.
  unfold _bundle_outputs_to_zip.
  destruct (env_zip_error env (sum_output_root summary)) as [exc |].
  - unfold raise, mret, M_ret. intros H. inversion H.
    try (match goal with Heq : _ = sum_errors summary |- _ => rewrite <- Heq end).
    apply Forall_app. split; [exact Hmore |].
    constructor; [| constructor]. right. right. exists exc. auto.
  - unfold mbind, M_bind, mret, M_ret, write_file, print. cbn.
    intros H. inversion H. try (match goal with Heq : _ = sum_errors summary |- _ => rewrite <- Heq end). exact Hmore.
Qed.

(** "es" cannot get its directory: the one error is of the first kind. *)
Lemma X25_error_list_entries_witness :
  exists (summary : Summary) (σ' : State),
    translate_pptx_multi Examples.env_plain "work/deck.pptx" ["es"; "fr"] "google" None None
                         (Some "out") true Examples.uploaded_es_taken = (Ok summary, σ') /\
    sum_errors summary = ["es: [Errno 17] File exists: 'out/es'"] /\
    Forall (error_entry ["es"; "fr"] ["pptx"] true) (sum_errors summary).
Proof.
  destruct (translate_pptx_multi Examples.env_plain "work/deck.pptx" ["es"; "fr"] "google"
              None None (Some "out") true Examples.uploaded_es_taken)
    as [[summary | e] σ'] eqn:E.
  - pose proof (X25_error_list_entries _ _ _ _ _ _ _ _ _ _ _ E) as Hall.
    exists summary, σ'. split; [reflexivity |].
    assert (Hs : sum_errors summary = ["es: [Errno 17] File exists: 'out/es'"] /\
                 sum_formats summary = ["pptx"]).
    { vm_compute in E. inversion E. split; reflexivity. }
    destruct Hs as [Herr Hnf]. rewrite Hnf in Hall. split; [exact Herr | exact Hall].
  - vm_compute in E. discriminate E.
Defined.

(** ** Jobs without PDF never look for the converter *)

Lemma keeps_cache_ret {A : Type} (a : A) : keeps_cache (mret a : M A).
Proof. intros σ. split; reflexivity. Qed.

Lemma keeps_cache_raise {A : Type} (e : exn) : keeps_cache (raise e : M A).
Proof. intros σ. split; reflexivity. Qed.

Lemma keeps_cache_bind {A B : Type} (m : M A) (k : A -> M B) :
  keeps_cache m ->
  (forall a, (exists σ σ1, m σ = (Ok a, σ1)) -> keeps_cache (k a)) ->
  keeps_cache (m ≫= k).
Proof.
  intros Hm Hk σ. rewrite bind_run. specialize (Hm σ).
  destruct (m σ) as [[a | e] σ1] eqn:E; cbn [snd] in *; [| exact Hm].
  destruct (Hk a (ex_intro _ σ (ex_intro _ σ1 E)) σ1) as [H1 H2].
  destruct Hm as [H3 H4]. split; congruence.
Qed.

Lemma keeps_cache_try {A : Type} (m : M A) (h : exn -> M A) :
  keeps_cache m -> (forall e, keeps_cache (h e)) -> keeps_cache (try_except m h).
Proof.
  intros Hm Hh σ. rewrite try_except_run. specialize (Hm σ).
  destruct (m σ) as [[a | e] σ1]; cbn [snd] in *; [exact Hm |].
  destruct (Hh e σ1) as [H1 H2]. destruct Hm as [H3 H4]. split; congruence.
Qed.

Lemma keeps_cache_print (ev : Event) : keeps_cache (print ev).
Proof. intros σ. split; reflexivity. Qed.

Lemma keeps_cache_get : keeps_cache (fun σ : State => (Ok σ, σ)).
Proof. intros σ. split; reflexivity. Qed.

Lemma keeps_cache_write_file (p : string) (f : File) : keeps_cache (write_file p f).
Proof. intros σ. split; reflexivity. Qed.

Lemma keeps_cache_mkdir (env : Env) (parents exist_ok : bool) (p : string) :
  keeps_cache (mkdir env parents exist_ok p).
Proof.
  intros σ. destruct (mkdir_frame env parents exist_ok p σ) as (_ & _ & Hc & Ha & _).
  split; assumption.
Qed.

Lemma keeps_cache_translate_pptx (env : Env) (i o l s : string) (k : option string) :
  keeps_cache (translate_pptx env i o l s k).
Proof. intros σ. unfold translate_pptx. repeat case_match; split; reflexivity. Qed.

Lemma keeps_cache_bundle (env : Env) (root : string) :
  keeps_cache (_bundle_outputs_to_zip env root).
Proof.
  unfold _bundle_outputs_to_zip.
  destruct (env_zip_error env root); [apply keeps_cache_raise |].
  apply keeps_cache_bind; [apply keeps_cache_write_file |]. intros _ _.
  apply keeps_cache_ret.
Qed.

Lemma keeps_cache_process_language (env : Env) (input_path service : string)
    (api_key : option string) (nf : list string) (root language : string) :
  "pdf" ∉ nf ->
  keeps_cache (process_language env input_path service api_key nf root language).
Proof.
  intros Hpdf. unfold process_language.
  apply keeps_cache_bind; [apply keeps_cache_print |]. intros _ _.
  apply keeps_cache_bind; [apply keeps_cache_mkdir |]. intros _ _.
  apply keeps_cache_bind; [apply keeps_cache_translate_pptx |]. intros translated _.
  apply keeps_cache_bind; [apply keeps_cache_get |]. intros σ _.
  rewrite bool_decide_eq_false_2 by exact Hpdf. cbn [andb].
  apply keeps_cache_bind; [apply keeps_cache_ret |].
  intros [outputs1 pdf_errors] _. apply keeps_cache_ret.
Qed.

Lemma keeps_cache_language_loop (env : Env) (input_path service : string)
    (api_key : option string) (nf : list string) (root : string) (languages : list string) :
  "pdf" ∉ nf ->
  forall translations errors,
    keeps_cache (language_loop env input_path service api_key nf root languages
                               translations errors).
Proof.
  intros Hpdf. induction languages as [| language rest IH]; intros translations errors.
  - apply keeps_cache_ret.
  - cbn [language_loop]. apply keeps_cache_bind.
    + apply keeps_cache_try.
      * apply keeps_cache_bind; [apply keeps_cache_process_language; exact Hpdf |].
        intros [entry pdf_errors] _.
        apply keeps_cache_bind; [apply keeps_cache_print |]. intros _ _.
        apply keeps_cache_ret.
      * intros exc. apply keeps_cache_bind; [apply keeps_cache_print |]. intros _ _.
        apply keeps_cache_ret.
    + intros [translations1 errors1] _. apply IH.
Qed.

(** X26: a job whose formats do not include "pdf" never consults the
    converter: whatever it returns or raises, the cached availability
    check is exactly as it was before the call. *)
Theorem X26_no_pdf_no_converter_check
    (env : Env) (input_file : string) (target_langs : list string) (service : string)
    (api_key : option string) (formats : option (list string))
    (output_root : option string) (zip_output : bool) (σ : State) :
  (forall nf, _normalize_formats formats = Ok nf -> "pdf" ∉ nf) ->
  let σ' := snd (translate_pptx_multi env input_file target_langs service api_key formats
                                      output_root zip_output σ) in
  _libreoffice_checked σ' = _libreoffice_checked σ /\
  _libreoffice_available σ' = _libreoffice_available σ.
Proof.
  intros Hpdf. cbn zeta. revert σ.
  change (keeps_cache (translate_pptx_multi env input_file target_langs service api_key
                         formats output_root zip_output)).
  unfold translate_pptx_multi. apply keeps_cache_bind.
  - unfold prepare_job. apply keeps_cache_bind; [apply keeps_cache_get |]. intros σ0 _.
    destruct (negb (path_exists σ0 input_file)); [apply keeps_cache_raise |].
    destruct (clean_languages target_langs); [apply keeps_cache_raise |].
    apply keeps_cache_bind; [intros σ; split; reflexivity |].
    intros nf (σ1 & σ2 & Hnf). unfold lift in Hnf. inversion Hnf as [[Hok Hs]].
    rewrite bool_decide_eq_false_2 by (apply Hpdf; exact Hok).
    apply keeps_cache_bind; [apply keeps_cache_ret |]. intros _ _.
    apply keeps_cache_bind.
    + unfold _ensure_output_root.
      apply keeps_cache_bind; [apply keeps_cache_mkdir |]. intros _ _.
      apply keeps_cache_ret.
    + intros root _. apply keeps_cache_ret.
  - intros [[languages nf] root] (σ1 & σ2 & Hprep).
    destruct (prepare_job_ok _ _ _ _ _ _ _ _ _ _ Hprep) as (_ & Hnf & _).
    apply keeps_cache_bind; [apply keeps_cache_print |]. intros _ _.
    apply keeps_cache_bind;
      [apply keeps_cache_language_loop; apply Hpdf; exact Hnf |].
    intros [translations errors] _.
    apply keeps_cache_bind.
    + unfold archive_outputs.
      destruct (zip_output && negb (bool_decide (translations = [])));
        [| apply keeps_cache_ret].
      apply keeps_cache_try.
      * apply keeps_cache_bind; [apply keeps_cache_print |]. intros _ _.
        apply keeps_cache_bind; [apply keeps_cache_bundle |]. intros zip_path _.
        apply keeps_cache_bind; [apply keeps_cache_print |]. intros _ _.
        apply keeps_cache_ret.
      * intros exc. apply keeps_cache_ret.
    + intros [zip_path errors'] _. apply keeps_cache_ret.
Qed.

(** A pptx-only job on a machine without the converter: nothing was checked. *)
Lemma X26_no_pdf_no_converter_check_witness :
  _libreoffice_checked
    (snd (translate_pptx_multi Examples.env_plain "work/deck.pptx" ["es"] "google" None
            (Some ["PPTX"]) (Some "out") true Examples.uploaded)) = false.
Proof.
  apply (X26_no_pdf_no_converter_check Examples.env_plain "work/deck.pptx" ["es"] "google"
           None (Some ["PPTX"]) (Some "out") true Examples.uploaded).
  intros nf H. vm_compute in H. inversion H; subst.
  intros Hin. apply list_elem_of_singleton in Hin. discriminate Hin.
Defined.
